(** * Opentrons motion core: trajectory planner, smoothie driver and
      deck-calibration session, embedded from the Python sources.

    - [Robot]       : [api/opentrons/robot/robot.py]
                      ([home], [move_to], [_create_arc],
                      [calibrate_container_with_instrument]).
    - [Driver]      : the smoothie driver, by its contract tests
                      ([api/tests/opentrons/drivers/test_driver.py]); the
                      driver module itself is not embedded.
    - [Calibration] : [api/opentrons/deck_calibration/endpoints.py].

    Lengths are millimetres.  Python floats are read as rationals: every
    property below depends only on the order and on the field operations,
    never on rounding. *)

From Stdlib Require Import QArith List String Bool ZArith Lia Lqa.
From Stdlib Require Import DecimalString Sorted Permutation.
Import ListNotations.
Open Scope Q_scope.

(** ** Python numbers and vectors *)

Module Py.

(** Strict comparison of two numbers, as a boolean. *)
Definition Qltb (a b : Q) : bool := negb (Qle_bool b a).

(** [max(a, b, c)]: the running maximum starts at the first argument and is
    replaced only by a strictly larger later argument. *)
Definition max3 (a b c : Q) : Q :=
  let m := if Qltb a b then b else a in
  if Qltb m c then c else m.

(** [min(a, b)]: the first argument unless the second is strictly smaller. *)
Definition min2 (a b : Q) : Q := if Qltb b a then b else a.

(** A Python integer. *)
Definition int : Type := Z.

(** A 3-vector (numpy array / [Vector] of length three). *)
Definition Vec3 : Type := (Q * Q * Q)%type.

Definition vx (v : Vec3) : Q := fst (fst v).
Definition vy (v : Vec3) : Q := snd (fst v).
Definition vz (v : Vec3) : Q := snd v.

(** [numpy.add] and [numpy.subtract] on 3-vectors. *)
Definition add (a b : Vec3) : Vec3 := (vx a + vx b, vy a + vy b, vz a + vz b).
Definition subtract (a b : Vec3) : Vec3 :=
  (vx a - vx b, vy a - vy b, vz a - vz b).

Lemma Qltb_lt (a b : Q) : Qltb a b = true <-> a < b.
Proof.
  unfold Qltb. rewrite negb_true_iff.
  split; intro H.
  - apply Qnot_le_lt. intro Hle. apply Qle_bool_iff in Hle. congruence.
  - destruct (Qle_bool b a) eqn:E; [|reflexivity].
    apply Qle_bool_iff in E. exfalso. exact (Qlt_not_le _ _ H E).
Qed.

Lemma Qltb_ge (a b : Q) : Qltb a b = false <-> b <= a.
Proof.
  unfold Qltb. rewrite negb_false_iff. apply Qle_bool_iff.
Qed.

Lemma max3_ge1 (a b c : Q) : a <= max3 a b c.
Proof.
  unfold max3.
  destruct (Qltb a b) eqn:E1.
  - apply Qltb_lt in E1.
    destruct (Qltb b c) eqn:E2; [apply Qltb_lt in E2|]; lra.
  - destruct (Qltb a c) eqn:E2; [apply Qltb_lt in E2|]; lra.
Qed.

Lemma max3_ge2 (a b c : Q) : b <= max3 a b c.
Proof.
  unfold max3.
  destruct (Qltb a b) eqn:E1.
  - destruct (Qltb b c) eqn:E2; [apply Qltb_lt in E2|]; lra.
  - apply Qltb_ge in E1.
    destruct (Qltb a c) eqn:E2; [apply Qltb_lt in E2|]; lra.
Qed.

Lemma max3_ge3 (a b c : Q) : c <= max3 a b c.
Proof.
  unfold max3.
  destruct (Qltb (if Qltb a b then b else a) c) eqn:E.
  - lra.
  - apply Qltb_ge in E. exact E.
Qed.

Lemma min2_le1 (a b : Q) : min2 a b <= a.
Proof.
  unfold min2. destruct (Qltb b a) eqn:E; [apply Qltb_lt in E|]; lra.
Qed.

Lemma min2_le2 (a b : Q) : min2 a b <= b.
Proof.
  unfold min2. destruct (Qltb b a) eqn:E; [|apply Qltb_ge in E]; lra.
Qed.

Lemma min2_cases (a b : Q) :
  (a <= b /\ min2 a b = a) \/ (b < a /\ min2 a b = b).
Proof.
  unfold min2. destruct (Qltb b a) eqn:E.
  - right. apply Qltb_lt in E. split; [exact E | reflexivity].
  - left. apply Qltb_ge in E. split; [exact E | reflexivity].
Qed.

End Py.

(** ** The trajectory planner of [robot.py] *)

Module Robot.
Import Py.

Definition TIP_CLEARANCE_DECK : Q := 20.
Definition TIP_CLEARANCE_LABWARE : Q := 5.

(** Instruments and containers are Python objects compared by identity;
    they are numbered here. *)
Definition Instrument : Type := nat.
Definition Container : Type := nat.

(** The placeables a location can name.  A [WellSeries] is never empty where
    [move_to] indexes it, so its first well is kept apart. *)
Inductive Placeable : Type :=
| Deck
| Slot (name : string)
| ContainerP (c : Container)
| Well (parent : Container) (name : string)
| WellSeries (parent : Container) (first : string) (rest : list string).

(** The keys of the pose tree the planner looks up. *)
Inductive Frame : Type :=
| FPlaceable (p : Placeable)
| FInstrument (i : Instrument).

(** The movers [home] drives, in the order it uses them. *)
Inductive Mover : Type :=
| Gantry
| Plunger (left : bool)
| Carriage (left : bool).

(** A location as [move_to] receives it: a placeable, or a placeable with a
    vector in its coordinate system. *)
Inductive Location : Type :=
| LocPlaceable (p : Placeable)
| LocPoint (p : Placeable) (v : Vec3).

(** The keyword arguments of [instrument._move]: absent keys are [None]. *)
Record Coords : Type := mkCoords {
  cx : option Q;
  cy : option Q;
  cz : option Q
}.

Inductive MoveError : Type :=
| RuntimeError (msg : string).

Section Planner.

(** The pose tree, the movers and the pipette geometry live in modules that
    are not embedded; the planner is parameterised by them. *)
Variable Poses : Type.
(** [pose_tracker.absolute(poses, obj)] *)
Variable absolute : Poses -> Frame -> Vec3.
(** [pose_tracker.max_z(poses, obj)] *)
Variable max_z : Poses -> Placeable -> Q.
(** [placeable.top()[1]], the vector of the top of a placeable *)
Variable top : Placeable -> Vec3.
(** ['trough' in repr(placeable)] *)
Variable is_trough : Placeable -> bool.
(** [instrument._move(poses, x=.., y=.., z=..)] *)
Variable inst_move : Instrument -> Poses -> Coords -> Poses.
(** [instrument.retract()], which rewrites [robot.poses] *)
Variable retract : Instrument -> Poses -> Poses.
(** [instrument._max_deck_height()] *)
Variable _max_deck_height : Instrument -> Poses -> Q.
(** [Mover.home(poses)] and [Mover.update_pose_from_driver(poses)] *)
Variable mover_home : Mover -> Poses -> Poses.
Variable update_pose_from_driver : Mover -> Poses -> Poses.
(** [pipette_config.Y_OFFSET_MULTI] *)
Variable Y_OFFSET_MULTI : Q.

(** The attributes of [Robot] the planner reads and writes.
    [max_deck_height_cache] is the [lru_cache] of [max_deck_height]. *)
Record Robot : Type := mkRobot {
  poses : Poses;
  _previous_instrument : option Instrument;
  _prev_container : option Container;
  _use_safest_height : bool;
  max_deck_height_cache : option Q
}.

Definition set_poses (r : Robot) (p : Poses) : Robot :=
  mkRobot p (_previous_instrument r) (_prev_container r)
          (_use_safest_height r) (max_deck_height_cache r).

Definition set_previous_instrument (r : Robot) (i : option Instrument) : Robot :=
  mkRobot (poses r) i (_prev_container r)
          (_use_safest_height r) (max_deck_height_cache r).

Definition set_prev_container (r : Robot) (c : option Container) : Robot :=
  mkRobot (poses r) (_previous_instrument r) c
          (_use_safest_height r) (max_deck_height_cache r).

Definition set_max_deck_height_cache (r : Robot) (h : option Q) : Robot :=
  mkRobot (poses r) (_previous_instrument r) (_prev_container r)
          (_use_safest_height r) h.

(** [Robot.max_deck_height], memoised by [lru_cache] until [cache_clear]. *)
Definition max_deck_height (r : Robot) : Q * Robot :=
  match max_deck_height_cache r with
  | Some h => (h, r)
  | None =>
      let h := max_z (poses r) Deck in
      (h, set_max_deck_height_cache r (Some h))
  end.

(** [Robot.max_placeable_height_on_deck] *)
Definition max_placeable_height_on_deck (r : Robot) (placeable : Placeable) : Q :=
  let offset := top placeable in
  let placeable_coordinate :=
    add (absolute (poses r) (FPlaceable placeable)) offset in
  let placeable_tallest_point := max_z (poses r) placeable in
  vz placeable_coordinate + placeable_tallest_point.

(** The first lines of [_create_arc]: the container a placeable belongs
    to. *)
Definition this_container_of (placeable : option Placeable) : option Container :=
  match placeable with
  | Some (Well parent _) => Some parent
  | Some (WellSeries parent _ _) => Some parent
  | Some (ContainerP c) => Some c
  | _ => None
  end.

(** [this_container and self._prev_container == this_container]: the
    container when the test holds.  A container object is always true. *)
Definition same_container (r : Robot) (this_container : option Container)
    : option Container :=
  match this_container, _prev_container r with
  | Some c, Some p => if Nat.eqb p c then Some c else None
  | _, _ => None
  end.

(** The three-way choice of [arc_top] in [_create_arc], before it is
    clamped. *)
Definition arc_top_before_clamp (r : Robot) (inst : Instrument)
    (this_container : option Container) : Q * Robot :=
  match same_container r this_container with
  | Some c =>
      (max_placeable_height_on_deck r (ContainerP c) + TIP_CLEARANCE_LABWARE, r)
  | None =>
      if _use_safest_height r then
        (_max_deck_height inst (poses r), r)
      else
        let '(h, r1) := max_deck_height r in
        (h + TIP_CLEARANCE_DECK, r1)
  end.

(** [Robot._create_arc]: the list of keyword dictionaries and the robot
    with [_prev_container] (and the height cache) updated. *)
Definition _create_arc (r : Robot) (inst : Instrument) (destination : Vec3)
    (placeable : option Placeable) : list Coords * Robot :=
  let this_container := this_container_of placeable in
  let '(arc_top, r1) := arc_top_before_clamp r inst this_container in
  let r2 := set_prev_container r1 this_container in
  let pip_z := vz (absolute (poses r2) (FInstrument inst)) in
  let arc_top := max3 arc_top (vz destination) pip_z in
  let arc_top := min2 arc_top (_max_deck_height inst (poses r2)) in
  let strategy :=
    [ mkCoords None None (Some arc_top);
      mkCoords (Some (vx destination)) (Some (vy destination)) None;
      mkCoords None None (Some (vz destination)) ] in
  (strategy, r2).

(** [containers.unpack_location] *)
Definition unpack_location (location : Location) : Placeable * Vec3 :=
  match location with
  | LocPlaceable p => (p, top p)
  | LocPoint p v => (p, v)
  end.

(** Lines 618-640 of [move_to]: the absolute target and the placeable kept
    for the arc. *)
Definition move_target (r : Robot) (location : Location) : Vec3 * Placeable :=
  let '(placeable, coordinates) := unpack_location location in
  let offset := subtract coordinates (top placeable) in
  let offset :=
    if is_trough placeable then add offset (0, Y_OFFSET_MULTI, 0) else offset in
  let placeable :=
    match placeable with
    | WellSeries parent first _ => Well parent first
    | p => p
    end in
  (add (absolute (poses r) (FPlaceable placeable)) offset, placeable).

(** Lines 643-650 of [move_to]: retract the previous instrument when it
    differs, forget the previous container, remember the instrument. *)
Definition switch_instrument (r : Robot) (instrument : Instrument) : Robot :=
  let r1 :=
    match _previous_instrument r with
    | Some prev =>
        if negb (Nat.eqb prev instrument) then
          set_prev_container (set_poses r (retract prev (poses r))) None
        else r
    | None => r
    end in
  set_previous_instrument r1 (Some instrument).

(** [Robot.move_to]: the robot after the move, or the exception raised
    for an unknown strategy together with the robot as it is left then (the
    previous instrument is retracted and replaced before the strategy is
    looked at). *)
Definition move_to (r : Robot) (location : Location) (instrument : Instrument)
    (strategy : string) : (MoveError * Robot) + Robot :=
  let '(target, placeable) := move_target r location in
  let r1 := switch_instrument r instrument in
  if String.eqb strategy "arc" then
    let '(arc_coords, r2) := _create_arc r1 instrument target (Some placeable) in
    inr (fold_left
           (fun acc coord => set_poses acc (inst_move instrument (poses acc) coord))
           arc_coords r2)
  else if String.eqb strategy "direct" then
    let position :=
      mkCoords (Some (vx target)) (Some (vy target)) (Some (vz target)) in
    inr (set_poses r1 (inst_move instrument (poses r1) position))
  else
    inl (RuntimeError ("Unknown move strategy: " ++ strategy)%string, r1).

(** [Robot.home] *)
Definition home (r : Robot) : Robot :=
  let r := set_poses r (mover_home Gantry (poses r)) in
  let r := set_poses r (mover_home (Plunger true) (poses r)) in
  let r := set_poses r (mover_home (Plunger false) (poses r)) in
  let r := set_previous_instrument r None in
  let r := set_prev_container r None in
  fold_left
    (fun acc m => set_poses acc (update_pose_from_driver m (poses acc)))
    [Carriage true; Carriage false] r.

(** The travel height of an arc: the [z] of its first waypoint. *)
Definition arc_height (strategy : list Coords) : option Q :=
  match strategy with
  | c :: _ => cz c
  | [] => None
  end.

(** A run of direct moves, each with its own location and instrument. *)
Fixpoint direct_moves (r : Robot) (ms : list (Location * Instrument)) : Robot :=
  match ms with
  | [] => r
  | (loc, inst) :: rest =>
      match move_to r loc inst "direct" with
      | inr r' => direct_moves r' rest
      | inl (_, r') => r'
      end
  end.

(** [Robot.calibrate_container_with_instrument], up to the call of
    [calibrate_container_with_delta]: the three deltas it passes on.
    [delta] is [pose_tracker.change_base(poses, src=instrument, dst=well)],
    [calibrate_to_bottom] the feature flag, [tiprack] and [trough] the two
    tests on [container.get_type()], [z_size] is [well.z_size()]. *)
Definition calibration_delta (delta : Vec3) (calibrate_to_bottom tiprack trough : bool)
    (z_size : Q) : Vec3 :=
  let delta_x := vx delta in
  let delta_y := vy delta in
  let delta_z :=
    if calibrate_to_bottom then
      if tiprack then vz delta else vz delta + z_size
    else vz delta in
  let delta_y := if trough then delta_y - Y_OFFSET_MULTI else delta_y in
  (delta_x, delta_y, delta_z).

(** *** Facts about the planner *)



Lemma switch_instrument_safest (r : Robot) (inst : Instrument) :
  _use_safest_height (switch_instrument r inst) = _use_safest_height r.
Proof.
  unfold switch_instrument.
  destruct (_previous_instrument r) as [prev|]; simpl; [|reflexivity].
  destruct (negb (Nat.eqb prev inst)); reflexivity.
Qed.




Lemma same_container_hit (r : Robot) (c : Container) :
  _prev_container r = Some c -> same_container r (Some c) = Some c.
Proof.
  intro H. unfold same_container. rewrite H, Nat.eqb_refl. reflexivity.
Qed.


Lemma arc_top_before_clamp_poses (r : Robot) (inst : Instrument)
    (tc : option Container) :
  poses (snd (arc_top_before_clamp r inst tc)) = poses r.
Proof.
  unfold arc_top_before_clamp, max_deck_height.
  destruct (same_container r tc); [reflexivity|].
  destruct (_use_safest_height r); [reflexivity|].
  destruct (max_deck_height_cache r); reflexivity.
Qed.

(** The travel height [_create_arc] returns, spelled out. *)
Lemma create_arc_height (r : Robot) (inst : Instrument) (destination : Vec3)
    (placeable : option Placeable) :
  arc_height (fst (_create_arc r inst destination placeable)) =
  Some (min2
          (max3 (fst (arc_top_before_clamp r inst (this_container_of placeable)))
                (vz destination)
                (vz (absolute (poses r) (FInstrument inst))))
          (_max_deck_height inst (poses r))).
Proof.
  unfold _create_arc.
  pose proof (arc_top_before_clamp_poses r inst (this_container_of placeable)) as Hp.
  destruct (arc_top_before_clamp r inst (this_container_of placeable)) as [h r1].
  simpl in *. rewrite Hp. reflexivity.
Qed.

(** The claim of C2 as the specification words it: the travel height is at
    least the destination's z and the instrument's current z, and at most
    the instrument's maximum reachable height. *)
Definition arc_bounds_as_specified (r : Robot) (inst : Instrument)
    (destination : Vec3) (placeable : option Placeable) : Prop :=
  exists h, arc_height (fst (_create_arc r inst destination placeable)) = Some h
    /\ vz destination <= h
    /\ vz (absolute (poses r) (FInstrument inst)) <= h
    /\ h <= _max_deck_height inst (poses r).

(** C2 (amended).  The travel height of every arc never exceeds the
    instrument's maximum reachable height, whatever branch chose the
    clearance; it is at least the destination's z and the instrument's
    current z whenever those two do not themselves exceed that maximum
    (the upper clamp is applied last and wins otherwise). *)
Theorem create_arc_height_bounds (r : Robot) (inst : Instrument)
    (destination : Vec3) (placeable : option Placeable) :
  exists h, arc_height (fst (_create_arc r inst destination placeable)) = Some h
    /\ h <= _max_deck_height inst (poses r)
    /\ (vz destination <= _max_deck_height inst (poses r) ->
        vz (absolute (poses r) (FInstrument inst)) <= _max_deck_height inst (poses r) ->
        vz destination <= h /\ vz (absolute (poses r) (FInstrument inst)) <= h).
Proof.
  eexists. split; [apply create_arc_height|].
  split; [apply min2_le2|].
  intros Hd Hp.
  set (pre := fst (arc_top_before_clamp r inst (this_container_of placeable))).
  set (d := vz destination) in *.
  set (p := vz (absolute (poses r) (FInstrument inst))) in *.
  set (M := _max_deck_height inst (poses r)) in *.
  pose proof (max3_ge2 pre d p) as H2.
  pose proof (max3_ge3 pre d p) as H3.
  destruct (min2_cases (max3 pre d p) M) as [[_ E]|[_ E]]; rewrite E.
  - split; assumption.
  - split; assumption.
Qed.

(** The robot as [move_to] hands it to [_create_arc] for an arc move. *)
Definition arc_entry_state (r : Robot) (inst : Instrument) : Robot :=
  switch_instrument r inst.

Lemma move_to_arc (r : Robot) (loc : Location) (inst : Instrument) :
  move_to r loc inst "arc" =
  inr (fold_left
         (fun acc coord => set_poses acc (inst_move inst (poses acc) coord))
         (fst (_create_arc (arc_entry_state r inst) inst
                 (fst (move_target r loc)) (Some (snd (move_target r loc)))))
         (snd (_create_arc (arc_entry_state r inst) inst
                 (fst (move_target r loc)) (Some (snd (move_target r loc)))))).
Proof.
  unfold move_to, arc_entry_state.
  destruct (move_target r loc) as [target placeable]. simpl.
  destruct (_create_arc (switch_instrument r inst) inst target (Some placeable)).
  reflexivity.
Qed.


(** *** Further facts about the planner *)

(** [pose_tracker.change_base(poses, src=.., dst=..)] *)
Variable change_base : Poses -> Frame -> Frame -> Vec3.
(** [calib.calibrate_container_with_delta(poses, container, dx, dy, dz, save)] *)
Variable calibrate_container_with_delta :
  Poses -> Container -> Q -> Q -> Q -> bool -> Poses.
(** [fflags.calibrate_to_bottom()] *)
Variable calibrate_to_bottom : bool.
(** [container.get_type()], [container[0]] and [well.z_size()] *)
Variable get_type : Container -> string.
Variable first_well : Container -> Placeable.
Variable z_size : Placeable -> Q.

(** [needle in haystack] for strings *)
Definition contains (needle haystack : string) : bool :=
  match String.index 0 needle haystack with
  | Some _ => true
  | None => false
  end.

(** [Robot.calibrate_container_with_instrument]: the pose tree is replaced
    by the calibrated one and the cache of [max_deck_height] is cleared. *)
Definition calibrate_container_with_instrument (r : Robot) (container : Container)
    (instrument : Instrument) (save : bool) : Robot :=
  let well := first_well container in
  let delta := change_base (poses r) (FInstrument instrument) (FPlaceable well) in
  let d := calibration_delta delta calibrate_to_bottom
             (contains "tiprack" (get_type container))
             (contains "trough" (get_type container)) (z_size well) in
  let r1 :=
    set_poses r (calibrate_container_with_delta (poses r) container
                   (vx d) (vy d) (vz d) save) in
  set_max_deck_height_cache r1 None.

Lemma moves_keep_fields (inst : Instrument) (coords : list Coords) (r : Robot) :
  let r' := fold_left
              (fun acc coord => set_poses acc (inst_move inst (poses acc) coord))
              coords r in
  _previous_instrument r' = _previous_instrument r
  /\ _prev_container r' = _prev_container r
  /\ _use_safest_height r' = _use_safest_height r
  /\ max_deck_height_cache r' = max_deck_height_cache r.
Proof.
  revert r. induction coords as [|c rest IH]; intro r; cbn.
  - repeat split.
  - destruct (IH (set_poses r (inst_move inst (poses r) c))) as [H1 [H2 [H3 H4]]].
    repeat split; assumption.
Qed.

Lemma arc_top_before_clamp_fields (r : Robot) (inst : Instrument)
    (tc : option Container) :
  let r1 := snd (arc_top_before_clamp r inst tc) in
  _previous_instrument r1 = _previous_instrument r
  /\ _use_safest_height r1 = _use_safest_height r
  /\ (forall h, max_deck_height_cache r = Some h -> max_deck_height_cache r1 = Some h).
Proof.
  unfold arc_top_before_clamp, max_deck_height.
  destruct (same_container r tc); [repeat split; auto|].
  destruct (_use_safest_height r) eqn:E; [repeat split; auto|].
  destruct (max_deck_height_cache r) eqn:Ec; cbn.
  - split; [reflexivity|]. split; [exact E|]. intros h Hh. congruence.
  - split; [reflexivity|]. split; [exact E|]. intros h Hh. discriminate.
Qed.

Lemma switch_instrument_fields (r : Robot) (inst : Instrument) :
  _previous_instrument (switch_instrument r inst) = Some inst
  /\ max_deck_height_cache (switch_instrument r inst) = max_deck_height_cache r.
Proof.
  unfold switch_instrument.
  destruct (_previous_instrument r) as [prev|]; [|split; reflexivity].
  destruct (negb (Nat.eqb prev inst)); split; reflexivity.
Qed.

Lemma create_arc_fields (r : Robot) (inst : Instrument) (destination : Vec3)
    (placeable : option Placeable) :
  let r2 := snd (_create_arc r inst destination placeable) in
  _previous_instrument r2 = _previous_instrument r
  /\ _prev_container r2 = this_container_of placeable
  /\ _use_safest_height r2 = _use_safest_height r
  /\ (forall h, max_deck_height_cache r = Some h -> max_deck_height_cache r2 = Some h).
Proof.
  unfold _create_arc.
  pose proof (arc_top_before_clamp_fields r inst (this_container_of placeable)) as Hf.
  destruct (arc_top_before_clamp r inst (this_container_of placeable)) as [top0 ra].
  cbn in *. exact (conj (proj1 Hf) (conj eq_refl (proj2 Hf))).
Qed.

(** What any successful move leaves behind. *)
Lemma move_to_fields (r r1 : Robot) (loc : Location) (inst : Instrument)
    (strategy : string) :
  move_to r loc inst strategy = inr r1 ->
  _previous_instrument r1 = Some inst
  /\ _use_safest_height r1 = _use_safest_height r
  /\ (forall h, max_deck_height_cache r = Some h -> max_deck_height_cache r1 = Some h)
  /\ (strategy = "arc"%string ->
      _prev_container r1 = this_container_of (Some (snd (move_target r loc)))).
Proof.
  intro E.
  destruct (switch_instrument_fields r inst) as [Hi Hc].
  pose proof (switch_instrument_safest r inst) as Hs.
  destruct (String.eqb strategy "arc") eqn:Earc.
  - apply String.eqb_eq in Earc. subst strategy.
    rewrite move_to_arc in E. injection E as E. subst r1.
    unfold arc_entry_state.
    match goal with
    | |- context [fold_left ?f ?l ?a] =>
        destruct (moves_keep_fields inst l a) as [M1 [M2 [M3 M4]]]
    end.
    cbv zeta in M1, M2, M3, M4. rewrite M1, M2, M3, M4.
    destruct (create_arc_fields (switch_instrument r inst) inst
                (fst (move_target r loc)) (Some (snd (move_target r loc))))
      as [C1 [C2 [C3 C4]]].
    cbv zeta in C1, C2, C3, C4. rewrite C1, C2, C3.
    split; [exact Hi|]. split; [exact Hs|].
    split; [intros h Hh; apply C4; congruence|].
    intros _. reflexivity.
  - unfold move_to in E. destruct (move_target r loc) as [target placeable].
    rewrite Earc in E.
    destruct (String.eqb strategy "direct") eqn:Edir; [|discriminate].
    injection E as E. subst r1.
    cbn [_previous_instrument _use_safest_height max_deck_height_cache set_poses].
    split; [exact Hi|]. split; [exact Hs|].
    split; [intros h Hh; rewrite Hc; exact Hh|].
    intro Hstr. subst strategy. discriminate.
Qed.

(** The container a placeable lies in, as the planner's description means
    it: a container itself, the container of a well, the container of a
    series of wells.  The deck and a slot lie in none. *)
Inductive lies_in : Placeable -> Container -> Prop :=
| lies_in_container (c : Container) : lies_in (ContainerP c) c
| lies_in_well (c : Container) (name : string) : lies_in (Well c name) c
| lies_in_series (c : Container) (first : string) (rest : list string) :
    lies_in (WellSeries c first rest) c.

Lemma lies_in_this_container (p : Placeable) (c : Container) :
  lies_in p c <-> this_container_of (Some p) = Some c.
Proof.
  split.
  - intros []; reflexivity.
  - destruct p; cbn; intro H; try discriminate; injection H as <-; constructor.
Qed.

Lemma move_target_container (r : Robot) (loc : Location) :
  this_container_of (Some (snd (move_target r loc)))
  = this_container_of (Some (fst (unpack_location loc))).
Proof.
  unfold move_target. destruct (unpack_location loc) as [p v].
  destruct p; reflexivity.
Qed.

(** The height [_create_arc] chooses, before clamping, for an arc move of
    [inst] to [loc] from the robot [r]. *)
Definition arc_top_of_move (r : Robot) (loc : Location) (inst : Instrument) : Q :=
  fst (arc_top_before_clamp (arc_entry_state r inst) inst
         (this_container_of (Some (snd (move_target r loc))))).



Lemma move_to_direct_same_instrument (r : Robot) (loc : Location)
    (inst : Instrument) :
  _previous_instrument r = Some inst ->
  exists r', move_to r loc inst "direct" = inr r'
    /\ _previous_instrument r' = Some inst
    /\ _prev_container r' = _prev_container r.
Proof.
  intro Hi. unfold move_to. destruct (move_target r loc) as [target placeable].
  cbn. eexists. split; [reflexivity|].
  unfold switch_instrument. rewrite Hi, Nat.eqb_refl. cbn.
  split; reflexivity.
Qed.

(** X25.  Direct moves do not touch the container the last arc recorded.
    After an arc of an instrument into a container, whatever direct moves
    of the same instrument follow and wherever they go, the container is
    still recorded, and the next arc of that instrument into that container
    travels, before clamping, at the container's height on the deck plus
    5 mm. *)
Theorem direct_moves_keep_recorded_container (r r1 : Robot)
    (loc1 loc2 : Location) (inst : Instrument) (c : Container)
    (ms : list Location) :
  move_to r loc1 inst "arc" = inr r1 ->
  lies_in (fst (unpack_location loc1)) c ->
  lies_in (fst (unpack_location loc2)) c ->
  let r2 := direct_moves r1 (map (fun l => (l, inst)) ms) in
  _prev_container r2 = Some c
  /\ arc_top_of_move r2 loc2 inst
     = max_placeable_height_on_deck (arc_entry_state r2 inst) (ContainerP c) + 5.
Proof.
  intros Hmove H1 H2 r2.
  destruct (move_to_fields r r1 loc1 inst "arc" Hmove) as [Hi [_ [_ Hc]]].
  specialize (Hc eq_refl). rewrite move_target_container in Hc.
  apply lies_in_this_container in H1, H2. rewrite H1 in Hc.
  assert (Hkeep : forall ms' r0,
             _previous_instrument r0 = Some inst ->
             _prev_container r0 = Some c ->
             _previous_instrument (direct_moves r0 (map (fun l => (l, inst)) ms'))
             = Some inst
             /\ _prev_container (direct_moves r0 (map (fun l => (l, inst)) ms'))
                = Some c).
  { induction ms' as [|l rest IH]; intros r0 Hi0 Hc0; [split; assumption|].
    cbn [map direct_moves].
    destruct (move_to_direct_same_instrument r0 l inst Hi0) as [r' [E [Hi' Hc']]].
    rewrite E. apply IH; [exact Hi' | congruence]. }
  destruct (Hkeep ms r1 Hi Hc) as [Hi2 Hc2]. fold r2 in Hi2, Hc2.
  split; [exact Hc2|].
  unfold arc_top_of_move. rewrite move_target_container, H2.
  unfold arc_top_before_clamp. rewrite same_container_hit; [reflexivity|].
  unfold arc_entry_state, switch_instrument. rewrite Hi2, Nat.eqb_refl.
  cbn. exact Hc2.
Qed.

(** X12.  Two arcs in a row with the same instrument into the same
    container: the first leaves the container recorded, nothing is
    retracted before the second, and the second rises only to the
    container's height on the deck plus 5 mm before clamping. *)
Theorem second_arc_in_container_is_low (r r1 : Robot) (loc1 loc2 : Location)
    (inst : Instrument) (c : Container) :
  move_to r loc1 inst "arc" = inr r1 ->
  this_container_of (Some (snd (move_target r loc1))) = Some c ->
  this_container_of (Some (snd (move_target r1 loc2))) = Some c ->
  _prev_container r1 = Some c
  /\ poses (arc_entry_state r1 inst) = poses r1
  /\ fst (arc_top_before_clamp (arc_entry_state r1 inst) inst
            (this_container_of (Some (snd (move_target r1 loc2)))))
     = max_placeable_height_on_deck r1 (ContainerP c) + TIP_CLEARANCE_LABWARE.
Proof.
  intros Hmove H1 H2.
  destruct (move_to_fields r r1 loc1 inst "arc" Hmove) as [Hi [_ [_ Hc]]].
  specialize (Hc eq_refl). rewrite H1 in Hc.
  assert (He : arc_entry_state r1 inst = set_previous_instrument r1 (Some inst)).
  { unfold arc_entry_state, switch_instrument. rewrite Hi, Nat.eqb_refl.
    reflexivity. }
  split; [exact Hc|]. rewrite He, H2.
  split; [reflexivity|].
  unfold arc_top_before_clamp, same_container. cbn [_prev_container set_previous_instrument].
  rewrite Hc, Nat.eqb_refl. reflexivity.
Qed.


(** X14.  The deck height is computed once and then served from the cache:
    a second query answers the first value whatever the pose tree has
    become, and [home] and every successful move keep a cached value.
    Calibrating a container clears the cache, so the query after it reads
    the calibrated pose tree. *)
Theorem deck_height_cached_until_calibration :
  (forall (r : Robot) (p' : Poses),
     fst (max_deck_height (set_poses (snd (max_deck_height r)) p'))
     = fst (max_deck_height r))
  /\ (forall (r : Robot) (h : Q),
        max_deck_height_cache r = Some h ->
        fst (max_deck_height (home r)) = h
        /\ forall loc inst strategy r1,
             move_to r loc inst strategy = inr r1 ->
             fst (max_deck_height r1) = h)
  /\ (forall (r : Robot) (container : Container) (instrument : Instrument)
             (save : bool),
        let r' := calibrate_container_with_instrument r container instrument save in
        fst (max_deck_height r') = max_z (poses r') Deck).
Proof.
  split; [|split].
  - intros r p'. unfold max_deck_height.
    destruct (max_deck_height_cache r) as [h|] eqn:E; cbn.
    + rewrite E. reflexivity.
    + reflexivity.
  - intros r h Hh. split.
    + unfold max_deck_height, home. cbn. rewrite Hh. reflexivity.
    + intros loc inst strategy r1 Hmove.
      destruct (move_to_fields r r1 loc inst strategy Hmove) as [_ [_ [Hc _]]].
      unfold max_deck_height. rewrite (Hc h Hh). reflexivity.
  - intros r container instrument save r'. reflexivity.
Qed.

End Planner.

(** *** A small deck on which the planner runs

    One tracked instrument whose pose is the whole pose tree; every
    placeable sits at the origin; the deck's tallest point is 100 mm, a
    container's 40 mm; the instrument reaches 200 mm. *)

Definition ex_absolute (p : Vec3) (f : Frame) : Vec3 :=
  match f with
  | FInstrument _ => p
  | FPlaceable _ => (0, 0, 0)
  end.

Definition ex_max_z (p : Vec3) (pl : Placeable) : Q :=
  match pl with
  | Deck => 100
  | _ => 40
  end.

Definition ex_top (pl : Placeable) : Vec3 := (0, 0, 0).

Definition ex_is_trough (pl : Placeable) : bool := false.

Definition ex_inst_move (i : Instrument) (p : Vec3) (c : Coords) : Vec3 :=
  (match cx c with Some x => x | None => vx p end,
   match cy c with Some y => y | None => vy p end,
   match cz c with Some z => z | None => vz p end).

Definition ex_retract (i : Instrument) (p : Vec3) : Vec3 := (vx p, vy p, 200).

Definition ex_max_deck_height (i : Instrument) (p : Vec3) : Q := 200.

Definition ex_mover_home (m : Mover) (p : Vec3) : Vec3 :=
  match m with
  | Gantry => (400, 350, 200)
  | _ => p
  end.

Definition ex_update_pose_from_driver (m : Mover) (p : Vec3) : Vec3 := p.

(** The instrument rests at z = 10; nothing has moved yet. *)
Definition ex_robot : Robot Vec3 :=
  mkRobot Vec3 (0, 0, 10) None None false None.

(** The same robot after a move inside container 7, in safest-height
    mode. *)
Definition ex_robot_in_container : Robot Vec3 :=
  mkRobot Vec3 (0, 0, 10) (Some 1%nat) (Some 7%nat) true None.

(** C2, counterexample.  A destination 300 mm above the deck, beyond the
    200 mm the instrument reaches: the arc travels at 200 mm, below the
    destination. *)
Lemma arc_below_unreachable_destination :
  ~ arc_bounds_as_specified Vec3 ex_absolute ex_max_z ex_top ex_max_deck_height
      ex_robot 1%nat (50, 50, 300) (Some Deck).
Proof.
  intros [h [E [Hd _]]].
  rewrite create_arc_height in E.
  injection E as E. subst h.
  vm_compute in Hd. apply Hd. reflexivity.
Qed.

Lemma create_arc_height_bounds_witness :
  exists h,
    arc_height (fst (_create_arc Vec3 ex_absolute ex_max_z ex_top
                       ex_max_deck_height ex_robot 1%nat (50, 50, 30) (Some Deck)))
    = Some h
    /\ h <= 200 /\ 30 <= h /\ 10 <= h.
Proof.
  destruct (create_arc_height_bounds Vec3 ex_absolute ex_max_z ex_top
              ex_max_deck_height ex_robot 1%nat (50, 50, 30) (Some Deck))
    as [h [E [Hmax Hlow]]].
  exists h. split; [exact E|]. split; [exact Hmax|].
  apply Hlow; vm_compute; discriminate.
Defined.


Definition ex_move_to :=
  move_to Vec3 ex_absolute ex_max_z ex_top ex_is_trough ex_inst_move ex_retract
          ex_max_deck_height (63 # 2).

Definition ex_home := home Vec3 ex_mover_home ex_update_pose_from_driver.

(** Inside container 7 a second arc to one of its wells rises to 45 mm
    only; after [home] the same move rises to the instrument's maximum (the
    robot is in safest-height mode), and the planner remembers container 7
    again. *)
Example ex_arc_in_container :
  arc_height (fst (_create_arc Vec3 ex_absolute ex_max_z ex_top
                     ex_max_deck_height ex_robot_in_container 1%nat (5, 5, 20)
                     (Some (Well 7%nat "B2"))))
  = Some (0 + 0 + 40 + 5).
Proof. reflexivity. Qed.

Example ex_arc_after_home :
  arc_height (fst (_create_arc Vec3 ex_absolute ex_max_z ex_top
                     ex_max_deck_height (ex_home ex_robot_in_container) 1%nat
                     (5, 5, 20) (Some (Well 7%nat "B2"))))
  = Some 200
  /\ ex_move_to (ex_home ex_robot_in_container)
       (LocPoint (Well 7%nat "B2") (5, 5, 20)) 1%nat "arc"
     = inr (mkRobot Vec3 (0 + (5 - 0), 0 + (5 - 0), 0 + (20 - 0))
              (Some 1%nat) (Some 7%nat) true None).
Proof. split; reflexivity. Qed.

(** The arc of the error-free run: rise to 120 mm, cross, descend. *)
Example ex_arc_run :
  fst (_create_arc Vec3 ex_absolute ex_max_z ex_top ex_max_deck_height
         ex_robot 1%nat (50, 60, 30) (Some Deck))
  = [ mkCoords None None (Some (100 + 20));
      mkCoords (Some 50) (Some 60) None;
      mkCoords None None (Some 30) ].
Proof. reflexivity. Qed.

(** The robot after its first arc, with instrument 1 into well B2 of
    container 7. *)
Definition ex_after_arc : Robot Vec3 :=
  match ex_move_to ex_robot (LocPoint (Well 7%nat "B2") (5, 5, 20)) 1%nat "arc" with
  | inr r1 => r1
  | inl _ => ex_robot
  end.

Definition ex_arc_top_of_move :=
  arc_top_of_move Vec3 ex_absolute ex_max_z ex_top ex_is_trough ex_retract
                  ex_max_deck_height (63 # 2).



(** Instrument 1 makes an arc into container 7, goes straight to a well
    of container 8 and then makes an arc back into container 7: it travels
    at the 45 mm of container 7. *)
Lemma direct_moves_keep_recorded_container_witness :
  _prev_container Vec3
    (direct_moves Vec3 ex_absolute ex_max_z ex_top ex_is_trough ex_inst_move
       ex_retract ex_max_deck_height (63 # 2) ex_after_arc
       [(LocPoint (Well 8%nat "A1") (1, 2, 3), 1%nat)])
  = Some 7%nat
  /\ ex_arc_top_of_move
       (direct_moves Vec3 ex_absolute ex_max_z ex_top ex_is_trough ex_inst_move
          ex_retract ex_max_deck_height (63 # 2) ex_after_arc
          [(LocPoint (Well 8%nat "A1") (1, 2, 3), 1%nat)])
       (LocPoint (Well 7%nat "C3") (9, 9, 20)) 1%nat
     = 0 + 0 + 40 + 5.
Proof.
  exact (direct_moves_keep_recorded_container Vec3 ex_absolute ex_max_z ex_top
           ex_is_trough ex_inst_move ex_retract ex_max_deck_height (63 # 2)
           ex_robot ex_after_arc (LocPoint (Well 7%nat "B2") (5, 5, 20))
           (LocPoint (Well 7%nat "C3") (9, 9, 20)) 1%nat 7%nat
           [LocPoint (Well 8%nat "A1") (1, 2, 3)]
           eq_refl (lies_in_well 7%nat "B2") (lies_in_well 7%nat "C3")).
Defined.

Lemma second_arc_in_container_is_low_witness :
  ex_move_to ex_robot (LocPoint (Well 7%nat "B2") (5, 5, 20)) 1%nat "arc"
  = inr ex_after_arc
  /\ _prev_container Vec3 ex_after_arc = Some 7%nat
  /\ fst (arc_top_before_clamp Vec3 ex_absolute ex_max_z ex_top ex_max_deck_height
            (arc_entry_state Vec3 ex_retract ex_after_arc 1%nat) 1%nat
            (Some 7%nat))
     = 0 + 0 + 40 + 5.
Proof.
  split; [reflexivity|].
  pose proof (second_arc_in_container_is_low Vec3 ex_absolute ex_max_z ex_top
                ex_is_trough ex_inst_move ex_retract ex_max_deck_height (63 # 2)
                ex_robot ex_after_arc
                (LocPoint (Well 7%nat "B2") (5, 5, 20))
                (LocPoint (Well 7%nat "C3") (9, 9, 20)) 1%nat 7%nat
                eq_refl eq_refl eq_refl) as [Hc [_ Hh]].
  split; [exact Hc | exact Hh].
Defined.


(** Stand-ins for the calibration of a container: the pose tree is moved
    by the measured difference. *)
Definition ex_change_base (p : Vec3) (src dst : Frame) : Vec3 :=
  Py.subtract (ex_absolute p src) (ex_absolute p dst).

Definition ex_calibrate_container_with_delta (p : Vec3) (c : Container)
    (dx dy dz : Q) (save : bool) : Vec3 :=
  (vx p + dx, vy p + dy, vz p + dz).

Lemma deck_height_cached_until_calibration_witness :
  max_deck_height_cache Vec3 ex_after_arc = Some 100
  /\ fst (max_deck_height Vec3 ex_max_z (ex_home ex_after_arc)) = 100
  /\ forall r2,
       ex_move_to ex_after_arc (LocPoint (Well 8%nat "A1") (1, 2, 3)) 2%nat "direct"
       = inr r2 ->
       fst (max_deck_height Vec3 ex_max_z r2) = 100.
Proof.
  pose proof (deck_height_cached_until_calibration Vec3 ex_absolute ex_max_z
                ex_top ex_is_trough ex_inst_move ex_retract ex_max_deck_height
                ex_mover_home ex_update_pose_from_driver (63 # 2)
                ex_change_base ex_calibrate_container_with_delta false
                (fun _ => "96-flat"%string) (fun c => Well c "A1")
                (fun _ => 10)) as [_ [H _]].
  destruct (H ex_after_arc 100 eq_refl) as [Hhome Hmove].
  split; [reflexivity|]. split; [exact Hhome|].
  intros r2 Hr2.
  exact (Hmove (LocPoint (Well 8%nat "A1") (1, 2, 3)) 2%nat "direct"%string r2 Hr2).
Defined.

(** *** The robot's flags, speeds, deck slots and instruments *)

(** A Python [dict] with string keys, in insertion order. *)
Definition lookup {V : Type} (k : string) (d : list (string * V)) : option V :=
  match find (fun e => String.eqb (fst e) k) d with
  | Some e => Some (snd e)
  | None => None
  end.

(** [k in d] *)
Definition has_key {V : Type} (k : string) (d : list (string * V)) : bool :=
  existsb (fun e => String.eqb (fst e) k) d.

(** [d[k] = v] *)
Fixpoint setitem {V : Type} (k : string) (v : V) (d : list (string * V))
    : list (string * V) :=
  match d with
  | [] => [(k, v)]
  | (k', v') :: rest =>
      if String.eqb k' k then (k, v) :: rest else (k', v') :: setitem k v rest
  end.

(** [d.pop(k, None)]: the dictionary without the key. *)
Fixpoint popitem {V : Type} (k : string) (d : list (string * V)) : list (string * V) :=
  match d with
  | [] => []
  | (k', v') :: rest =>
      if String.eqb k' k then rest else (k', v') :: popitem k rest
  end.

(** [str.lower] on ASCII letters. *)
Definition lower_ascii (c : Ascii.ascii) : Ascii.ascii :=
  let n := Ascii.N_of_ascii c in
  if ((65 <=? n) && (n <=? 90))%N then Ascii.ascii_of_N (n + 32) else c.

Fixpoint lower (s : string) : string :=
  match s with
  | EmptyString => EmptyString
  | String c rest => String (lower_ascii c) (lower rest)
  end.

(** The letters of a string, as [for letter in a] yields them. *)
Fixpoint letters (s : string) : list string :=
  match s with
  | EmptyString => []
  | String c rest => String c EmptyString :: letters rest
  end.

(** The loop body of [_update_axis_homed] for one letter. *)
Definition flag_letter (axis_homed : list (string * bool)) (letter : string)
    : list (string * bool) :=
  if has_key (lower letter) axis_homed
  then setitem (lower letter) true axis_homed
  else axis_homed.

(** [Robot._update_axis_homed], on the tuple of its arguments *)
Definition _update_axis_homed (axis_homed : list (string * bool))
    (args : list string) : list (string * bool) :=
  fold_left (fun d a => fold_left flag_letter (letters a) d) args axis_homed.

(** A call on the driver made by [head_speed]. *)
Inductive SpeedCall : Type :=
| SetAxisMaxSpeed (speeds : list (string * Q))
| SetSpeed (speed : Q).

(** The truth value of a speed argument: given and not zero. *)
Definition speed_given (v : option Q) : bool :=
  match v with
  | Some q => negb (Qeq_bool q 0)
  | None => false
  end.

(** [Robot.head_speed]: the calls it makes on the driver, in order. *)
Definition head_speed (combined_speed x y z a b c : option Q) : list SpeedCall :=
  let user_set_speeds :=
    [("x", x); ("y", y); ("z", z); ("a", a); ("b", b); ("c", c)]%string in
  let axis_max_speeds :=
    flat_map (fun e => match snd e with
                       | Some q => if speed_given (Some q) then [(fst e, q)] else []
                       | None => []
                       end) user_set_speeds in
  (match axis_max_speeds with
   | [] => []
   | _ => [SetAxisMaxSpeed axis_max_speeds]
   end)
  ++ (match combined_speed with
      | Some q => if speed_given (Some q) then [SetSpeed q] else []
      | None => []
      end).

(** [str(n)] for a natural number. *)
Definition str (n : nat) : string := NilZero.string_of_uint (Nat.to_uint n).

Definition get_slot_offsets : Q * Q := (905 # 10, 13250 # 100).
Definition get_max_robot_rows : nat := 4.
Definition get_max_robot_cols : nat := 3.

(** The properties of a slot. *)
Record SlotProperties : Type := mkSlot {
  slot_width : Q;
  slot_length : Q;
  slot_height : Q
}.

(** [Robot.add_slots_to_deck]: the calls of [self._deck.add(slot, slot_name,
    slot_coordinates)] it makes, in order. *)
Definition add_slots_to_deck : list (SlotProperties * string * Vec3) :=
  let '(row_offset, col_offset) := get_slot_offsets in
  let row_count := get_max_robot_rows in
  let col_count := get_max_robot_cols in
  flat_map
    (fun row_index =>
       map (fun col_index =>
              let properties := mkSlot col_offset row_offset 0 in
              let slot_coordinates :=
                (col_offset * inject_Z (Z.of_nat col_index),
                 row_offset * inject_Z (Z.of_nat row_index),
                 0) in
              let slot_index := (col_index + row_index * col_count)%nat in
              let slot_name := str (slot_index + 1) in
              (properties, slot_name, slot_coordinates))
           (seq 0 col_count))
    (seq 0 row_count).

(** One side of the answer of [get_attached_pipettes]; [tip_length] is
    [None] when the key is absent. *)
Record MountData : Type := mkMountData {
  mount_axis : string;
  plunger_axis : string;
  model : option string;
  tip_length : option Q
}.

Inductive LookupError : Type :=
| KeyError (key : string).

(** [Robot.get_attached_pipettes]; [configs] is [pipette_config.configs],
    by the tip length of each model it holds. *)
Definition get_attached_pipettes (configs : list (string * Q))
    (model_by_mount : string -> option string)
    : LookupError + (MountData * MountData) :=
  let fill (axis plunger : string) (m : option string) : LookupError + MountData :=
    match m with
    | Some name =>
        if String.eqb name "" then inr (mkMountData axis plunger m None)
        else
          match lookup name configs with
          | Some t => inr (mkMountData axis plunger m (Some t))
          | None => inl (KeyError name)
          end
    | None => inr (mkMountData axis plunger m None)
    end in
  match fill "z"%string "b"%string (model_by_mount "left"%string) with
  | inl e => inl e
  | inr left_data =>
      match fill "a"%string "c"%string (model_by_mount "right"%string) with
      | inl e => inl e
      | inr right_data => inr (left_data, right_data)
      end
  end.

Lemma lookup_setitem_same {V : Type} (k : string) (v : V) (d : list (string * V)) :
  lookup k (setitem k v d) = Some v.
Proof.
  unfold lookup. induction d as [|[k' v'] rest IH]; cbn.
  - rewrite String.eqb_refl. reflexivity.
  - destruct (String.eqb k' k) eqn:E; cbn.
    + rewrite String.eqb_refl. reflexivity.
    + rewrite E. exact IH.
Qed.

Lemma lookup_setitem_other {V : Type} (k k' : string) (v : V)
    (d : list (string * V)) :
  k' <> k -> lookup k' (setitem k v d) = lookup k' d.
Proof.
  intro Hne. unfold lookup. induction d as [|[k0 v0] rest IH]; cbn.
  - destruct (String.eqb k k') eqn:E; [|reflexivity].
    apply String.eqb_eq in E. congruence.
  - destruct (String.eqb k0 k) eqn:E0; cbn.
    + apply String.eqb_eq in E0. subst k0.
      destruct (String.eqb k k') eqn:E; [|reflexivity].
      apply String.eqb_eq in E. congruence.
    + destruct (String.eqb k0 k'); [reflexivity | exact IH].
Qed.

Lemma keys_setitem {V : Type} (k : string) (v : V) (d : list (string * V)) :
  has_key k d = true -> map fst (setitem k v d) = map fst d.
Proof.
  unfold has_key. induction d as [|[k' v'] rest IH]; cbn; [discriminate|].
  intro H. destruct (String.eqb k' k) eqn:E; cbn.
  - apply String.eqb_eq in E. subst. reflexivity.
  - cbn in H. rewrite (IH H). reflexivity.
Qed.

Lemma has_key_keys {V : Type} (k : string) (d d' : list (string * V)) :
  map fst d = map fst d' -> has_key k d = has_key k d'.
Proof.
  unfold has_key. revert d'.
  induction d as [|[k0 v0] rest IH]; intros [|[k1 v1] rest'] H;
    try discriminate; [reflexivity|].
  cbn in *. injection H as Hk Hr. subst k1. rewrite (IH rest' Hr). reflexivity.
Qed.

Lemma flag_letter_spec (d : list (string * bool)) (letter : string) :
  map fst (flag_letter d letter) = map fst d
  /\ forall k, lookup k (flag_letter d letter) = Some true <->
               lookup k d = Some true
               \/ (has_key k d = true /\ lower letter = k).
Proof.
  unfold flag_letter.
  destruct (has_key (lower letter) d) eqn:Hk.
  - split; [apply keys_setitem; exact Hk|].
    intro k. destruct (string_dec k (lower letter)) as [E|E].
    + subst k. rewrite lookup_setitem_same. split; [|reflexivity].
      intros _. right. split; [exact Hk | reflexivity].
    + rewrite (lookup_setitem_other _ _ _ _ E). split; [tauto|].
      intros [H|[_ H]]; [exact H | congruence].
  - split; [reflexivity|].
    intro k. split; [tauto|].
    intros [H|[H1 H2]]; [exact H|]. subst k. congruence.
Qed.

Lemma flag_letters_spec (ls : list string) (d : list (string * bool)) :
  map fst (fold_left flag_letter ls d) = map fst d
  /\ forall k, lookup k (fold_left flag_letter ls d) = Some true <->
               lookup k d = Some true
               \/ (has_key k d = true /\ exists l, In l ls /\ lower l = k).
Proof.
  revert d. induction ls as [|l rest IH]; intro d; cbn [fold_left].
  - split; [reflexivity|]. intro k. split; [tauto|].
    intros [H|[_ [l [[] _]]]]. exact H.
  - destruct (flag_letter_spec d l) as [Hk Hl].
    destruct (IH (flag_letter d l)) as [IHk IHl].
    split; [congruence|].
    intro k. rewrite IHl, Hl, (has_key_keys k _ _ Hk). split.
    + intros [[H|[H1 H2]]|[H1 [l' [Hin H2]]]].
      * left. exact H.
      * right. split; [exact H1|]. exists l. split; [left; reflexivity | exact H2].
      * right. split; [exact H1|]. exists l'. split; [right; exact Hin | exact H2].
    + intros [H|[H1 [l' [[E|Hin] H2]]]].
      * left. left. exact H.
      * subst l'. left. right. split; assumption.
      * right. split; [exact H1|]. exists l'. split; assumption.
Qed.

(** X15.  [_update_axis_homed] keeps the set of flags it was given; a flag
    is set afterwards exactly when it was set before, or when it is one of
    the flags and some letter of some argument names it, in upper or lower
    case.  Letters that name no flag (the plunger axis [c] among them) are
    ignored, and no flag is ever cleared. *)
Theorem update_axis_homed_sets_named_flags (axis_homed : list (string * bool))
    (args : list string) :
  map fst (_update_axis_homed axis_homed args) = map fst axis_homed
  /\ forall k,
       lookup k (_update_axis_homed axis_homed args) = Some true <->
       lookup k axis_homed = Some true
       \/ (has_key k axis_homed = true
           /\ exists a letter, In a args /\ In letter (letters a) /\ lower letter = k).
Proof.
  unfold _update_axis_homed. revert axis_homed.
  induction args as [|a rest IH]; intro d; cbn [fold_left].
  - split; [reflexivity|]. intro k. split; [tauto|].
    intros [H|[_ [a [l [[] _]]]]]. exact H.
  - destruct (flag_letters_spec (letters a) d) as [Hk Hl].
    destruct (IH (fold_left flag_letter (letters a) d)) as [IHk IHl].
    split; [congruence|].
    intro k. rewrite IHl, Hl, (has_key_keys k _ _ Hk). split.
    + intros [[H|[H1 [l [Hin H2]]]]|[H1 [a' [l [Ha [Hin H2]]]]]].
      * left. exact H.
      * right. split; [exact H1|]. exists a, l. repeat split; auto. left. reflexivity.
      * right. split; [exact H1|]. exists a', l. repeat split; auto. right. exact Ha.
    + intros [H|[H1 [a' [l [[E|Ha] [Hin H2]]]]]].
      * left. left. exact H.
      * subst a'. left. right. split; [exact H1|]. exists l. split; assumption.
      * right. split; [exact H1|]. exists a', l. repeat split; assumption.
Qed.

Lemma lookup_In {V : Type} (k : string) (v : V) (d : list (string * V)) :
  lookup k d = Some v -> In (k, v) d.
Proof.
  unfold lookup. induction d as [|[k' v'] rest IH]; cbn; [discriminate|].
  destruct (String.eqb k' k) eqn:E.
  - apply String.eqb_eq in E. subst k'. intro H. injection H as H. subst v'.
    left. reflexivity.
  - intro H. right. exact (IH H).
Qed.

Lemma speed_given_nonzero (q : Q) : speed_given (Some q) = true <-> ~ q == 0.
Proof.
  unfold speed_given. rewrite negb_true_iff. split.
  - intros H E. apply Qeq_bool_iff in E. congruence.
  - intro H. destruct (Qeq_bool q 0) eqn:E; [|reflexivity].
    apply Qeq_bool_iff in E. contradiction.
Qed.

(** X16.  [head_speed] never sends the driver a speed that was not given or
    is zero.  The per-axis call, when made, is not empty and carries for
    each axis the non-zero speed given for it, and every non-zero speed
    given is in it; the combined speed is sent only when given and not
    zero; with nothing given, or zeros only, the driver is not called. *)
Theorem head_speed_sends_only_given_speeds (combined_speed x y z a b c : option Q) :
  let asked :=
    [("x", x); ("y", y); ("z", z); ("a", a); ("b", b); ("c", c)]%string in
  let calls := head_speed combined_speed x y z a b c in
  (forall m, In (SetAxisMaxSpeed m) calls ->
     m <> []
     /\ forall k q, In (k, q) m <-> (lookup k asked = Some (Some q) /\ ~ q == 0))
  /\ (forall q, In (SetSpeed q) calls <-> (combined_speed = Some q /\ ~ q == 0))
  /\ (forallb (fun v => negb (speed_given v)) [combined_speed; x; y; z; a; b; c] = true ->
      calls = []).
Proof.
  intros asked calls.
  set (axis_max_speeds :=
         flat_map (fun e : string * option Q =>
                     match snd e with
                     | Some q => if speed_given (Some q) then [(fst e, q)] else []
                     | None => []
                     end) asked).
  assert (Hm : forall k q, In (k, q) axis_max_speeds <->
                           (lookup k asked = Some (Some q) /\ ~ q == 0)).
  { intros k q. unfold axis_max_speeds. rewrite in_flat_map. split.
    - intros [[k' v] [Hin Hq]]. cbn [fst snd] in Hq.
      destruct v as [q'|]; [|destruct Hq].
      destruct (speed_given (Some q')) eqn:Eg; [|destruct Hq].
      destruct Hq as [Hq|[]]. injection Hq as Hk Hq'. subst k' q'.
      split; [|apply speed_given_nonzero; exact Eg].
      unfold asked in Hin. cbn in Hin.
      repeat (destruct Hin as [Hin|Hin];
              [injection Hin as Hk Hv; subst; reflexivity|]).
      destruct Hin.
    - intros [Hl Hq]. exists (k, Some q). split.
      + apply lookup_In. exact Hl.
      + cbn [fst snd]. apply speed_given_nonzero in Hq. rewrite Hq.
        left. reflexivity. }
  assert (Hcalls : calls =
            (match axis_max_speeds with
             | [] => []
             | _ => [SetAxisMaxSpeed axis_max_speeds]
             end)
            ++ (match combined_speed with
                | Some q => if speed_given (Some q) then [SetSpeed q] else []
                | None => []
                end)) by reflexivity.
  split; [|split].
  - intros m Hin. rewrite Hcalls in Hin. apply in_app_or in Hin.
    destruct Hin as [Hin|Hin].
    + destruct axis_max_speeds as [|e rest] eqn:Ea; [destruct Hin|].
      destruct Hin as [Hin|[]]. injection Hin as Hin. subst m.
      split; [discriminate | exact Hm].
    + destruct combined_speed as [q|]; [|destruct Hin].
      destruct (speed_given (Some q)); [|destruct Hin].
      destruct Hin as [Hin|[]]. discriminate.
  - intro q. rewrite Hcalls, in_app_iff. split.
    + intros [Hin|Hin].
      * destruct axis_max_speeds; [destruct Hin|].
        destruct Hin as [Hin|[]]. discriminate.
      * destruct combined_speed as [q'|]; [|destruct Hin].
        destruct (speed_given (Some q')) eqn:Eg; [|destruct Hin].
        destruct Hin as [Hin|[]]. injection Hin as Hin. subst q'.
        split; [reflexivity | apply speed_given_nonzero; exact Eg].
    + intros [Hc Hq]. right. rewrite Hc.
      apply speed_given_nonzero in Hq. rewrite Hq. left. reflexivity.
  - intro Hall. unfold calls, head_speed. cbn in Hall.
    repeat (apply andb_true_iff in Hall; destruct Hall as [? Hall]).
    repeat match goal with
           | H : negb (speed_given ?v) = true |- _ =>
               apply negb_true_iff in H; destruct v; cbn [flat_map snd fst app];
               try rewrite H
           end; reflexivity.
Qed.

(** X17.  [add_slots_to_deck] adds twelve slots with distinct names.  The
    slot numbered [n], from 1 to 12, is added once, three to a row: it
    lies [(n - 1) mod 3] column offsets along x and [(n - 1) / 3] row
    offsets along y, at height 0, and is one column offset wide and one
    row offset long. *)
Theorem deck_slots_are_row_major :
  List.length add_slots_to_deck = 12%nat
  /\ NoDup (map (fun e => snd (fst e)) add_slots_to_deck)
  /\ forall n, (1 <= n <= 12)%nat ->
       In (mkSlot (snd get_slot_offsets) (fst get_slot_offsets) 0,
           str n,
           (snd get_slot_offsets * inject_Z (Z.of_nat ((n - 1) mod 3)),
            fst get_slot_offsets * inject_Z (Z.of_nat ((n - 1) / 3)),
            0))
          add_slots_to_deck.
Proof.
  split; [reflexivity|]. split.
  - vm_compute.
    repeat (constructor; [cbn; intuition discriminate|]). constructor.
  - intros n [H1 H2].
    do 13 (destruct n as [|n]; [try lia; vm_compute; tauto|]). lia.
Qed.

(** A mount reports a model the configurations do not hold. *)
Definition unknown_model (configs : list (string * Q)) (m : option string) : bool :=
  match m with
  | Some name =>
      negb (String.eqb name "")
      && match lookup name configs with Some _ => false | None => true end
  | None => false
  end.

(** X18.  [get_attached_pipettes] raises [KeyError] exactly when a mount
    reports a non-empty model that [pipette_config.configs] does not hold.
    Otherwise the left side is on axes z and b, the right side on a and c,
    each carries the model its mount reports, and a tip length is present
    exactly for a non-empty model, with the value the configurations
    give. *)
Theorem attached_pipettes_report (configs : list (string * Q))
    (model_by_mount : string -> option string) :
  let out := get_attached_pipettes configs model_by_mount in
  ((exists e, out = inl e) <->
   unknown_model configs (model_by_mount "left"%string)
   || unknown_model configs (model_by_mount "right"%string) = true)
  /\ forall left_data right_data, out = inr (left_data, right_data) ->
       mount_axis left_data = "z"%string /\ plunger_axis left_data = "b"%string
       /\ mount_axis right_data = "a"%string /\ plunger_axis right_data = "c"%string
       /\ model left_data = model_by_mount "left"%string
       /\ model right_data = model_by_mount "right"%string
       /\ (forall side, side = left_data \/ side = right_data ->
             tip_length side
             = match model side with
               | Some name =>
                   if String.eqb name "" then None else lookup name configs
               | None => None
               end).
Proof.
  unfold get_attached_pipettes, unknown_model.
  destruct (model_by_mount "left"%string) as [lm|];
    destruct (model_by_mount "right"%string) as [rm|];
    repeat match goal with
           | |- context [String.eqb ?n ""] => destruct (String.eqb n "") eqn:?
           | |- context [lookup ?n configs] => destruct (lookup n configs) eqn:?
           end; cbn;
    (split;
     [split; [intros [e He]; try discriminate; reflexivity
             | intro H; try discriminate; eexists; reflexivity]
     | intros l r E; try discriminate; injection E as El Er; subst l r; cbn;
       repeat split;
       intros side [Hs|Hs]; subst side; cbn;
       repeat match goal with
              | H : String.eqb _ _ = _ |- _ => rewrite H
              | H : lookup _ _ = _ |- _ => rewrite H
              end; reflexivity]).
Qed.

Lemma head_speed_sends_only_given_speeds_witness :
  In (SetSpeed 400) (head_speed (Some 400) (Some 0) None (Some 125) None None None)
  /\ head_speed (Some 0) (Some 0) None None None None None = [].
Proof.
  split.
  - apply (proj1 (proj2 (head_speed_sends_only_given_speeds
                           (Some 400) (Some 0) None (Some 125) None None None))).
    split; [reflexivity | intro H; discriminate H].
  - apply (proj2 (proj2 (head_speed_sends_only_given_speeds
                           (Some 0) (Some 0) None None None None None))).
    reflexivity.
Defined.

Lemma deck_slots_are_row_major_witness :
  In (mkSlot (snd get_slot_offsets) (fst get_slot_offsets) 0,
      str 5,
      (snd get_slot_offsets * inject_Z (Z.of_nat ((5 - 1) mod 3)),
       fst get_slot_offsets * inject_Z (Z.of_nat ((5 - 1) / 3)),
       0))
     add_slots_to_deck.
Proof.
  apply (proj2 (proj2 deck_slots_are_row_major) 5%nat). lia.
Defined.

(** A robot with a p300 on the left mount and nothing on the right. *)
Definition ex_model_by_mount (m : string) : option string :=
  if String.eqb m "left" then Some "p300_single_v1"%string else None.

Definition ex_configs : list (string * Q) :=
  [("p10_single_v1"%string, 33); ("p300_single_v1"%string, 517 # 10)].

Lemma attached_pipettes_report_witness :
  exists left_data right_data,
    get_attached_pipettes ex_configs ex_model_by_mount = inr (left_data, right_data)
    /\ model left_data = Some "p300_single_v1"%string
    /\ tip_length left_data = Some (517 # 10)
    /\ tip_length right_data = None.
Proof.
  eexists. eexists. split; [reflexivity|].
  pose proof (proj2 (attached_pipettes_report ex_configs ex_model_by_mount)
                _ _ eq_refl) as [_ [_ [_ [_ [Hl [_ Ht]]]]]].
  split; [exact Hl|].
  split; [exact (Ht _ (or_introl eq_refl)) | exact (Ht _ (or_intror eq_refl))].
Defined.

Section Instruments.

(** The pose tree, the driver and the attributes of a pipette object are
    not embedded; the bookkeeping of instruments is parameterised by
    them. *)
Variable Poses : Type.
(** [pose_tracker.add(poses, instrument, parent=mount, point=..)] and
    [pose_tracker.remove(poses, instrument)] *)
Variable pose_add : Poses -> Instrument -> string -> Vec3 -> Poses.
Variable pose_remove : Poses -> Instrument -> Poses.
(** [self._driver.read_pipette_model(mount)] *)
Variable read_pipette_model : string -> option string.
(** [instrument.name], [instrument.type] and [instrument.model_offset] *)
Variable name_of : Instrument -> string.
Variable type_of : Instrument -> string.
Variable model_offset_of : Instrument -> Vec3.
(** [self.config.instrument_offset] and [self.config.mount_offset] *)
Variable instrument_offset : list (string * list (string * Vec3)).
Variable mount_offset : Vec3.

(** The attributes of [Robot] that keep track of instruments: the
    instruments by mount, the pose tree, the cached models, and the
    instruments that were handed the actuators of a mount. *)
Record Fleet : Type := mkFleet {
  _instruments : list (string * Instrument);
  tree : Poses;
  model_by_mount : list (string * option string);
  actuated : list (Instrument * string)
}.

Inductive InstrumentError : Type :=
| AlreadyOnMount (prev_name : string) (mount : string)
| MissingKey (key : string).

(** [Robot.cache_instrument_models] *)
Definition cache_instrument_models (f : Fleet) : Fleet :=
  mkFleet (_instruments f) (tree f)
          (map (fun e => (fst e, read_pipette_model (fst e))) (model_by_mount f))
          (actuated f).

(** The keys of [self._actuators]. *)
Definition is_mount (m : string) : bool :=
  String.eqb m "left" || String.eqb m "right".

(** The point [add_instrument] hands to the pose tree. *)
Definition instrument_point (m : string) (instrument : Instrument) (c : Vec3) : Vec3 :=
  let '(mx, my, mz) := model_offset_of instrument in
  let p := (mx + vx c, my + vy c, mz) in
  if String.eqb m "left"
  then (vx p + vx mount_offset, vy p + vy mount_offset, vz p + vz mount_offset)
  else p.

(** [Robot.add_instrument(mount, instrument)] *)
Definition add_instrument (m : string) (instrument : Instrument) (f : Fleet)
    : (InstrumentError + unit) * Fleet :=
  match lookup m (_instruments f) with
  | Some prev_instr => (inl (AlreadyOnMount (name_of prev_instr) m), f)
  | None =>
      let f1 := mkFleet (setitem m instrument (_instruments f)) (tree f)
                        (model_by_mount f) (actuated f) in
      let f2 := cache_instrument_models f1 in
      if negb (is_mount m) then (inl (MissingKey m), f2)
      else
        let f3 := mkFleet (_instruments f2) (tree f2) (model_by_mount f2)
                          (actuated f2 ++ [(instrument, m)]) in
        match lookup m instrument_offset with
        | None => (inl (MissingKey m), f3)
        | Some by_type =>
            match lookup (type_of instrument) by_type with
            | None => (inl (MissingKey (type_of instrument)), f3)
            | Some c =>
                (inr tt,
                 mkFleet (_instruments f3)
                         (pose_add (tree f3) instrument m
                            (instrument_point m instrument c))
                         (model_by_mount f3) (actuated f3))
            end
        end
  end.

(** [Robot.remove_instrument(mount)] *)
Definition remove_instrument (m : string) (f : Fleet) : Fleet :=
  let instrument := lookup m (_instruments f) in
  let f1 := mkFleet (popitem m (_instruments f)) (tree f) (model_by_mount f)
                    (actuated f) in
  let f2 :=
    match instrument with
    | Some i => mkFleet (_instruments f1) (pose_remove (tree f1) i)
                        (model_by_mount f1) (actuated f1)
    | None => f1
    end in
  cache_instrument_models f2.

(** [sorted(items, key=lambda s: s[0].lower())], a stable sort. *)
Fixpoint insert_by_mount (e : string * Instrument) (l : list (string * Instrument))
    : list (string * Instrument) :=
  match l with
  | [] => [e]
  | h :: t =>
      if String.leb (lower (fst e)) (lower (fst h)) then e :: h :: t
      else h :: insert_by_mount e t
  end.

Definition sorted_by_mount (l : list (string * Instrument)) : list (string * Instrument) :=
  fold_right insert_by_mount [] l.

(** [Robot.get_instruments(name)] with [get_instruments_by_name] inlined;
    [None] is the default argument. *)
Definition get_instruments (name : option string) (f : Fleet)
    : list (string * Instrument) :=
  let all := sorted_by_mount (_instruments f) in
  match name with
  | Some n =>
      if String.eqb n "" then all
      else filter (fun e => String.eqb (name_of (snd e)) n) all
  | None => all
  end.

Lemma popitem_absent {V : Type} (k : string) (d : list (string * V)) :
  lookup k d = None -> popitem k d = d.
Proof.
  unfold lookup. induction d as [|[k' v'] rest IH]; cbn; [reflexivity|].
  destruct (String.eqb k' k) eqn:E; cbn; [discriminate|].
  intro H. rewrite (IH H). reflexivity.
Qed.

Lemma popitem_setitem_absent {V : Type} (k : string) (v : V) (d : list (string * V)) :
  lookup k d = None -> popitem k (setitem k v d) = d.
Proof.
  unfold lookup. induction d as [|[k' v'] rest IH]; cbn.
  - rewrite String.eqb_refl. reflexivity.
  - destruct (String.eqb k' k) eqn:E; [discriminate|].
    intro H. cbn. rewrite E, (IH H). reflexivity.
Qed.

Lemma insert_by_mount_perm (e : string * Instrument) (l : list (string * Instrument)) :
  Permutation (insert_by_mount e l) (e :: l).
Proof.
  induction l as [|h t IH]; cbn; [apply Permutation_refl|].
  destruct (String.leb (lower (fst e)) (lower (fst h))); [apply Permutation_refl|].
  eapply Permutation_trans; [apply perm_skip, IH | apply perm_swap].
Qed.

Lemma sorted_by_mount_perm (l : list (string * Instrument)) :
  Permutation (sorted_by_mount l) l.
Proof.
  induction l as [|h t IH]; cbn; [apply perm_nil|].
  eapply Permutation_trans; [apply insert_by_mount_perm | apply perm_skip, IH].
Qed.

(** The order [sorted] leaves the pairs in: by the lower-cased mount. *)
Definition mount_le (a b : string * Instrument) : Prop :=
  String.leb (lower (fst a)) (lower (fst b)) = true.

Lemma string_leb_total (a b : string) :
  String.leb a b = false -> String.leb b a = true.
Proof.
  intro H. destruct (String.leb_total a b) as [E|E]; [congruence | exact E].
Qed.

Lemma ascii_compare_lt_trans (a b c : Ascii.ascii) :
  Ascii.compare a b = Lt -> Ascii.compare b c = Lt -> Ascii.compare a c = Lt.
Proof.
  unfold Ascii.compare. rewrite !N.compare_lt_iff. apply N.lt_trans.
Qed.

Lemma string_compare_lt_trans (a b c : string) :
  String.compare a b = Lt -> String.compare b c = Lt -> String.compare a c = Lt.
Proof.
  revert b c. induction a as [|x a IH]; intros [|y b] [|z c]; cbn;
    try discriminate; try reflexivity.
  destruct (Ascii.compare x y) eqn:Exy; try discriminate.
  - apply Ascii.compare_eq_iff in Exy. subst y.
    destruct (Ascii.compare x z); try discriminate; [apply IH | reflexivity].
  - intros _. destruct (Ascii.compare y z) eqn:Eyz; try discriminate.
    + apply Ascii.compare_eq_iff in Eyz. subst z. rewrite Exy. reflexivity.
    + rewrite (ascii_compare_lt_trans x y z Exy Eyz). reflexivity.
Qed.

Lemma string_leb_trans (a b c : string) :
  String.leb a b = true -> String.leb b c = true -> String.leb a c = true.
Proof.
  unfold String.leb.
  destruct (String.compare a b) eqn:Eab; try discriminate; intros _.
  - apply String.compare_eq_iff in Eab. subst b. trivial.
  - destruct (String.compare b c) eqn:Ebc; try discriminate; intros _.
    + apply String.compare_eq_iff in Ebc. subst c. rewrite Eab. reflexivity.
    + rewrite (string_compare_lt_trans a b c Eab Ebc). reflexivity.
Qed.

Lemma mount_le_trans : Relations_1.Transitive mount_le.
Proof.
  intros a b c. unfold mount_le. apply string_leb_trans.
Qed.

Lemma filter_sorted (p : string * Instrument -> bool) (l : list (string * Instrument)) :
  Sorted mount_le l -> Sorted mount_le (filter p l).
Proof.
  intro Hs. apply StronglySorted_Sorted.
  apply Sorted_StronglySorted in Hs; [|exact mount_le_trans].
  induction Hs as [|h t Ht IH Hall]; cbn; [constructor|].
  destruct (p h); [|exact IH].
  constructor; [exact IH|].
  rewrite Forall_forall in *. intros x Hx. apply Hall.
  apply filter_In in Hx. tauto.
Qed.

Lemma insert_by_mount_sorted (e : string * Instrument) (l : list (string * Instrument)) :
  Sorted mount_le l -> Sorted mount_le (insert_by_mount e l).
Proof.
  induction l as [|h t IH]; cbn; intro Hs.
  - constructor; constructor.
  - destruct (String.leb (lower (fst e)) (lower (fst h))) eqn:E.
    + constructor; [exact Hs | constructor; exact E].
    + inversion Hs as [|? ? Ht Hh]; subst.
      constructor; [apply IH; exact Ht|].
      destruct t as [|h' t']; cbn.
      * constructor. apply string_leb_total. exact E.
      * destruct (String.leb (lower (fst e)) (lower (fst h'))).
        -- constructor. apply string_leb_total. exact E.
        -- constructor. inversion Hh; assumption.
Qed.

Lemma sorted_by_mount_sorted (l : list (string * Instrument)) :
  Sorted mount_le (sorted_by_mount l).
Proof.
  induction l as [|h t IH]; cbn; [constructor|].
  apply insert_by_mount_sorted. exact IH.
Qed.

(** X19.  [add_instrument] refuses a mount that holds an instrument and
    changes nothing.  On a free left or right mount whose offsets the
    configuration holds, it registers the instrument and adds it to the
    pose tree under the mount, at the model offset moved in x and y by the
    instrument offset, and on the left mount also by the mount offset; the
    z of the instrument offset is not used.  On a free mount that is
    neither left nor right it raises, with the instrument left
    registered. *)
Theorem add_instrument_places_pipette (m : string) (instrument : Instrument)
    (f : Fleet) :
  (forall prev, lookup m (_instruments f) = Some prev ->
     add_instrument m instrument f = (inl (AlreadyOnMount (name_of prev) m), f))
  /\ (forall by_type c,
        lookup m (_instruments f) = None ->
        is_mount m = true ->
        lookup m instrument_offset = Some by_type ->
        lookup (type_of instrument) by_type = Some c ->
        let out := add_instrument m instrument f in
        let shift := if String.eqb m "left" then mount_offset else (0, 0, 0) in
        fst out = inr tt
        /\ lookup m (_instruments (snd out)) = Some instrument
        /\ exists point,
             tree (snd out) = pose_add (tree f) instrument m point
             /\ vx point == vx (model_offset_of instrument) + vx c + vx shift
             /\ vy point == vy (model_offset_of instrument) + vy c + vy shift
             /\ vz point == vz (model_offset_of instrument) + vz shift)
  /\ (lookup m (_instruments f) = None ->
      is_mount m = false ->
      fst (add_instrument m instrument f) = inl (MissingKey m)
      /\ lookup m (_instruments (snd (add_instrument m instrument f)))
         = Some instrument).
Proof.
  split; [|split].
  - intros prev Hp. unfold add_instrument. rewrite Hp. reflexivity.
  - intros by_type c Hfree Hm Ho Ht out shift.
    unfold out, add_instrument. rewrite Hfree, Hm, Ho, Ht. cbn.
    split; [reflexivity|]. split; [apply lookup_setitem_same|].
    eexists. split; [reflexivity|].
    unfold instrument_point, shift.
    destruct (model_offset_of instrument) as [[mx my] mz].
    destruct (String.eqb m "left"); cbn; repeat split; ring.
  - intros Hfree Hm. unfold add_instrument. rewrite Hfree, Hm. cbn.
    split; [reflexivity | apply lookup_setitem_same].
Qed.

(** X20.  Removing the instrument that was just added gives back the
    instruments there were before, with the mount free, and takes the
    instrument out of the pose tree it was added to; removing from a free
    mount leaves the instruments and the pose tree as they are. *)
Theorem remove_instrument_frees_mount (m : string) (instrument : Instrument)
    (f : Fleet) :
  (fst (add_instrument m instrument f) = inr tt ->
   let f' := remove_instrument m (snd (add_instrument m instrument f)) in
   lookup m (_instruments f') = None
   /\ _instruments f' = _instruments f
   /\ exists point,
        tree f' = pose_remove (pose_add (tree f) instrument m point) instrument)
  /\ (lookup m (_instruments f) = None ->
      _instruments (remove_instrument m f) = _instruments f
      /\ tree (remove_instrument m f) = tree f).
Proof.
  split.
  - unfold add_instrument.
    destruct (lookup m (_instruments f)) eqn:Hfree; [discriminate|].
    destruct (is_mount m) eqn:Hm; [|discriminate]. cbn [negb].
    destruct (lookup m instrument_offset) as [by_type|] eqn:Ho; [|discriminate].
    destruct (lookup (type_of instrument) by_type) as [c|] eqn:Ht; [|discriminate].
    intros _. unfold remove_instrument. cbn.
    rewrite lookup_setitem_same. cbn.
    rewrite (popitem_setitem_absent m instrument (_instruments f) Hfree).
    split; [exact Hfree|]. split; [reflexivity|].
    eexists; reflexivity.
  - intros Hfree. unfold remove_instrument. rewrite Hfree. cbn.
    split; [apply popitem_absent; exact Hfree | reflexivity].
Qed.

(** X21.  [get_instruments] without a name, or with the empty name, lists
    every mounted instrument once, ordered by the lower-cased mount; with a
    name it lists, in that order, exactly the mounted instruments of that
    name. *)
Theorem get_instruments_sorted_and_filtered (f : Fleet) :
  get_instruments (Some ""%string) f = get_instruments None f
  /\ Permutation (get_instruments None f) (_instruments f)
  /\ Sorted mount_le (get_instruments None f)
  /\ forall n, n <> ""%string ->
       get_instruments (Some n) f
       = filter (fun e => String.eqb (name_of (snd e)) n) (get_instruments None f)
       /\ Sorted mount_le (get_instruments (Some n) f)
       /\ forall e, In e (get_instruments (Some n) f)
                    <-> In e (_instruments f) /\ name_of (snd e) = n.
Proof.
  split; [reflexivity|].
  split; [apply sorted_by_mount_perm|].
  split; [apply sorted_by_mount_sorted|].
  intros n Hn. unfold get_instruments.
  destruct (String.eqb n "") eqn:E; [apply String.eqb_eq in E; contradiction|].
  split; [reflexivity|]. split.
  - apply filter_sorted, sorted_by_mount_sorted.
  - intro e. rewrite filter_In, String.eqb_eq.
    split; intros [Hi Hname]; (split; [|exact Hname]).
    + eapply Permutation_in; [apply sorted_by_mount_perm | exact Hi].
    + eapply Permutation_in; [apply Permutation_sym, sorted_by_mount_perm | exact Hi].
Qed.

End Instruments.

(** *** Two pipettes and a pose tree kept as the list of what was added *)

Definition ex_pose_add (p : list (Instrument * string * Vec3)) (i : Instrument)
    (m : string) (point : Vec3) : list (Instrument * string * Vec3) :=
  (i, m, point) :: p.

Definition ex_pose_remove (p : list (Instrument * string * Vec3)) (i : Instrument)
    : list (Instrument * string * Vec3) :=
  filter (fun e => negb (Nat.eqb (fst (fst e)) i)) p.

Definition ex_name_of (i : Instrument) : string :=
  if Nat.eqb i 1 then "p300_single_v1"%string else "p10_multi_v1"%string.

Definition ex_type_of (i : Instrument) : string :=
  if Nat.eqb i 1 then "single"%string else "multi"%string.

Definition ex_instrument_offset : list (string * list (string * Vec3)) :=
  [("right"%string, [("single"%string, (0, 0, 0)); ("multi"%string, (0, 0, 0))]);
   ("left"%string, [("single"%string, (1, 2, 3)); ("multi"%string, (0, 0, 0))])].

Definition ex_mount_offset : Vec3 := (-34, 0, 0).

Definition ex_fleet : Fleet (list (Instrument * string * Vec3)) :=
  mkFleet _ [] [] [("left"%string, None); ("right"%string, None)] [].

Definition ex_add_instrument :=
  add_instrument _ ex_pose_add ex_model_by_mount ex_name_of ex_type_of
                 (fun _ => (0, 0, 25)) ex_instrument_offset ex_mount_offset.

Definition ex_remove_instrument :=
  remove_instrument _ ex_pose_remove ex_model_by_mount.

Lemma add_instrument_places_pipette_witness :
  fst (ex_add_instrument "left"%string 1%nat ex_fleet) = inr tt
  /\ lookup "left" (_instruments _ (snd (ex_add_instrument "left"%string 1%nat ex_fleet)))
     = Some 1%nat
  /\ ex_add_instrument "left"%string 2%nat
       (snd (ex_add_instrument "left"%string 1%nat ex_fleet))
     = (inl (AlreadyOnMount "p300_single_v1" "left"),
        snd (ex_add_instrument "left"%string 1%nat ex_fleet))
  /\ fst (ex_add_instrument "front"%string 1%nat ex_fleet) = inl (MissingKey "front").
Proof.
  pose proof (proj1 (proj2 (add_instrument_places_pipette _ ex_pose_add
                ex_model_by_mount ex_name_of ex_type_of (fun _ => (0, 0, 25))
                ex_instrument_offset ex_mount_offset "left"%string 1%nat ex_fleet))
                _ _ eq_refl eq_refl eq_refl eq_refl) as [Hok [Hreg _]].
  split; [exact Hok|]. split; [exact Hreg|]. split.
  - exact (proj1 (add_instrument_places_pipette _ ex_pose_add
                ex_model_by_mount ex_name_of ex_type_of (fun _ => (0, 0, 25))
                ex_instrument_offset ex_mount_offset "left"%string 2%nat
                (snd (ex_add_instrument "left"%string 1%nat ex_fleet)))
             1%nat eq_refl).
  - exact (proj1 (proj2 (proj2 (add_instrument_places_pipette _ ex_pose_add
                ex_model_by_mount ex_name_of ex_type_of (fun _ => (0, 0, 25))
                ex_instrument_offset ex_mount_offset "front"%string 1%nat ex_fleet))
                  eq_refl eq_refl)).
Defined.

Lemma remove_instrument_frees_mount_witness :
  fst (ex_add_instrument "left"%string 1%nat ex_fleet) = inr tt
  /\ _instruments _ (ex_remove_instrument "left"%string
                       (snd (ex_add_instrument "left"%string 1%nat ex_fleet)))
     = []
  /\ tree _ (ex_remove_instrument "right"%string ex_fleet) = [].
Proof.
  split; [reflexivity|]. split.
  - exact (proj1 (proj2 (proj1 (remove_instrument_frees_mount _ ex_pose_add
                ex_pose_remove ex_model_by_mount ex_name_of ex_type_of
                (fun _ => (0, 0, 25)) ex_instrument_offset ex_mount_offset
                "left"%string 1%nat ex_fleet) eq_refl))).
  - exact (proj2 (proj2 (remove_instrument_frees_mount _ ex_pose_add
                ex_pose_remove ex_model_by_mount ex_name_of ex_type_of
                (fun _ => (0, 0, 25)) ex_instrument_offset ex_mount_offset
                "right"%string 1%nat ex_fleet) eq_refl)).
Defined.

(** Both mounts taken, the right one first. *)
Definition ex_fleet_full : Fleet (list (Instrument * string * Vec3)) :=
  mkFleet _ [("right"%string, 2%nat); ("left"%string, 1%nat)] [] [] [].

Lemma get_instruments_sorted_and_filtered_witness :
  get_instruments _ ex_name_of None ex_fleet_full
  = [("left"%string, 1%nat); ("right"%string, 2%nat)]
  /\ In ("right"%string, 2%nat)
        (get_instruments _ ex_name_of (Some "p10_multi_v1"%string) ex_fleet_full)
  /\ ~ In ("left"%string, 1%nat)
         (get_instruments _ ex_name_of (Some "p10_multi_v1"%string) ex_fleet_full).
Proof.
  assert (Hn : "p10_multi_v1"%string <> ""%string) by discriminate.
  pose proof (proj2 (proj2 (proj2 (get_instruments_sorted_and_filtered _ ex_name_of
                ex_fleet_full))) _ Hn) as [_ [_ H]].
  split; [reflexivity|]. split.
  - apply (proj2 (H _)). split; [left; reflexivity | reflexivity].
  - intro Hin. apply (proj1 (H _)) in Hin. destruct Hin as [_ Hname].
    discriminate Hname.
Defined.

(** *** The cache of head motors

    [Robot.get_motor] hands out [InstrumentMotor] objects and keeps them in
    [INSTRUMENT_DRIVERS_CACHE] under the key [('instrument', axis)].  An
    object is modelled by its place in the list of the objects created so
    far, which holds the [axis] each was created with. *)

Record Motors : Type := mkMotors {
  INSTRUMENT_DRIVERS_CACHE : list (string * nat);
  created : list string
}.

(** [Robot.get_motor(axis)]: the motor object, and the robot after the
    call. *)
Definition get_motor (axis : string) (st : Motors) : nat * Motors :=
  match lookup axis (INSTRUMENT_DRIVERS_CACHE st) with
  | Some motor_obj => (motor_obj, st)
  | None =>
      let motor_obj := List.length (created st) in
      (motor_obj,
       mkMotors (setitem axis motor_obj (INSTRUMENT_DRIVERS_CACHE st))
                (created st ++ [axis]))
  end.

(** Every cached motor was created for the axis it is cached under. *)
Definition cache_consistent (st : Motors) : Prop :=
  forall axis m, lookup axis (INSTRUMENT_DRIVERS_CACHE st) = Some m ->
                 nth_error (created st) m = Some axis.

Lemma get_motor_consistent (axis : string) (st : Motors) :
  cache_consistent st -> cache_consistent (snd (get_motor axis st)).
Proof.
  intros Hc. unfold get_motor.
  destruct (lookup axis (INSTRUMENT_DRIVERS_CACHE st)) as [m|] eqn:E; [exact Hc|].
  intros b m'. cbn.
  destruct (String.eqb axis b) eqn:Eb.
  - apply String.eqb_eq in Eb. subst b. rewrite lookup_setitem_same.
    intro H. injection H as <-.
    rewrite nth_error_app2 by apply Nat.le_refl.
    rewrite Nat.sub_diag. reflexivity.
  - rewrite lookup_setitem_other
      by (intro Hb; subst b; rewrite String.eqb_refl in Eb; discriminate).
    intro H. pose proof (Hc b m' H) as Hn.
    rewrite nth_error_app1; [exact Hn|].
    apply nth_error_Some. rewrite Hn. discriminate.
Qed.

(** X24.  From a robot whose cache is consistent (a new robot's is empty),
    [get_motor] answers a motor created for the axis asked and keeps the
    cache consistent; asking again for the same axis answers the same
    motor and creates nothing; a different axis gets a different motor. *)
Theorem get_motor_is_cached (axis : string) (st : Motors) :
  cache_consistent st ->
  let out := get_motor axis st in
  cache_consistent (snd out)
  /\ nth_error (created (snd out)) (fst out) = Some axis
  /\ get_motor axis (snd out) = out
  /\ forall other, other <> axis -> fst (get_motor other (snd out)) <> fst out.
Proof.
  intros Hc out.
  assert (Hc' : cache_consistent (snd out)) by (apply get_motor_consistent; exact Hc).
  assert (Hl : lookup axis (INSTRUMENT_DRIVERS_CACHE (snd out)) = Some (fst out)).
  { unfold out, get_motor.
    destruct (lookup axis (INSTRUMENT_DRIVERS_CACHE st)) as [m|] eqn:E; cbn.
    - exact E.
    - apply lookup_setitem_same. }
  split; [exact Hc'|]. split; [apply Hc'; exact Hl|]. split.
  - unfold get_motor at 1. rewrite Hl. destruct out; reflexivity.
  - intros other Hne Heq.
    pose proof (Hc' axis _ Hl) as Ha.
    pose proof (get_motor_consistent other (snd out) Hc') as Hc2.
    assert (Ho : nth_error (created (snd (get_motor other (snd out))))
                           (fst (get_motor other (snd out))) = Some other).
    { apply Hc2. unfold get_motor.
      destruct (lookup other (INSTRUMENT_DRIVERS_CACHE (snd out))) as [m|] eqn:E; cbn.
      - exact E.
      - apply lookup_setitem_same. }
    rewrite Heq in Ho.
    assert (Hsame : nth_error (created (snd (get_motor other (snd out)))) (fst out)
                    = Some axis).
    { unfold get_motor.
      destruct (lookup other (INSTRUMENT_DRIVERS_CACHE (snd out))); cbn; [exact Ha|].
      rewrite nth_error_app1; [exact Ha|].
      apply nth_error_Some. rewrite Ha. discriminate. }
    rewrite Hsame in Ho. injection Ho as Ho. apply Hne. symmetry. exact Ho.
Qed.

Lemma get_motor_is_cached_witness :
  get_motor "b" (snd (get_motor "b" (mkMotors [] []))) = get_motor "b" (mkMotors [] [])
  /\ fst (get_motor "a" (snd (get_motor "b" (mkMotors [] []))))
     <> fst (get_motor "b" (mkMotors [] [])).
Proof.
  assert (H0 : cache_consistent (mkMotors [] [])).
  { intros axis m H. discriminate H. }
  pose proof (get_motor_is_cached "b" (mkMotors [] []) H0) as [_ [_ [Hsame Hother]]].
  split; [exact Hsame|].
  apply Hother. discriminate.
Defined.

End Robot.

(** * The GPIO pins of the Raspberry Pi

    [opentrons/drivers/rpi_drivers/gpio.py].  Every effect of the module
    is a call of [os.system]; a function is modelled by the list of command
    lines it hands to [system], in order.  [sys.platform == 'win32'] is a
    parameter. *)
Module Gpio.

Local Open Scope string_scope.

Definition IN : string := "in".
Definition OUT : string := "out".
Definition LOW : string := "0".
Definition HIGH : string := "1".

Definition OUTPUT_PINS : list (string * nat) :=
  [("FRAME_LEDS", 6%nat); ("BLUE_BUTTON", 13%nat); ("HALT", 18%nat);
   ("GREEN_BUTTON", 19%nat); ("AUDIO_ENABLE", 21%nat); ("ISP", 23%nat);
   ("RESET", 24%nat); ("RED_BUTTON", 26%nat)].

Definition INPUT_PINS : list (string * nat) :=
  [("BUTTON_INPUT", 5%nat); ("WINDOW_INPUT", 20%nat)].

Definition _path_prefix : string := "/sys/class/gpio".

Record Lights : Type := mkLights { red : bool; green : bool; blue : bool }.

Definition BUTTON_COLORS : list (string * Lights) :=
  [("off", mkLights false false false);
   ("white", mkLights true true true);
   ("red", mkLights true false false);
   ("green", mkLights false true false);
   ("blue", mkLights false false true);
   ("yellow", mkLights true true false);
   ("pink", mkLights true false true);
   ("teal", mkLights false true true)].

(** [OUTPUT_PINS[name]]; every name the module looks up is a key. *)
Definition pin_of (name : string) (pins : list (string * nat)) : nat :=
  match Robot.lookup name pins with Some p => p | None => 0%nat end.

(** The paths the module formats. *)
Definition export_path : string := _path_prefix ++ "/export".
Definition direction_path (pin : nat) : string :=
  _path_prefix ++ "/gpio" ++ Robot.str pin ++ "/direction".
Definition value_path (pin : nat) : string :=
  _path_prefix ++ "/gpio" ++ Robot.str pin ++ "/value".

Section Platform.

Variable win32 : bool.

(** [_write_value(value, path)]: the one command line it runs. *)
Definition _write_value (value path : string) : list string :=
  let base_command := "echo '" ++ value ++ "' > " ++ path in
  if win32 then [base_command ++ " > NUL"]
  else ["exec 2> /dev/null; " ++ base_command].

(** [_enable_pin(pin, direction)] *)
Definition _enable_pin (pin : nat) (direction : string) : list string :=
  (_write_value (Robot.str pin) export_path
   ++ _write_value direction (direction_path pin))%list.

(** [set_high(pin)] and [set_low(pin)] *)
Definition set_high (pin : nat) : list string := _write_value HIGH (value_path pin).
Definition set_low (pin : nat) : list string := _write_value LOW (value_path pin).

(** [_set_button_light(red, green, blue)]: the dictionary [color_pins]
    has three distinct keys and is walked in the order it was written. *)
Definition _set_button_light (l : Lights) : list string :=
  let color_pins :=
    [(pin_of "RED_BUTTON" OUTPUT_PINS, red l);
     (pin_of "GREEN_BUTTON" OUTPUT_PINS, green l);
     (pin_of "BLUE_BUTTON" OUTPUT_PINS, blue l)] in
  flat_map (fun e : nat * bool => if snd e then set_high (fst e) else set_low (fst e))
           color_pins.

Inductive Error : Type := ValueError (msg : string).

(** [set_button_color(color)] *)
Definition set_button_color (color : string) : (Error + unit) * list string :=
  match Robot.lookup color BUTTON_COLORS with
  | None => (inl (ValueError ("Not a known button color: " ++ color)), [])
  | Some l => (inr tt, _set_button_light l)
  end.

(** [sorted] on pin numbers. *)
Fixpoint insert_pin (p : nat) (l : list nat) : list nat :=
  match l with
  | [] => [p]
  | h :: t => if Nat.leb p h then p :: h :: t else h :: insert_pin p t
  end.

Definition sorted_pins (l : list nat) : list nat := fold_right insert_pin [] l.

(** [initialize()] *)
Definition initialize : list string :=
  (flat_map (fun pin => _enable_pin pin OUT) (sorted_pins (map snd OUTPUT_PINS))
   ++ flat_map (fun pin => _enable_pin pin IN) (sorted_pins (map snd INPUT_PINS)))%list.

Lemma button_color_of_lights (c1 c2 : string) (l : Lights) :
  Robot.lookup c1 BUTTON_COLORS = Some l ->
  Robot.lookup c2 BUTTON_COLORS = Some l ->
  c1 = c2.
Proof.
  unfold Robot.lookup, BUTTON_COLORS. cbn [find fst snd].
  repeat match goal with
         | |- context [String.eqb ?k c1] =>
             destruct (String.eqb k c1) eqn:?
         end;
  repeat match goal with
         | |- context [String.eqb ?k c2] =>
             destruct (String.eqb k c2) eqn:?
         end;
  cbn; intros H1 H2; try discriminate; try congruence;
  repeat match goal with
         | H : String.eqb _ _ = true |- _ => apply String.eqb_eq in H
         end;
  congruence.
Qed.

Lemma write_value_inj (v1 v2 : string) (p q : nat) :
  (v1 = HIGH \/ v1 = LOW) -> (v2 = HIGH \/ v2 = LOW) ->
  _write_value v1 (value_path p) = _write_value v2 (value_path q) -> v1 = v2.
Proof.
  unfold _write_value, HIGH, LOW.
  intros [H1|H1] [H2|H2]; subst; try reflexivity;
    destruct win32; cbn; intro H; discriminate H.
Qed.

(** X22.  [set_button_color] raises [ValueError] for a colour that is not
    in the table and then runs no command.  For a colour of the table it
    runs three commands: it writes the value files of the red, green and
    blue button pins (26, 19 and 13), in this order, high where the table
    has the light on and low where it has it off.  Two colours of the table
    that give the same commands are the same colour. *)
Theorem set_button_color_writes_three_pins (color : string) :
  (Robot.lookup color BUTTON_COLORS = None ->
   set_button_color color
   = (inl (ValueError ("Not a known button color: " ++ color)), []))
  /\ (forall l, Robot.lookup color BUTTON_COLORS = Some l ->
        set_button_color color
        = (inr tt,
           (_write_value (if red l then HIGH else LOW) (value_path 26)
            ++ _write_value (if green l then HIGH else LOW) (value_path 19)
            ++ _write_value (if blue l then HIGH else LOW) (value_path 13))%list))
  /\ (forall other l l',
        Robot.lookup color BUTTON_COLORS = Some l ->
        Robot.lookup other BUTTON_COLORS = Some l' ->
        set_button_color color = set_button_color other ->
        color = other).
Proof.
  split; [|split].
  - intro H. unfold set_button_color. rewrite H. reflexivity.
  - intros l H. unfold set_button_color. rewrite H.
    unfold _set_button_light, set_high, set_low. cbn [flat_map fst snd].
    change (pin_of "RED_BUTTON" OUTPUT_PINS) with 26%nat.
    change (pin_of "GREEN_BUTTON" OUTPUT_PINS) with 19%nat.
    change (pin_of "BLUE_BUTTON" OUTPUT_PINS) with 13%nat.
    destruct (red l), (green l), (blue l); rewrite app_nil_r; reflexivity.
  - intros other l l' H H' E.
    apply (button_color_of_lights color other l H).
    rewrite H'. f_equal.
    unfold set_button_color in E. rewrite H, H' in E.
    destruct l as [r g b], l' as [r' g' b'].
    unfold _set_button_light, set_high, set_low, _write_value in E.
    destruct win32, r, g, b, r', g', b'; try reflexivity;
      cbn in E; discriminate E.
Qed.

(** X23.  [initialize] exports every output pin and then every input pin,
    each in the order of the pin numbers, and sets the direction of a pin
    right after exporting it: twenty commands.  None of them is a command
    of [set_high] or [set_low]: no pin is given a value, the HALT pin
    included. *)
Theorem initialize_sets_no_value :
  initialize
  = (flat_map (fun pin => _enable_pin pin OUT)
       [6; 13; 18; 19; 21; 23; 24; 26]%nat
     ++ flat_map (fun pin => _enable_pin pin IN) [5; 20]%nat)%list
  /\ List.length initialize = 20%nat
  /\ forall c pin, In c initialize ->
       ~ In c (set_high pin) /\ ~ In c (set_low pin).
Proof.
  split; [reflexivity|].
  split; [unfold initialize, _enable_pin, _write_value; destruct win32; reflexivity|].
  intros c pin Hc.
  unfold set_high, set_low, _write_value, value_path, HIGH, LOW.
  unfold initialize, _enable_pin, _write_value in Hc.
  destruct win32; cbn in Hc;
    repeat (destruct Hc as [Hc|Hc]; [subst c; split; intros [H|[]]; cbn in H; discriminate H|]);
    destruct Hc.
Qed.

End Platform.

Lemma set_button_color_writes_three_pins_witness :
  set_button_color false "blue"
  = (inr tt,
     ["exec 2> /dev/null; echo '0' > /sys/class/gpio/gpio26/value";
      "exec 2> /dev/null; echo '0' > /sys/class/gpio/gpio19/value";
      "exec 2> /dev/null; echo '1' > /sys/class/gpio/gpio13/value"])
  /\ set_button_color false "purple"
     = (inl (ValueError "Not a known button color: purple"), []).
Proof.
  split.
  - exact (proj1 (proj2 (set_button_color_writes_three_pins false "blue"))
             (mkLights false false true) eq_refl).
  - exact (proj1 (set_button_color_writes_three_pins false "purple") eq_refl).
Defined.

Lemma initialize_sets_no_value_witness :
  In "exec 2> /dev/null; echo '18' > /sys/class/gpio/export" (initialize false)
  /\ ~ In "exec 2> /dev/null; echo '18' > /sys/class/gpio/export" (set_high false 18).
Proof.
  assert (H : In "exec 2> /dev/null; echo '18' > /sys/class/gpio/export"
                 (initialize false)).
  { vm_compute. tauto. }
  split; [exact H|].
  exact (proj1 (proj2 (proj2 (initialize_sets_no_value false)) _ 18%nat H)).
Defined.

End Gpio.

(** ** The smoothie driver

    The driver module ([drivers/smoothie_drivers/driver_3_0.py]) is not
    embedded; its contract tests are.  The operations of this module are
    modelled from the specification's section on the hardware driver
    protocol and are pinned down by [test_send_command_with_retry] and
    [test_clear_limit_switch]. *)

Module Driver.

Inductive Axis : Type := X | Y | Z | A | B | C.

Definition axis_eqb (a b : Axis) : bool :=
  match a, b with
  | X, X | Y, Y | Z, Z | A, A | B, B | C, C => true
  | _, _ => false
  end.



Definition mem_axis (a : Axis) (l : list Axis) : bool := existsb (axis_eqb a) l.

(** The axes in the order a current-setting line lists them. *)
Definition LINE_AXES : list Axis := [A; B; C; X; Y; Z].

(** A line handed to the transport.  [currents] is the [M907] prefix a
    motion line carries, one entry per axis. *)
Inductive Command : Type :=
| CmdRaw (text : string)
| CmdMove (currents : list (Axis * Q)) (target : list (Axis * Q))
| CmdHome (currents : list (Axis * Q)) (axes : list Axis)
| CmdSetCurrent (currents : list (Axis * Q))
| CmdClearAlarm
| CmdCurrentPosition.

(** An acknowledgement line. *)
Inductive Response : Type :=
| RespOk
| RespAlarm (axis : Axis)
| RespPosition (p : list (Axis * Q))
| RespMalformed (text : string).

Inductive Error : Type :=
| SerialNoResponse
| SmoothieError (axis : Axis)
| ParseError.

(** Modelled from the spec: the fixed retry budget of the driver's
    [_send_command] (the driver module is missing).
    [test_send_command_with_retry] fixes its value: two failures in a row
    are absorbed, three are not. *)
Definition RETRY_BUDGET : nat := 3.

Definition lookup_axis (a : Axis) (l : list (Axis * Q)) : option Q :=
  match find (fun e => axis_eqb a (fst e)) l with
  | Some e => Some (snd e)
  | None => None
  end.

Section Protocol.

(** The transport: [serial_communication.write_and_return], with whatever
    state the connection (or a test's mock) keeps.  [inl tt] is the raised
    [SerialNoResponse]. *)
Variable Conn : Type.
Variable write_and_return : Conn -> Command -> (unit + Response) * Conn.

(** Modelled from the spec: the attributes of the driver object (its class
    is missing): per axis the last confirmed position, the homed flag, the
    current in force and the active and dwelling current settings; the
    connection; and the lines handed to the transport so far, oldest
    first. *)
Record State : Type := mkState {
  position : Axis -> Q;
  homed : Axis -> bool;
  current : Axis -> Q;
  active_current : Axis -> Q;
  dwelling_current : Axis -> Q;
  connection : Conn;
  sent : list Command
}.

Definition set_position (s : State) (p : Axis -> Q) : State :=
  mkState p (homed s) (current s) (active_current s) (dwelling_current s)
          (connection s) (sent s).

Definition set_homed (s : State) (h : Axis -> bool) : State :=
  mkState (position s) h (current s) (active_current s) (dwelling_current s)
          (connection s) (sent s).

Definition set_current (s : State) (c : Axis -> Q) : State :=
  mkState (position s) (homed s) c (active_current s) (dwelling_current s)
          (connection s) (sent s).

Definition set_wire (s : State) (c : Conn) (l : list Command) : State :=
  mkState (position s) (homed s) (current s) (active_current s)
          (dwelling_current s) c l.

(** Driver operations: a result or a raised error, and the state left
    behind either way. *)
Definition M (R : Type) : Type := State -> (Error + R) * State.

Definition ret {R : Type} (r : R) : M R := fun s => (inr r, s).
Definition raise {R : Type} (e : Error) : M R := fun s => (inl e, s).
Definition bind {R R' : Type} (m : M R) (k : R -> M R') : M R' :=
  fun s => match m s with
           | (inr r, s') => k r s'
           | (inl e, s') => (inl e, s')
           end.
(** [try: m finally: f]: [f] runs whether or not [m] raised; an error of
    [f] replaces the outcome. *)
Definition finally {R : Type} (m : M R) (f : M unit) : M R :=
  fun s => match m s with
           | (res, s') =>
               match f s' with
               | (inr _, s'') => (res, s'')
               | (inl e, s'') => (inl e, s'')
               end
           end.

(** One attempt: the line goes to the transport and is recorded. *)
Definition attempt (cmd : Command) (s : State) : (unit + Response) * State :=
  let '(res, c) := write_and_return (connection s) cmd in
  (res, set_wire s c (sent s ++ [cmd])).

(** Modelled from the spec: the retry loop inside the driver's
    [_send_command] (missing).  A transient no-response is retried until the
    budget is used up; the last failure is raised. *)
Fixpoint write_with_retries (retries : nat) (cmd : Command) : M Response :=
  fun s =>
    match retries with
    | O => (inl SerialNoResponse, s)
    | S n =>
        match attempt cmd s with
        | (inr resp, s') => (inr resp, s')
        | (inl _, s') =>
            match n with
            | O => (inl SerialNoResponse, s')
            | S _ => write_with_retries n cmd s'
            end
        end
    end.

(** Modelled from the spec: the driver's [_send_command] (missing),
    command dispatch.  The line is sent and its acknowledgement
    returned. *)
Definition _send_command (cmd : Command) : M Response :=
  write_with_retries RETRY_BUDGET cmd.

(** The currents of all axes as a motion line lists them. *)
Definition currents_line (c : Axis -> Q) : list (Axis * Q) :=
  map (fun a => (a, c a)) LINE_AXES.

(** Modelled from the spec: current management before a motion (the
    driver's helper is missing): the involved axes at their active current,
    every peer at its dwelling current. *)
Definition activate_axes (axes : list Axis) : M unit :=
  fun s =>
    (inr tt,
     set_current s (fun a => if mem_axis a axes then active_current s a
                             else dwelling_current s a)).

(** Modelled from the spec: current management after a homing (the
    driver's helper is missing): all axes back to their dwelling current,
    and the line that tells the board. *)
Definition dwell_all : M unit :=
  fun s =>
    let s1 := set_current s (dwelling_current s) in
    bind (_send_command (CmdSetCurrent (currents_line (current s1))))
         (fun _ => ret tt) s1.

(** Modelled from the spec: the position query behind the driver's
    [update_position] (missing).  One malformed answer is tolerated, a
    second one is fatal. *)
Definition read_position : M (list (Axis * Q)) :=
  bind (_send_command CmdCurrentPosition) (fun r1 =>
    match r1 with
    | RespPosition p => ret p
    | _ =>
        bind (_send_command CmdCurrentPosition) (fun r2 =>
          match r2 with
          | RespPosition p => ret p
          | _ => raise ParseError
          end)
    end).

(** Modelled from the spec: the driver's [update_position] (missing).  The
    positions read back replace the recorded ones. *)
Definition update_position : M unit :=
  bind read_position (fun p s =>
    (inr tt,
     set_position s (fun a => match lookup_axis a p with
                              | Some q => q
                              | None => position s a
                              end))).

(** Modelled from the spec: the driver's [home] (missing), for one group of
    axes homed by one line.  The homed axes get their active current on the
    homing line, all axes dwell afterwards, the axes are flagged homed and
    the true position is read back.  This is the form the contract tests
    show for A, B, C and Z ([test_clear_limit_switch],
    [test_set_active_current], the first lines of [test_plunger_commands]);
    X and Y are homed there by longer sequences, which are not modelled. *)
Definition home (axes : list Axis) : M unit :=
  bind (finally
          (bind (activate_axes axes) (fun _ s =>
             bind (_send_command (CmdHome (currents_line (current s)) axes))
                  (fun ack =>
                     match ack with
                     | RespAlarm a => raise (SmoothieError a)
                     | _ => ret tt
                     end) s))
          dwell_all)
       (fun _ =>
          bind (fun s =>
                  (inr tt,
                   set_homed s (fun a => if mem_axis a axes then true
                                         else homed s a)))
               (fun _ => update_position)).

(** Modelled from the spec: limit-switch recovery (the driver's handling
    of an alarm acknowledgement is missing).  Clear the alarm, home the
    faulted axis alone, and surface the fault. *)
Definition recover_from_alarm (axis : Axis) : M unit :=
  bind (_send_command CmdClearAlarm) (fun _ =>
  bind (home [axis]) (fun _ =>
  raise (SmoothieError axis))).

(** The plunger axes, whose motors are dwelled after every move. *)
Definition PLUNGER_AXES : list Axis := [B; C].

(** The plunger axes among the axes of a move. *)
Definition moved_plungers (axes : list Axis) : list Axis :=
  filter (fun a => mem_axis a axes) PLUNGER_AXES.

(** Modelled from the spec: the closing step of a move (the driver's
    helper is missing).  The spec has all axes restored to dwelling current;
    the contract tests in [test_driver.py] fix less: after a move only the
    plunger axes that moved are lowered, and the line that tells the board
    is sent only when there is one ([test_plunger_commands]: a move of
    X, Y, Z and A sends one line; a move of all six lowers B and C alone).
    The tests are followed. *)
Definition dwell_moved_plungers (axes : list Axis) : M unit :=
  fun s =>
    match moved_plungers axes with
    | [] => (inr tt, s)
    | moved =>
        let s1 := set_current s (fun a => if mem_axis a moved
                                          then dwelling_current s a
                                          else current s a) in
        bind (_send_command (CmdSetCurrent (currents_line (current s1))))
             (fun _ => ret tt) s1
    end.

(** Modelled from the spec: the driver's [move] (missing).  The moved axes
    are set to their active current and their peers to dwelling current on
    the motion line; a hard-limit acknowledgement starts the recovery;
    whatever happened, the plunger axes that moved are returned to their
    dwelling current before the call ends. *)
Definition move (target : list (Axis * Q)) : M unit :=
  finally
    (bind (activate_axes (map fst target)) (fun _ s =>
       bind (_send_command (CmdMove (currents_line (current s)) target))
            (fun ack =>
               match ack with
               | RespAlarm a => recover_from_alarm a
               | _ => fun s' =>
                   (inr tt,
                    set_position s' (fun a => match lookup_axis a target with
                                              | Some q => q
                                              | None => position s' a
                                              end))
               end) s))
    (dwell_moved_plungers (map fst target)).

(** *** Facts about the protocol *)

Lemma attempt_eq (cmd : Command) (s : State) (res : unit + Response) (c : Conn) :
  write_and_return (connection s) cmd = (res, c) ->
  attempt cmd s = (res, set_wire s c (sent s ++ [cmd])).
Proof. intro H. unfold attempt. rewrite H. reflexivity. Qed.

(** C4.  A transport that raises no-response twice and then answers: the
    answer reaches the caller, after three attempts.  A transport that
    raises on the third attempt too: the error is raised to the caller,
    and the transport is left as the third attempt left it, three lines
    having been sent and no fourth. *)
Theorem send_command_with_retry (s : State) (cmd : Command) (c1 c2 c3 : Conn) :
  write_and_return (connection s) cmd = (inl tt, c1) ->
  write_and_return c1 cmd = (inl tt, c2) ->
  (forall resp, write_and_return c2 cmd = (inr resp, c3) ->
     _send_command cmd s
     = (inr resp, set_wire s c3 (sent s ++ [cmd; cmd; cmd])))
  /\ (write_and_return c2 cmd = (inl tt, c3) ->
      _send_command cmd s
      = (inl SerialNoResponse, set_wire s c3 (sent s ++ [cmd; cmd; cmd]))).
Proof.
  intros H1 H2.
  assert (Hl : ((sent s ++ [cmd]) ++ [cmd]) ++ [cmd] = sent s ++ [cmd; cmd; cmd]).
  { rewrite <- !app_assoc. reflexivity. }
  assert (Hrun : forall res, write_and_return c2 cmd = (res, c3) ->
            _send_command cmd s
            = (match res with
               | inl _ => inl SerialNoResponse
               | inr resp => inr resp
               end, set_wire s c3 (sent s ++ [cmd; cmd; cmd]))).
  { intros res H3.
    unfold _send_command, RETRY_BUDGET.
    cbn [write_with_retries].
    rewrite (attempt_eq cmd s _ _ H1).
    rewrite (attempt_eq cmd (set_wire s c1 (sent s ++ [cmd])) _ c2 H2).
    rewrite (attempt_eq cmd (set_wire (set_wire s c1 (sent s ++ [cmd])) c2
                               (sent (set_wire s c1 (sent s ++ [cmd])) ++ [cmd]))
               _ c3 H3).
    unfold set_wire. cbn. rewrite Hl. destruct res; reflexivity. }
  split.
  - intros resp H3. exact (Hrun _ H3).
  - intros H3. exact (Hrun _ H3).
Qed.

Section Answering.

(** A transport that always answers, the answer depending on the line
    alone: the mock of [test_clear_limit_switch] is one. *)
Variable respond : Command -> Response.
Hypothesis answers :
  forall c cmd, fst (write_and_return c cmd) = inr (respond cmd).









End Answering.

End Protocol.

(** *** The transports and states of the contract tests *)

(** [_no_response] of [test_send_command_with_retry]: the counter is the
    connection state. *)
Definition _no_response (count : Py.int) (cmd : Command) : (unit + Response) * Py.int :=
  let count := (count + 1)%Z in
  if (count <? 3)%Z then (inl tt, count) else (inr RespOk, count).

(** [write_mock] of [test_clear_limit_switch]: the answer depends on the
    line alone; the list it appends to is the record of sent lines. *)
Definition write_mock_answer (cmd : Command) : Response :=
  match cmd with
  | CmdMove _ _ => RespAlarm C
  | CmdCurrentPosition =>
      RespPosition [(X, 10); (Y, 20); (Z, 30); (A, 40); (B, 50); (C, 60)]
  | _ => RespOk
  end.

Definition write_mock (c : unit) (cmd : Command) : (unit + Response) * unit :=
  (inr (write_mock_answer cmd), c).

(** The dwelling and the active currents the lines of
    [test_plunger_commands] and [test_clear_limit_switch] show. *)
Definition test_dwelling (a : Axis) : Q :=
  match a with
  | A => 1 # 10 | B => 5 # 100 | C => 5 # 100
  | X => 3 # 10 | Y => 3 # 10 | Z => 1 # 10
  end.

Definition test_active (a : Axis) : Q :=
  match a with
  | A => 1 | B => 5 # 10 | C => 5 # 10
  | X => 125 # 100 | Y => 15 # 10 | Z => 1
  end.

(** The driver after [robot.home()]: every axis homed and dwelling. *)
Definition homed_state {Conn : Type} (c : Conn) : State Conn :=
  mkState Conn (fun _ => 0) (fun _ => true) test_dwelling test_active
          test_dwelling c [].

Definition test_line (c_current : Q) : list (Axis * Q) :=
  [(A, 1 # 10); (B, 5 # 100); (C, c_current); (X, 3 # 10); (Y, 3 # 10); (Z, 1 # 10)].

(** The list [test_clear_limit_switch] asserts, line for line. *)
Definition test_expected_lines : list Command :=
  [ CmdMove (test_line (5 # 10)) [(C, 100)];
    CmdClearAlarm;
    CmdHome (test_line (5 # 10)) [C];
    CmdSetCurrent (test_line (5 # 100));
    CmdCurrentPosition;
    CmdSetCurrent (test_line (5 # 100)) ].

Example clear_limit_switch_run :
  let out := move unit write_mock [(C, 100)] (homed_state tt) in
  fst out = inl (SmoothieError C)
  /\ sent unit (snd out) = test_expected_lines.
Proof. split; reflexivity. Qed.

(** [write_with_log] of [test_plunger_commands]: every line is
    acknowledged. *)
Definition write_with_log (c : unit) (cmd : Command) : (unit + Response) * unit :=
  (inr RespOk, c).

(** The three moves of [test_plunger_commands], one after the other. *)
Definition plunger_commands_moves : M unit unit :=
  bind unit (move unit write_with_log [(X, 0); (Y, 1123456 # 1000000); (Z, 2); (A, 3)])
    (fun _ =>
  bind unit (move unit write_with_log [(B, 2)]) (fun _ =>
  move unit write_with_log
       [(X, 10987654321 # 1000000000); (Y, 112345678 # 100000000); (Z, 2);
        (A, 3); (B, 4); (C, 5)])).

(** The lines [test_plunger_commands] asserts for them: the move of the
    gantry axes is one line; the move of B is followed by the dwelling
    currents; the move of all six axes is followed by a line that lowers
    B and C alone. *)
Example plunger_commands_run :
  sent unit (snd (plunger_commands_moves (homed_state tt)))
  = [ CmdMove [(A, 1); (B, 5 # 100); (C, 5 # 100);
               (X, 125 # 100); (Y, 15 # 10); (Z, 1)]
              [(X, 0); (Y, 1123456 # 1000000); (Z, 2); (A, 3)];
      CmdMove [(A, 1 # 10); (B, 5 # 10); (C, 5 # 100);
               (X, 3 # 10); (Y, 3 # 10); (Z, 1 # 10)]
              [(B, 2)];
      CmdSetCurrent [(A, 1 # 10); (B, 5 # 100); (C, 5 # 100);
                     (X, 3 # 10); (Y, 3 # 10); (Z, 1 # 10)];
      CmdMove [(A, 1); (B, 5 # 10); (C, 5 # 10);
               (X, 125 # 100); (Y, 15 # 10); (Z, 1)]
              [(X, 10987654321 # 1000000000); (Y, 112345678 # 100000000);
               (Z, 2); (A, 3); (B, 4); (C, 5)];
      CmdSetCurrent [(A, 1); (B, 5 # 100); (C, 5 # 100);
                     (X, 125 # 100); (Y, 15 # 10); (Z, 1)] ].
Proof. reflexivity. Qed.

Example send_command_two_failures :
  let out := _send_command Py.int _no_response (CmdRaw "test") (homed_state 0%Z) in
  fst out = inr RespOk /\ connection Py.int (snd out) = 3%Z.
Proof. split; reflexivity. Qed.

Example send_command_three_failures :
  let out := _send_command Py.int _no_response (CmdRaw "test") (homed_state (-1)%Z) in
  fst out = inl SerialNoResponse
  /\ connection Py.int (snd out) = 2%Z
  /\ List.length (sent Py.int (snd out)) = RETRY_BUDGET.
Proof. repeat split; reflexivity. Qed.

Lemma send_command_with_retry_witness :
  _send_command Py.int _no_response (CmdRaw "test") (homed_state 0%Z)
  = (inr RespOk,
     set_wire Py.int (homed_state 0%Z) 3%Z
       ([] ++ [CmdRaw "test"; CmdRaw "test"; CmdRaw "test"]))
  /\ _send_command Py.int _no_response (CmdRaw "test") (homed_state (-1)%Z)
     = (inl SerialNoResponse,
        set_wire Py.int (homed_state (-1)%Z) 2%Z
          ([] ++ [CmdRaw "test"; CmdRaw "test"; CmdRaw "test"])).
Proof.
  split.
  - apply (proj1 (send_command_with_retry Py.int _no_response (homed_state 0%Z)
                    (CmdRaw "test") 1%Z 2%Z 3%Z eq_refl eq_refl)).
    reflexivity.
  - apply (proj2 (send_command_with_retry Py.int _no_response (homed_state (-1)%Z)
                    (CmdRaw "test") 0%Z 1%Z 2%Z eq_refl eq_refl)).
    reflexivity.
Defined.





End Driver.

(** ** The deck-calibration session of [endpoints.py] *)

Module Calibration.
Import Py.
Local Open Scope string_scope.

#[local] Set Warnings "-register-all".

(** A parsed JSON value; Python's [None] is [JNull]. *)
Inductive json : Type :=
| JNull
| JBool (b : bool)
| JNum (q : Q)
| JStr (s : string)
| JArray (items : list json)
| JObject (fields : list (string * json)).

(** A parsed request body: a Python [dict] with string keys. *)
Definition Dict : Type := list (string * json).

(** [data.get(key)] *)
Definition get (data : Dict) (key : string) : json :=
  match find (fun e => String.eqb (fst e) key) data with
  | Some e => snd e
  | None => JNull
  end.

(** Python truth value of a JSON value. *)
Definition truthy (v : json) : bool :=
  match v with
  | JNull => false
  | JBool b => b
  | JNum q => negb (Qeq_bool q 0)
  | JStr s => negb (String.eqb s "")
  | JArray items => match items with [] => false | _ => true end
  | JObject fields => match fields with [] => false | _ => true end
  end.

(** [v == s] for a Python [str] [s]. *)
Definition is_str (v : json) (s : string) : bool :=
  match v with
  | JStr t => String.eqb t s
  | _ => false
  end.

(** [v is None] *)
Definition is_none (v : json) : bool :=
  match v with
  | JNull => true
  | _ => false
  end.

(** Lists and dicts cannot be dictionary keys. *)
Definition hashable (v : json) : bool :=
  match v with
  | JArray _ | JObject _ => false
  | _ => true
  end.

(** The number a value stands for in arithmetic ([True] is 1). *)
Definition number_of (v : json) : option Q :=
  match v with
  | JNum q => Some q
  | JBool b => Some (if b then 1 else 0)
  | _ => None
  end.

(** [str.upper] on ASCII letters. *)
Definition upper_ascii (c : Ascii.ascii) : Ascii.ascii :=
  let n := Ascii.N_of_ascii c in
  if ((97 <=? n) && (n <=? 122))%N then Ascii.ascii_of_N (n - 32) else c.

Fixpoint upper (s : string) : string :=
  match s with
  | EmptyString => EmptyString
  | String c rest => String (upper_ascii c) (upper rest)
  end.

(** [sorted] on a list of strings. *)
Fixpoint insert_sorted (k : string) (l : list string) : list string :=
  match l with
  | [] => [k]
  | h :: t => if String.leb k h then k :: h :: t else h :: insert_sorted k t
  end.

Definition sorted (l : list string) : list string :=
  fold_right insert_sorted [] l.

(** A dictionary with string keys, in insertion order. *)
Definition assoc {V : Type} (k : string) (d : list (string * V)) : option V :=
  match find (fun e => String.eqb (fst e) k) d with
  | Some e => Some (snd e)
  | None => None
  end.

(** [d[k] = v]: the value of an existing key is replaced in place, a new
    key is appended. *)
Fixpoint assign {V : Type} (k : string) (v : V) (d : list (string * V))
    : list (string * V) :=
  match d with
  | [] => [(k, v)]
  | (k', v') :: rest =>
      if String.eqb k' k then (k, v) :: rest else (k', v') :: assign k v rest
  end.

Inductive PyError : Type :=
| AssertionError
| KeyError
| TypeError
| AttributeError
| OtherError (name : string).

(** The outcome of a call: a value or a raised exception. *)
Inductive Exc (R : Type) : Type :=
| Ok (r : R)
| Raise (e : PyError).
Arguments Ok {R} r.
Arguments Raise {R} e.

(** A 3x3 or 4x4 matrix as nested lists. *)
Definition Matrix : Type := list (list Q).

(** The fields of [robot.config] the session reads and replaces. *)
Record robot_config : Type := mk_robot_config {
  gantry_calibration : Matrix;
  mount_offset : Vec3
}.

(** [config._replace(gantry_calibration=m)] *)
Definition _replace (c : robot_config) (m : Matrix) : robot_config :=
  mk_robot_config m (mount_offset c).

(** The part of a pipette configuration read here. *)
Record PipetteConfig : Type := mkPipetteConfig {
  cfg_channels : nat;
  model_offset : Vec3
}.

(** A pipette object: its mount and number of channels.  Its tip state is
    mutable and shared with the robot; it lives in the hardware state. *)
Record Pipette : Type := mkPipette {
  mount : string;
  channels : nat
}.

(** What a handler answers: [web.json_response] with these contents. *)
Inductive Message : Type :=
| MsgText (text : string)
| MsgTipLengthRequired
| MsgTipLengthSet (tip_length : json)
| MsgAxisInvalid
| MsgDirectionInvalid
| MsgStepRequired
| MsgJogged (position : Vec3)
| MsgMoved (point : Vec3)
| MsgPointNameInvalid
| MsgPointInvalid (valid_points : list string)
| MsgSavedPoint (point : string) (value : Q * Q)
| MsgSavedZ (z_value : Q)
| MsgTokenRequired
| MsgCommandRequired
| MsgInvalidToken (token : json)
| MsgException (e : PyError) (data : Dict)
| MsgExceptionBody (e : PyError) (data : json)
| MsgStarted (token : string) (pipette_mount : string) (model : string)
| MsgPipetteNotRecognized
| MsgSessionInProgress.

Record Response : Type := mkResponse {
  status : nat;
  body : Message
}.

(** The calls that reach the durable configuration. *)
Inductive StoreEvent : Type :=
| SaveDeckCalibration (c : robot_config)
| BackupConfiguration (c : robot_config).

(** [SessionManager]: the attributes set by [__init__]. *)
Record SessionManager : Type := mkSession {
  id : string;
  pipettes : list (string * Pipette);
  current_mount : option string;
  current_model : option string;
  tip_length : json;
  points : list (string * option (Q * Q));
  z_value : option Q
}.

Definition set_pipettes (s : SessionManager) (p : list (string * Pipette)) :=
  mkSession (id s) p (current_mount s) (current_model s) (tip_length s)
            (points s) (z_value s).

Definition set_current_mount_field (s : SessionManager) (m : option string) :=
  mkSession (id s) (pipettes s) m (current_model s) (tip_length s)
            (points s) (z_value s).

Definition set_current_model (s : SessionManager) (m : option string) :=
  mkSession (id s) (pipettes s) (current_mount s) m (tip_length s)
            (points s) (z_value s).

Definition set_tip_length (s : SessionManager) (t : json) :=
  mkSession (id s) (pipettes s) (current_mount s) (current_model s) t
            (points s) (z_value s).

Definition set_points (s : SessionManager) (p : list (string * option (Q * Q))) :=
  mkSession (id s) (pipettes s) (current_mount s) (current_model s)
            (tip_length s) p (z_value s).

Definition set_z_value (s : SessionManager) (z : option Q) :=
  mkSession (id s) (pipettes s) (current_mount s) (current_model s)
            (tip_length s) (points s) z.

(** ['left' if session.current_mount == 'Z' else 'right'] *)
Definition mount_name (s : SessionManager) : string :=
  match current_mount s with
  | Some m => if String.eqb m "Z" then "left" else "right"
  | None => "right"
  end.

Section Endpoints.

(** The robot singleton, the pipette configurations, the linear algebra
    and the deck-calibration helpers are modules that are not embedded; the
    endpoints are parameterised by them.  [Hardware]
    stands for the mutable state behind [robot] other than [robot.config]:
    pose tree, driver, attached instruments and their tips. *)
Variable Hardware : Type.
(** [dots_set()]: the three expected points, by [x] and [y]. *)
Variable dots_set : (Q * Q) * (Q * Q) * (Q * Q).
(** [z_pos], a tuple *)
Variable z_pos : list Q.
(** [pipette_config.Y_OFFSET_MULTI] *)
Variable Y_OFFSET_MULTI : Q.
(** [pipette_config.configs.keys()] and [pipette_config.load] *)
Variable configs : list string.
Variable load : string -> PipetteConfig.
(** [robot_configs._build_config({}, {}).gantry_calibration] *)
Variable default_gantry_calibration : Matrix.
(** [uuid1()], by the reading of the clock it is drawn from *)
Variable uuid1 : nat -> string.
(** [robot.model_by_mount[mount]], the models the robot has cached, and
    [pipette_config.configs[model].tip_length] *)
Variable model_by_mount : Hardware -> string -> option string.
Variable config_tip_length : string -> Q.
(** the registration of a new pipette with the robot, and
    [robot.remove_instrument(mount)] *)
Variable add_instrument : string -> Hardware -> Hardware.
Variable remove_instrument : string -> Hardware -> Hardware.
(** [jog(axis, direction, step)] and [position(axis)] of the package *)
Variable jog : string -> json -> json -> Hardware -> Exc Vec3 * Hardware.
Variable position : string -> Hardware -> Vec3.
(** [pipette.move_to((robot.deck, point), strategy='arc')] *)
Variable pipette_move_to : Pipette -> Vec3 -> Hardware -> Hardware.
(** [pipette.tip_attached], [pipette._tip_length], [pipette._add_tip] and
    [pipette._remove_tip] *)
Variable tip_attached : Pipette -> Hardware -> bool.
Variable pipette_tip_length : Pipette -> Hardware -> json.
Variable _add_tip : Pipette -> json -> Hardware -> Exc unit * Hardware.
Variable _remove_tip : Pipette -> json -> Hardware -> Exc unit * Hardware.
(** [linal.solve(expected, actual)] and [linal.add_z(xy, z)] *)
Variable solve : list (Q * Q) -> list (Q * Q) -> Exc Matrix.
Variable add_z : Matrix -> option Q -> Exc Matrix.

(** The process as the endpoints see it: the module global [session],
    [robot.config], the rest of the robot, the calls made to the durable
    configuration (oldest first) and the clock [uuid1] reads. *)
Record World : Type := mkWorld {
  session : option SessionManager;
  config : robot_config;
  hardware : Hardware;
  store : list StoreEvent;
  clock : nat
}.

Definition set_session (w : World) (s : option SessionManager) : World :=
  mkWorld s (config w) (hardware w) (store w) (clock w).

Definition set_config (w : World) (c : robot_config) : World :=
  mkWorld (session w) c (hardware w) (store w) (clock w).

Definition set_hardware (w : World) (h : Hardware) : World :=
  mkWorld (session w) (config w) h (store w) (clock w).

Definition set_store (w : World) (l : list StoreEvent) : World :=
  mkWorld (session w) (config w) (hardware w) l (clock w).

Definition set_clock (w : World) (n : nat) : World :=
  mkWorld (session w) (config w) (hardware w) (store w) n.

(** A route function: an answer or a raised exception, and the world it
    leaves. *)
Definition W (R : Type) : Type := World -> Exc R * World.

Definition ret {R : Type} (r : R) : W R := fun w => (Ok r, w).
Definition raise {R : Type} (e : PyError) : W R := fun w => (Raise e, w).
Definition bind {R R' : Type} (m : W R) (k : R -> W R') : W R' :=
  fun w => match m w with
           | (Ok r, w') => k r w'
           | (Raise e, w') => (Raise e, w')
           end.

Notation "x <- m ;; k" := (bind m (fun x => k))
  (at level 61, m at next level, right associativity).
Notation "m ;;; k" := (bind m (fun _ => k))
  (at level 61, right associativity).

(** [web.json_response({'message': m}, status=st)] *)
Definition json_response (m : Message) (st : nat) : W Response :=
  ret (mkResponse st m).

(** The global [session], read inside a route function. *)
Definition the_session : W SessionManager :=
  fun w => match session w with
           | Some s => (Ok s, w)
           | None => (Raise AttributeError, w)
           end.

Definition put_session (s : SessionManager) : W unit :=
  fun w => (Ok tt, set_session w (Some s)).

(** [session.pipettes[mount]] *)
Definition pipette_on (s : SessionManager) (m : string) : W Pipette :=
  match assoc m (pipettes s) with
  | Some p => ret p
  | None => raise KeyError
  end.

Definition hw_read {R : Type} (f : Hardware -> R) : W R :=
  fun w => (Ok (f (hardware w)), w).

Definition hw_do (f : Hardware -> Hardware) : W unit :=
  fun w => (Ok tt, set_hardware w (f (hardware w))).

Definition hw_run {R : Type} (f : Hardware -> Exc R * Hardware) : W R :=
  fun w => let '(r, h) := f (hardware w) in (r, set_hardware w h).

Definition lift_exc {R : Type} (e : Exc R) : W R := fun w => (e, w).

(** [expected_points()] *)
Definition expected_points : list (string * (Q * Q)) :=
  let '(slot_1_lower_left, slot_3_lower_right, slot_7_upper_left) := dots_set in
  [ ("1", slot_1_lower_left);
    ("2", slot_3_lower_right);
    ("3", slot_7_upper_left) ].

(** [safe_points()] *)
Definition safe_points : list (string * list Q) :=
  let '(slot_1_lower_left, slot_3_lower_right, slot_7_upper_left) := dots_set in
  let slot_1_safe_point :=
    [fst slot_1_lower_left + 5; snd slot_1_lower_left + 5; 10] in
  let slot_3_safe_point :=
    [fst slot_3_lower_right - 5; snd slot_3_lower_right + 5; 10] in
  let slot_7_safe_point :=
    [fst slot_7_upper_left + 5; snd slot_7_upper_left - 5; 10] in
  let attach_tip_point := [200; 90; 150] in
  [ ("1", slot_1_safe_point);
    ("2", slot_3_safe_point);
    ("3", slot_7_safe_point);
    ("safeZ", z_pos);
    ("attachTip", attach_tip_point) ].

(** [_get_uuid()] *)
Definition _get_uuid (w : World) : string * World :=
  (uuid1 (clock w), set_clock w (S (clock w))).

(** [SessionManager.__init__]: the new session, and [robot.config] with the
    default gantry calibration. *)
Definition SessionManager_init (w : World) : SessionManager * World :=
  let '(new_id, w1) := _get_uuid w in
  let s := mkSession new_id [] None None JNull
             (map (fun e => (fst e, None)) expected_points) None in
  let default := default_gantry_calibration in
  (s, set_config w1 (_replace (config w1) default)).

(** [instruments._create_pipette_from_config(mount=.., config=..)] *)
Definition _create_pipette_from_config (m : string) (c : PipetteConfig)
    (h : Hardware) : Pipette * Hardware :=
  (mkPipette m (cfg_channels c), add_instrument m h).

(** [model in pipette_config.configs.keys()] *)
Definition known_model (model : option string) : bool :=
  match model with
  | Some m => existsb (String.eqb m) configs
  | None => false
  end.

Definition create_if_known (m : string) (model : option string) (h : Hardware)
    : option Pipette * Hardware :=
  match model with
  | Some name =>
      if known_model model then
        let '(p, h') := _create_pipette_from_config m (load name) h in
        (Some p, h')
      else (None, h)
  | None => (None, h)
  end.

(** [set_current_mount(attached_pipettes)]: the chosen pipette and model,
    the session with [current_mount] set, the hardware with the pipettes
    created. *)
Definition set_current_mount (attached : option string * option string)
    (s : SessionManager) (h : Hardware)
    : (option Pipette * option string) * SessionManager * Hardware :=
  let '(left_model, right_model) := attached in
  let '(left_pipette, h1) := create_if_known "left" left_model h in
  let '(right_pipette, h2) := create_if_known "right" right_model h1 in
  let single (p : option Pipette) :=
    match p with
    | Some q => Nat.eqb (channels q) 1
    | None => false
    end in
  if single right_pipette then
    ((right_pipette, right_model), set_current_mount_field s (Some "A"), h2)
  else if single left_pipette then
    ((left_pipette, left_model), set_current_mount_field s (Some "Z"), h2)
  else
    match right_pipette, left_pipette with
    | Some _, _ => ((right_pipette, right_model), set_current_mount_field s (Some "A"), h2)
    | None, Some _ => ((left_pipette, left_model), set_current_mount_field s (Some "Z"), h2)
    | None, None => ((None, None), s, h2)
    end.

(** [robot.get_attached_pipettes()]: [Robot.get_attached_pipettes] on the
    robot behind the endpoints.  It raises [KeyError] for a model that
    [pipette_config.configs] does not hold. *)
Definition get_attached_pipettes (h : Hardware)
    : Robot.LookupError + (Robot.MountData * Robot.MountData) :=
  Robot.get_attached_pipettes
    (map (fun k => (k, config_tip_length k)) configs) (model_by_mount h).

(** [init_pipette()]: the mount and model chosen, if any, or the exception
    of [robot.get_attached_pipettes()].  [set_current_mount] reads the
    ['model'] of each side. *)
Definition init_pipette (s : SessionManager) (h : Hardware)
    : Exc (option (string * string)) * SessionManager * Hardware :=
  match get_attached_pipettes h with
  | inl _ => (Raise KeyError, s, h)
  | inr (left_data, right_data) =>
      let '(pipette_info, s1, h1) :=
        set_current_mount (Robot.model left_data, Robot.model right_data) s h in
      match pipette_info with
      | (Some pipette, Some model) =>
          let s2 := set_current_model s1 (Some model) in
          let s3 := set_pipettes s2 (assign (mount pipette) pipette (pipettes s2)) in
          (Ok (Some (mount pipette, model)), s3, h1)
      | _ => (Ok None, s1, h1)
      end
  end.

(** *** Route functions *)

(** [attach_tip(data)] *)
Definition attach_tip (data : Dict) : W Response :=
  s <- the_session ;;
  let tip := get data "tipLength" in
  let m := mount_name s in
  pipette <- pipette_on s m ;;
  if negb (truthy tip) then
    json_response MsgTipLengthRequired 400
  else
    attached <- hw_read (tip_attached pipette) ;;
    (if attached then
       old <- hw_read (pipette_tip_length pipette) ;;
       hw_run (_remove_tip pipette old)
     else ret tt) ;;;
    put_session (set_tip_length s tip) ;;;
    hw_run (_add_tip pipette tip) ;;;
    json_response (MsgTipLengthSet tip) 200.

(** [detach_tip(data)] *)
Definition detach_tip (data : Dict) : W Response :=
  s <- the_session ;;
  let m := mount_name s in
  pipette <- pipette_on s m ;;
  hw_run (_remove_tip pipette (tip_length s)) ;;;
  put_session (set_tip_length s JNull) ;;;
  json_response (MsgText "Tip removed") 200.

(** [axis in ('x', 'y', 'z')] *)
Definition axis_ok (axis : json) : bool :=
  is_str axis "x" || is_str axis "y" || is_str axis "z".

(** [direction in (-1, 1)] *)
Definition direction_ok (direction : json) : bool :=
  match number_of direction with
  | Some q => Qeq_bool q (-1) || Qeq_bool q 1
  | None => false
  end.

(** [run_jog(data)] *)
Definition run_jog (data : Dict) : W Response :=
  let axis := get data "axis" in
  let direction := get data "direction" in
  let step := get data "step" in
  if negb (axis_ok axis) then
    json_response MsgAxisInvalid 400
  else if negb (direction_ok direction) then
    json_response MsgDirectionInvalid 400
  else if is_none step then
    json_response MsgStepRequired 400
  else
    axis_name <-
      (if is_str axis "z" then
         s <- the_session ;;
         match current_mount s with
         | Some m => ret m
         | None => raise AttributeError
         end
       else
         match axis with
         | JStr a => ret a
         | _ => raise AttributeError
         end) ;;
    pos <- hw_run (jog (upper axis_name) direction step) ;;
    json_response (MsgJogged pos) 200.

(** [safe_points().get(point_name)] *)
Definition safe_point (point_name : json) : W (option (list Q)) :=
  match point_name with
  | JStr k => ret (assoc k safe_points)
  | JArray _ | JObject _ => raise TypeError
  | _ => ret None
  end.

(** [move(data)] *)
Definition move (data : Dict) : W Response :=
  let point_name := get data "point" in
  point <- safe_point point_name ;;
  match point with
  | Some [x; y; z] =>
      s <- the_session ;;
      let m := mount_name s in
      pipette <- pipette_on s m ;;
      let point :=
        if negb (Nat.eqb (channels pipette) 1) then
          (x, y + Y_OFFSET_MULTI * 2, z)
        else (x, y, z) in
      hw_do (pipette_move_to pipette point) ;;;
      json_response (MsgMoved point) 200
  | _ => json_response MsgPointNameInvalid 400
  end.

(** [point in valid_points] *)
Definition in_keys (point : json) (keys : list string) : bool :=
  match point with
  | JStr k => existsb (String.eqb k) keys
  | _ => false
  end.

Definition str_of (v : json) : string :=
  match v with
  | JStr k => k
  | _ => ""
  end.

(** [save_xy(data)] *)
Definition save_xy (data : Dict) : W Response :=
  s <- the_session ;;
  let valid_points := map fst (points s) in
  let point := get data "point" in
  if negb (in_keys point valid_points) then
    json_response (MsgPointInvalid valid_points) 400
  else
    match current_mount s with
    | None => json_response (MsgText "Mount must be set before calibrating") 400
    | Some cm =>
        if String.eqb cm "" then
          json_response (MsgText "Mount must be set before calibrating") 400
        else
          xyz <- hw_read (position cm) ;;
          let m := mount_name s in
          cfg <- (fun w => (Ok (config w), w)) ;;
          let xyz := if String.eqb m "left" then add xyz (mount_offset cfg) else xyz in
          pipette <- pipette_on s m ;;
          let y :=
            if negb (Nat.eqb (channels pipette) 1) then vy xyz - Y_OFFSET_MULTI
            else vy xyz in
          let s' := set_points s (assign (str_of point) (Some (vx xyz, y)) (points s)) in
          put_session s' ;;;
          json_response (MsgSavedPoint (str_of point) (vx xyz, y)) 200
    end.

(** [save_z(data)] *)
Definition save_z (data : Dict) : W Response :=
  s <- the_session ;;
  if negb (truthy (tip_length s)) then
    json_response (MsgText "Tip length must be set before calibrating") 400
  else
    match current_mount s, current_model s, number_of (tip_length s) with
    | Some cm, Some model, Some tip =>
        xyz <- hw_read (position cm) ;;
        let actual_z := vz xyz in
        let length_offset := vz (model_offset (load model)) in
        let z := actual_z - tip + length_offset in
        put_session (set_z_value s (Some z)) ;;;
        json_response (MsgSavedZ z) 200
    | _, _, _ => raise TypeError
    end.

(** [any([v is None for v in session.points.values()])] *)
Definition any_point_missing (s : SessionManager) : bool :=
  existsb (fun e => match snd e with None => true | Some _ => false end) (points s).

(** [[session.points[p] for p in sorted(session.points.keys())]], once no
    value is [None]. *)
Definition actual_points (s : SessionManager) : list (Q * Q) :=
  flat_map (fun p => match assoc p (points s) with
                     | Some (Some xy) => [xy]
                     | _ => []
                     end)
           (sorted (map fst (points s))).

(** [save_transform(data)] *)
Definition save_transform (data : Dict) : W Response :=
  s <- the_session ;;
  if any_point_missing s then
    json_response (MsgText "Not all points have been saved") 400
  else
    let expected := map snd expected_points in
    let actual := actual_points s in
    flat_matrix <- lift_exc (solve expected actual) ;;
    calibration_matrix <- lift_exc (add_z flat_matrix (z_value s)) ;;
    (fun w => (Ok tt, set_config w (_replace (config w) calibration_matrix))) ;;;
    (fun w => (Ok tt, set_store w (store w ++ [SaveDeckCalibration (config w)])%list)) ;;;
    (fun w => (Ok tt, set_store w (store w ++ [BackupConfiguration (config w)])%list)) ;;;
    json_response (MsgText "Config file saved and backed up") 200.

(** [release(data)] *)
Definition release (data : Dict) : W Response :=
  (fun w => (Ok tt, set_session w None)) ;;;
  hw_do (remove_instrument "left") ;;;
  hw_do (remove_instrument "right") ;;;
  json_response (MsgText "calibration session released") 200.

(** [router] *)
Definition router : list (string * (Dict -> W Response)) :=
  [ ("jog", run_jog);
    ("move", move);
    ("save xy", save_xy);
    ("attach tip", attach_tip);
    ("detach tip", detach_tip);
    ("save z", save_z);
    ("save transform", save_transform);
    ("release", release) ].

(** [await router[command](data)] *)
Definition route (command : json) (data : Dict) : W Response :=
  match command with
  | JStr c =>
      match assoc c router with
      | Some handler => handler data
      | None => raise KeyError
      end
  | JArray _ | JObject _ => raise TypeError
  | _ => raise KeyError
  end.

(** [start(request)]; [body] is [None] when the request carries no JSON.
    An exception of [init_pipette] is not caught: it leaves the session
    [SessionManager()] has just built in place. *)
Definition start (body : option Dict) (w : World) : Exc Response * World :=
  let body := match body with Some b => b | None => [] end in
  let force := truthy (get body "force") in
  match session w, force with
  | Some _, false => (Ok (mkResponse 409 MsgSessionInProgress), w)
  | _, _ =>
      let w1 :=
        if force then
          set_hardware w (remove_instrument "right"
                            (remove_instrument "left" (hardware w)))
        else w in
      let '(s, w2) := SessionManager_init w1 in
      let w3 := set_session w2 (Some s) in
      let '(res, s', h) := init_pipette s (hardware w3) in
      let w4 := set_hardware (set_session w3 (Some s')) h in
      match res with
      | Raise e => (Raise e, w4)
      | Ok (Some (pipette_mount, model)) =>
          (Ok (mkResponse 201 (MsgStarted (id s') pipette_mount model)), w4)
      | Ok None =>
          (Ok (mkResponse 403 MsgPipetteNotRecognized), set_session w4 None)
      end
  end.

(** [dispatch(request)], on the parsed body of the request. *)
Definition dispatch (data : Dict) (w : World) : Response * World :=
  match session w with
  | Some s =>
      let message := MsgText "" in
      let _id := get data "token" in
      let '(message, outcome, w') :=
        if negb (truthy _id) then
          (MsgTokenRequired, Raise AssertionError, w)
        else
          let command := get data "command" in
          if negb (truthy command) then
            (MsgCommandRequired, Raise AssertionError, w)
          else if is_str _id (id s) then
            let '(res, w1) := route command data w in
            (message, res, w1)
          else
            (message, Ok (mkResponse 403 (MsgInvalidToken _id)), w) in
      match outcome with
      | Ok res => (res, w')
      | Raise AssertionError => (mkResponse 400 message, w')
      | Raise e => (mkResponse 500 (MsgException e data), w')
      end
  | None =>
      (mkResponse 418
         (MsgText "Session must be started before issuing commands"), w)
  end.

(** [dispatch(request)] on the request as it arrives.  [request] is
    [None] when the body is not JSON: with a session live,
    [await request.json()] then raises, outside the [try].  A JSON value
    that is not an object has no [get]: the [AttributeError] is raised
    inside the [try] and answered 500. *)
Definition dispatch_request (request : option json) (w : World)
    : Exc Response * World :=
  match session w with
  | Some _ =>
      match request with
      | None => (Raise (OtherError "JSONDecodeError"), w)
      | Some (JObject data) =>
          let '(res, w') := dispatch data w in (Ok res, w')
      | Some data =>
          (Ok (mkResponse 500 (MsgExceptionBody AttributeError data)), w)
      end
  | None =>
      (Ok (mkResponse 418
             (MsgText "Session must be started before issuing commands")), w)
  end.

(** *** Facts about the endpoints *)

(** A computation that leaves [robot.config] as it found it. *)
Definition keeps_config {R : Type} (m : W R) : Prop :=
  forall w, config (snd (m w)) = config w.

Lemma keeps_config_ret {R : Type} (r : R) : keeps_config (ret r).
Proof. intro w. reflexivity. Qed.

Lemma keeps_config_raise {R : Type} (e : PyError) : keeps_config (@raise R e).
Proof. intro w. reflexivity. Qed.

Lemma keeps_config_bind {R R' : Type} (m : W R) (k : R -> W R') :
  keeps_config m -> (forall r, keeps_config (k r)) -> keeps_config (bind m k).
Proof.
  intros Hm Hk w. unfold bind. specialize (Hm w).
  destruct (m w) as [[r|e] w']; simpl in *.
  - rewrite Hk. exact Hm.
  - exact Hm.
Qed.

Lemma keeps_config_json_response (m : Message) (st : nat) :
  keeps_config (json_response m st).
Proof. intro w. reflexivity. Qed.

Lemma keeps_config_the_session : keeps_config the_session.
Proof. intro w. unfold the_session. destruct (session w); reflexivity. Qed.

Lemma keeps_config_put_session (s : SessionManager) : keeps_config (put_session s).
Proof. intro w. reflexivity. Qed.

Lemma keeps_config_pipette_on (s : SessionManager) (m : string) :
  keeps_config (pipette_on s m).
Proof. intro w. unfold pipette_on. destruct (assoc m (pipettes s)); reflexivity. Qed.

Lemma keeps_config_hw_read {R : Type} (f : Hardware -> R) : keeps_config (hw_read f).
Proof. intro w. reflexivity. Qed.

Lemma keeps_config_hw_do (f : Hardware -> Hardware) : keeps_config (hw_do f).
Proof. intro w. reflexivity. Qed.

Lemma keeps_config_hw_run {R : Type} (f : Hardware -> Exc R * Hardware) :
  keeps_config (hw_run f).
Proof. intro w. unfold hw_run. destruct (f (hardware w)). reflexivity. Qed.

Create HintDb keeps discriminated.
#[local] Hint Resolve keeps_config_ret keeps_config_raise keeps_config_json_response
  keeps_config_the_session keeps_config_put_session keeps_config_pipette_on
  keeps_config_hw_read keeps_config_hw_do keeps_config_hw_run : keeps.

Ltac keeps_step :=
  match goal with
  | |- keeps_config (bind _ _) => apply keeps_config_bind; [|intro]
  | |- keeps_config (if ?b then _ else _) => destruct b
  | |- keeps_config (match ?x with _ => _ end) => destruct x
  | |- keeps_config (fun w => (Ok _, set_session w _)) => intro; reflexivity
  | |- keeps_config (fun w => (Ok (config w), w)) => intro; reflexivity
  | |- keeps_config _ => solve [auto with keeps]
  end.

Lemma keeps_config_attach_tip (data : Dict) : keeps_config (attach_tip data).
Proof. unfold attach_tip. repeat keeps_step. Qed.

Lemma keeps_config_detach_tip (data : Dict) : keeps_config (detach_tip data).
Proof. unfold detach_tip. repeat keeps_step. Qed.

Lemma keeps_config_run_jog (data : Dict) : keeps_config (run_jog data).
Proof. unfold run_jog. repeat keeps_step. Qed.

Lemma keeps_config_move (data : Dict) : keeps_config (move data).
Proof. unfold move, safe_point. repeat keeps_step. Qed.

Lemma keeps_config_save_xy (data : Dict) : keeps_config (save_xy data).
Proof. unfold save_xy. repeat keeps_step. Qed.

Lemma keeps_config_save_z (data : Dict) : keeps_config (save_z data).
Proof. unfold save_z. repeat keeps_step. Qed.

Lemma keeps_config_release (data : Dict) : keeps_config (release data).
Proof. unfold release. repeat keeps_step. Qed.

Lemma keeps_config_route (command : json) (data : Dict) :
  is_str command "save transform" = false ->
  keeps_config (route command data).
Proof.
  intro Hcmd. unfold route.
  destruct command as [| b | q | c | items | fields ];
    try (apply keeps_config_raise).
  simpl in Hcmd. unfold router, assoc. cbn [find fst snd].
  destruct (String.eqb "jog" c); [apply keeps_config_run_jog|].
  destruct (String.eqb "move" c); [apply keeps_config_move|].
  destruct (String.eqb "save xy" c); [apply keeps_config_save_xy|].
  destruct (String.eqb "attach tip" c); [apply keeps_config_attach_tip|].
  destruct (String.eqb "detach tip" c); [apply keeps_config_detach_tip|].
  destruct (String.eqb "save z" c); [apply keeps_config_save_z|].
  destruct (String.eqb "save transform" c) eqn:E.
  - rewrite String.eqb_sym in E. congruence.
  - destruct (String.eqb "release" c);
      [apply keeps_config_release | apply keeps_config_raise].
Qed.

Lemma dispatch_keeps_config (data : Dict) (w : World) :
  is_str (get data "command") "save transform" = false ->
  config (snd (dispatch data w)) = config w.
Proof.
  intro Hcmd. unfold dispatch.
  destruct (session w) as [s|]; [|reflexivity].
  destruct (truthy (get data "token")); [|reflexivity]. cbn [negb].
  destruct (truthy (get data "command")); [|reflexivity]. cbn [negb].
  destruct (is_str (get data "token") (id s)); [|reflexivity].
  pose proof (keeps_config_route (get data "command") data Hcmd w) as H.
  destruct (route (get data "command") data w) as [[r|e] w1]; simpl in H.
  - exact H.
  - destruct e; exact H.
Qed.

(** [start] builds a session exactly when none is live or the body forces
    it. *)
Definition start_builds (body : option Dict) (w : World) : Prop :=
  session w = None
  \/ truthy (get (match body with Some b => b | None => [] end) "force") = true.

Lemma start_config (body : option Dict) (w : World) :
  start_builds body w ->
  config (snd (start body w)) = _replace (config w) default_gantry_calibration.
Proof.
  intro Hb. unfold start.
  set (force := truthy (get match body with Some b => b | None => [] end "force")) in *.
  assert (Hgo : forall (T : Type) (a b : T),
             match session w, force with
             | Some _, false => a
             | _, _ => b
             end = b).
  { intros T a b. destruct Hb as [Hn|Hf].
    - rewrite Hn. reflexivity.
    - unfold start_builds in Hf. fold force in Hf. rewrite Hf.
      destruct (session w); reflexivity. }
  rewrite Hgo.
  unfold SessionManager_init, _get_uuid. cbn [fst snd].
  match goal with
  | |- context [init_pipette ?s ?h] => destruct (init_pipette s h) as [[res s'] h']
  end.
  destruct res as [[[pm model]|]|e]; destruct force; reflexivity.
Qed.

(** C9.  Whenever [start] builds a session (none is live, or the body
    forces it), [robot.config] afterwards carries the built-in default
    gantry calibration in place of the one loaded before, its other fields
    untouched; and every command dispatched afterwards, [save transform]
    apart, leaves [robot.config] as it is, so the calibration loaded before
    the session never comes back while the session lasts. *)
Theorem session_start_resets_gantry_calibration :
  (forall (body : option Dict) (w : World),
     start_builds body w ->
     gantry_calibration (config (snd (start body w))) = default_gantry_calibration
     /\ mount_offset (config (snd (start body w))) = mount_offset (config w))
  /\ (forall (data : Dict) (w : World),
        is_str (get data "command") "save transform" = false ->
        config (snd (dispatch data w)) = config w).
Proof.
  split.
  - intros body w Hb. rewrite (start_config body w Hb). split; reflexivity.
  - exact dispatch_keeps_config.
Qed.




(** A mount reports a model, not the empty one, that
    [pipette_config.configs] does not hold. *)
Definition unknown_model (model : option string) : bool :=
  match model with
  | Some name => negb (String.eqb name "") && negb (known_model model)
  | None => false
  end.



(** Whom [set_current_mount] chooses, and that it registers nothing. *)
Lemma set_current_mount_cases (attached : option string * option string)
    (s : SessionManager) (h : Hardware) :
  let out := set_current_mount attached s h in
  let info := fst (fst out) in
  let s' := snd (fst out) in
  (fst info = None <->
   known_model (fst attached) = false /\ known_model (snd attached) = false)
  /\ (forall p, fst info = Some p ->
        (mount p = "right" /\ current_mount s' = Some "A"
         /\ snd info = snd attached /\ known_model (snd attached) = true)
        \/ (mount p = "left" /\ current_mount s' = Some "Z"
            /\ snd info = fst attached /\ known_model (fst attached) = true))
  /\ pipettes s' = pipettes s.
Proof.
  destruct attached as [l r].
  unfold set_current_mount, create_if_known, _create_pipette_from_config,
    known_model.
  destruct l as [lm|], r as [rm|]; cbn [fst snd];
    repeat match goal with
           | |- context [existsb ?f configs] =>
               destruct (existsb f configs) eqn:?; cbn
           end;
    repeat match goal with
           | |- context [Nat.eqb ?n 1] => destruct (Nat.eqb n 1) eqn:?; cbn
           end;
    repeat split; intros;
    repeat match goal with
           | H : _ /\ _ |- _ => destruct H
           | H : Some _ = Some _ |- _ => injection H as H; subst
           end;
    try discriminate; try congruence;
    try (left; repeat split; reflexivity);
    try (right; repeat split; reflexivity).
Qed.




(** The half of C1 the code keeps: with a point missing, [save transform]
    answers 400 and changes nothing. *)
Lemma save_transform_missing_point (data : Dict) (w : World) (s : SessionManager) :
  session w = Some s ->
  any_point_missing s = true ->
  save_transform data w
  = (Ok (mkResponse 400 (MsgText "Not all points have been saved")), w).
Proof.
  intros Hs Hm. unfold save_transform, bind, the_session.
  rewrite Hs, Hm. reflexivity.
Qed.

(** With the three points recorded, what [save transform] does. *)
Lemma save_transform_run (data : Dict) (w : World) (s : SessionManager) :
  session w = Some s ->
  any_point_missing s = false ->
  save_transform data w
  = match solve (map snd expected_points) (actual_points s) with
    | Raise e => (Raise e, w)
    | Ok flat_matrix =>
        match add_z flat_matrix (z_value s) with
        | Raise e => (Raise e, w)
        | Ok m =>
            let c := _replace (config w) m in
            (Ok (mkResponse 200 (MsgText "Config file saved and backed up")),
             set_store (set_config w c)
               ((store w ++ [SaveDeckCalibration c]) ++ [BackupConfiguration c])%list)
        end
    end.
Proof.
  intros Hs Hm. unfold save_transform, bind, the_session, lift_exc.
  rewrite Hs, Hm.
  destruct (solve (map snd expected_points) (actual_points s)) as [flat|e];
    [|reflexivity].
  destruct (add_z flat (z_value s)) as [m|e]; reflexivity.
Qed.

(** C1, the behaviour at the failing input.  With the three points
    recorded and no Z value, [save transform] raises no validation error:
    it hands [None] to [add_z] and, unless [solve] or [add_z] raises,
    replaces the gantry calibration, saves it, backs it up and answers
    200. *)
Theorem save_transform_without_z (data : Dict) (w : World) (s : SessionManager) :
  session w = Some s ->
  any_point_missing s = false ->
  z_value s = None ->
  save_transform data w
  = match solve (map snd expected_points) (actual_points s) with
    | Raise e => (Raise e, w)
    | Ok flat_matrix =>
        match add_z flat_matrix None with
        | Raise e => (Raise e, w)
        | Ok m =>
            let c := _replace (config w) m in
            (Ok (mkResponse 200 (MsgText "Config file saved and backed up")),
             set_store (set_config w c)
               ((store w ++ [SaveDeckCalibration c]) ++ [BackupConfiguration c])%list)
        end
    end.
Proof.
  intros Hs Hm Hz. rewrite (save_transform_run data w s Hs Hm), Hz. reflexivity.
Qed.

(** A consequence of the order C6 states: a token that is present but is
    not the session's id is answered with the token error, whatever else
    the body lacks. *)
Definition token_checked_before_fields (data : Dict) (w : World) : Prop :=
  forall s, session w = Some s ->
    truthy (get data "token") = true ->
    is_str (get data "token") (id s) = false ->
    fst (dispatch data w) = mkResponse 403 (MsgInvalidToken (get data "token")).

(** C6 (amended).  [dispatch] checks, in this order: that a session is
    live (418), that the body has a token (400), that it has a command
    (400), that the token is the session's id (403), that the command is a
    known one (500); then the route function runs its own checks in the
    order it writes them, for [jog]: the axis name, the direction, the
    presence of the step (400 each).  The first check that fails gives the
    answer, and the world is left as it was. *)
Theorem dispatch_validation_order (data : Dict) (w : World) :
  (session w = None ->
   dispatch data w
   = (mkResponse 418 (MsgText "Session must be started before issuing commands"), w))
  /\ (forall s, session w = Some s ->
      (truthy (get data "token") = false ->
       dispatch data w = (mkResponse 400 MsgTokenRequired, w))
      /\ (truthy (get data "token") = true ->
          truthy (get data "command") = false ->
          dispatch data w = (mkResponse 400 MsgCommandRequired, w))
      /\ (truthy (get data "token") = true ->
          truthy (get data "command") = true ->
          is_str (get data "token") (id s) = false ->
          dispatch data w
          = (mkResponse 403 (MsgInvalidToken (get data "token")), w))
      /\ (truthy (get data "token") = true ->
          truthy (get data "command") = true ->
          is_str (get data "token") (id s) = true ->
          (forall c, get data "command" = JStr c -> assoc c router = None ->
             dispatch data w = (mkResponse 500 (MsgException KeyError data), w))
          /\ (get data "command" = JStr "jog" ->
              (axis_ok (get data "axis") = false ->
               dispatch data w = (mkResponse 400 MsgAxisInvalid, w))
              /\ (axis_ok (get data "axis") = true ->
                  direction_ok (get data "direction") = false ->
                  dispatch data w = (mkResponse 400 MsgDirectionInvalid, w))
              /\ (axis_ok (get data "axis") = true ->
                  direction_ok (get data "direction") = true ->
                  is_none (get data "step") = true ->
                  dispatch data w = (mkResponse 400 MsgStepRequired, w))))).
Proof.
  split.
  - intro Hs. unfold dispatch. rewrite Hs. reflexivity.
  - intros s Hs. unfold dispatch. rewrite Hs.
    split; [intros Ht; rewrite Ht; reflexivity|].
    split; [intros Ht Hc; rewrite Ht, Hc; reflexivity|].
    split; [intros Ht Hc Hi; rewrite Ht, Hc, Hi; reflexivity|].
    intros Ht Hc Hi. rewrite Ht, Hc, Hi. cbn [negb].
    split.
    + intros c Ec Hr. rewrite Ec. unfold route. rewrite Hr. reflexivity.
    + intros Ec. rewrite Ec. unfold route, router, assoc. cbn [find fst snd String.eqb Ascii.eqb Bool.eqb].
      unfold run_jog.
      split; [intros Ha; rewrite Ha; reflexivity|].
      split; [intros Ha Hd; rewrite Ha, Hd; reflexivity|].
      intros Ha Hd Hn. rewrite Ha, Hd, Hn. reflexivity.
Qed.

Lemma assoc_assign {V : Type} (k : string) (v : V) (d : list (string * V)) :
  assoc k (assign k v d) = Some v.
Proof.
  unfold assoc. induction d as [|[k' v'] rest IH]; cbn.
  - rewrite String.eqb_refl. reflexivity.
  - destruct (String.eqb k' k) eqn:E; cbn.
    + rewrite String.eqb_refl. reflexivity.
    + rewrite E. exact IH.
Qed.

(** *** Further facts about the endpoints *)



Lemma init_pipette_registers (s : SessionManager) (h : Hardware) :
  pipettes s = [] ->
  forall pm model s' h',
    init_pipette s h = (Ok (Some (pm, model)), s', h') ->
    exists p, assoc (mount_name s') (pipettes s') = Some p
              /\ mount p = pm /\ mount_name s' = pm
              /\ current_model s' = Some model.
Proof.
  intros Hempty pm model s' h' E. unfold init_pipette in E.
  destruct (get_attached_pipettes h) as [e|[l r]]; [discriminate E|].
  pose proof (set_current_mount_cases (Robot.model l, Robot.model r) s h) as Hc.
  cbv zeta in Hc. destruct Hc as [_ [Hmount Hp]].
  destruct (set_current_mount (Robot.model l, Robot.model r) s h) as [[info s1] h1].
  cbn [fst snd] in *.
  destruct info as [[p|] [m|]]; try discriminate.
  injection E as E1 E2 E3 E4. subst pm model s' h'.
  exists p. specialize (Hmount p eq_refl).
  unfold mount_name. cbn [pipettes set_pipettes current_mount set_current_model
                          current_model].
  rewrite Hp, Hempty.
  destruct Hmount as [[Hm [Hcm _]]|[Hm [Hcm _]]]; rewrite Hcm, Hm; cbn;
    repeat split; reflexivity.
Qed.

(** X2.  A [start] answered 201 leaves a session that holds its pipette
    under the mount its commands look it up on, knows its model, and
    reports its own id as the token. *)
Theorem started_session_has_its_pipette (body : option Dict) (w : World)
    (r : Response) :
  fst (start body w) = Ok r ->
  status r = 201%nat ->
  exists s' p model,
    session (snd (start body w)) = Some s'
    /\ assoc (mount_name s') (pipettes s') = Some p
    /\ mount p = mount_name s'
    /\ current_model s' = Some model
    /\ r = mkResponse 201 (MsgStarted (id s') (mount p) model).
Proof.
  unfold start.
  set (force := truthy (get match body with Some b => b | None => [] end "force")).
  assert (Hcase : (exists s0, session w = Some s0 /\ force = false)
                  \/ (session w = None \/ force = true)).
  { destruct (session w) as [s0|]; [|right; left; reflexivity].
    destruct force; [right; right; reflexivity | left; eauto]. }
  destruct Hcase as [[s0 [Hs Hf]]|Hgo].
  - rewrite Hs, Hf. cbn. intros E H. injection E as <-. discriminate H.
  - assert (Hsel : forall (T : Type) (a b : T),
               match session w, force with
               | Some _, false => a
               | _, _ => b
               end = b).
    { intros T a b. destruct Hgo as [Hn|Hf]; [rewrite Hn; reflexivity|].
      rewrite Hf. destruct (session w); reflexivity. }
    rewrite !Hsel.
    unfold SessionManager_init, _get_uuid. cbn [fst snd].
    match goal with
    | |- context [init_pipette ?s ?h] =>
        pose proof (init_pipette_registers s h eq_refl) as Hreg;
        destruct (init_pipette s h) as [[res s'] h']
    end.
    destruct res as [[[pm model]|]|e]; cbn; intros E H;
      [|injection E as <-; discriminate H | discriminate E].
    injection E as <-.
    destruct (Hreg pm model s' h' eq_refl) as [p [Ha [Hm [Hn Hmodel]]]].
    exists s', p, model.
    split; [reflexivity|]. split; [exact Ha|].
    split; [congruence|]. split; [exact Hmodel|].
    rewrite Hm. reflexivity.
Qed.

(** A route function that, when it answers, answers 200 or 400. *)
Definition answers_200_or_400 (m : W Response) : Prop :=
  forall w r w', m w = (Ok r, w') -> status r = 200%nat \/ status r = 400%nat.

Lemma answers_bind {R : Type} (m : W R) (k : R -> W Response) :
  (forall r, answers_200_or_400 (k r)) -> answers_200_or_400 (bind m k).
Proof.
  intros Hk w r w' E. unfold bind in E.
  destruct (m w) as [[a|e] w1]; [|discriminate].
  exact (Hk a w1 r w' E).
Qed.

Lemma answers_raise (e : PyError) : answers_200_or_400 (raise e).
Proof. intros w r w' E. discriminate. Qed.

Lemma answers_json_200 (m : Message) : answers_200_or_400 (json_response m 200).
Proof. intros w r w' E. injection E as E _. subst r. left. reflexivity. Qed.

Lemma answers_json_400 (m : Message) : answers_200_or_400 (json_response m 400).
Proof. intros w r w' E. injection E as E _. subst r. right. reflexivity. Qed.

Ltac answers_step :=
  match goal with
  | |- answers_200_or_400 (bind _ _) => apply answers_bind; intro
  | |- answers_200_or_400 (raise _) => apply answers_raise
  | |- answers_200_or_400 (json_response _ 200) => apply answers_json_200
  | |- answers_200_or_400 (json_response _ 400) => apply answers_json_400
  | |- answers_200_or_400 (if ?b then _ else _) => destruct b
  | |- answers_200_or_400 (match ?x with _ => _ end) => destruct x
  end.

Lemma answers_route (command : json) (data : Dict) :
  answers_200_or_400 (route command data).
Proof.
  unfold route.
  destruct command as [| b | q | c | items | fields ]; try apply answers_raise.
  unfold router, assoc. cbn [find fst snd].
  destruct (String.eqb "jog" c);
    [change (answers_200_or_400 (run_jog data));
     unfold run_jog; repeat answers_step|].
  destruct (String.eqb "move" c);
    [change (answers_200_or_400 (move data));
     unfold move, safe_point; repeat answers_step|].
  destruct (String.eqb "save xy" c);
    [change (answers_200_or_400 (save_xy data));
     unfold save_xy; repeat answers_step|].
  destruct (String.eqb "attach tip" c);
    [change (answers_200_or_400 (attach_tip data));
     unfold attach_tip; repeat answers_step|].
  destruct (String.eqb "detach tip" c);
    [change (answers_200_or_400 (detach_tip data));
     unfold detach_tip; repeat answers_step|].
  destruct (String.eqb "save z" c);
    [change (answers_200_or_400 (save_z data));
     unfold save_z; repeat answers_step|].
  destruct (String.eqb "save transform" c);
    [change (answers_200_or_400 (save_transform data));
     unfold save_transform; repeat answers_step|].
  destruct (String.eqb "release" c);
    [change (answers_200_or_400 (release data));
     unfold release; repeat answers_step|].
  apply answers_raise.
Qed.

Lemma dispatch_answers_five (data : Dict) (w : World) :
  In (status (fst (dispatch data w))) [200; 400; 403; 418; 500]%nat.
Proof.
  unfold dispatch.
  destruct (session w) as [s|]; [|cbn; auto 10].
  destruct (truthy (get data "token")); [|cbn; auto 10]. cbn [negb].
  destruct (truthy (get data "command")); [|cbn; auto 10]. cbn [negb].
  destruct (is_str (get data "token") (id s)); [|cbn; auto 10].
  pose proof (answers_route (get data "command") data w) as H.
  destruct (route (get data "command") data w) as [[r|e] w1].
  - destruct (H r w1 eq_refl) as [E|E]; cbn [fst]; rewrite E; cbn; auto 10.
  - destruct e; cbn; auto 10.
Qed.

(** X3.  With a session live, a request whose body is not JSON makes
    [dispatch] raise before it answers, with nothing changed.  Every other
    request is answered, with one of five statuses: 200, 400, 403, 418 or
    500; a JSON body that is not an object is answered 500 with nothing
    changed, and a JSON object is answered as [dispatch] answers its
    fields. *)
Theorem dispatch_status_codes (request : option json) (w : World) :
  (session w <> None -> request = None ->
   dispatch_request request w = (Raise (OtherError "JSONDecodeError"), w))
  /\ (session w = None \/ request <> None ->
      exists r, fst (dispatch_request request w) = Ok r
                /\ In (status r) [200; 400; 403; 418; 500]%nat)
  /\ (forall v, session w <> None -> request = Some v ->
      (forall data, v <> JObject data) ->
      exists m, dispatch_request request w = (Ok (mkResponse 500 m), w))
  /\ (forall data, session w <> None -> request = Some (JObject data) ->
      dispatch_request request w = (Ok (fst (dispatch data w)), snd (dispatch data w))).
Proof.
  unfold dispatch_request.
  split; [|split; [|split]].
  - intros Hs Hr. subst request. destruct (session w); [reflexivity | contradiction].
  - intros H. destruct (session w) as [s|] eqn:Es.
    + destruct request as [v|].
      * destruct v as [| b | q | t | items | data];
          try (eexists; split; [reflexivity | cbn; auto 10]).
        pose proof (dispatch_answers_five data w) as H5.
        destruct (dispatch data w) as [res w']. eexists. split; [reflexivity|].
        exact H5.
      * destruct H as [H|H]; [discriminate H | contradiction].
    + eexists. split; [reflexivity | cbn; auto 10].
  - intros v Hs Hr Hv. subst request.
    destruct (session w); [|contradiction].
    destruct v; try (eexists; reflexivity).
    exfalso. exact (Hv _ eq_refl).
  - intros data Hs Hr. subst request.
    destruct (session w); [|contradiction].
    destruct (dispatch data w). reflexivity.
Qed.

(** What a session keeps for life: its token, its pipettes, its mount and
    model, and the names of its points. *)
Definition identity (s : SessionManager)
    : string * list (string * Pipette) * option string * option string * list string :=
  (id s, pipettes s, current_mount s, current_model s, map fst (points s)).

(** The live session, if any, has the identity [i]. *)
Definition same_or_gone
    (i : string * list (string * Pipette) * option string * option string * list string)
    (w : World) : Prop :=
  match session w with
  | Some s => identity s = i
  | None => True
  end.

Definition keeps_identity {R : Type}
    (i : string * list (string * Pipette) * option string * option string * list string)
    (m : W R) : Prop :=
  forall w, same_or_gone i w -> same_or_gone i (snd (m w)).

Section Identity.

Variable i : string * list (string * Pipette) * option string * option string * list string.

Lemma keeps_identity_bind {R R' : Type} (m : W R) (k : R -> W R') :
  keeps_identity i m -> (forall r, keeps_identity i (k r)) ->
  keeps_identity i (bind m k).
Proof.
  intros Hm Hk w Hw. unfold bind. specialize (Hm w Hw).
  destruct (m w) as [[r|e] w']; simpl in *.
  - apply Hk. exact Hm.
  - exact Hm.
Qed.

Lemma keeps_identity_with_session {R : Type} (k : SessionManager -> W R) :
  (forall s, identity s = i -> keeps_identity i (k s)) ->
  keeps_identity i (bind the_session k).
Proof.
  intros Hk w Hw. unfold bind, the_session.
  destruct (session w) as [s|] eqn:E.
  - apply Hk; [|exact Hw]. unfold same_or_gone in Hw. rewrite E in Hw. exact Hw.
  - simpl. exact Hw.
Qed.

Lemma keeps_identity_put (s : SessionManager) :
  identity s = i -> keeps_identity i (put_session s).
Proof. intros Hs w _. exact Hs. Qed.

Lemma keeps_identity_still {R : Type} (m : W R) :
  (forall w, session (snd (m w)) = session w) -> keeps_identity i m.
Proof. intros H w Hw. unfold same_or_gone. rewrite H. exact Hw. Qed.

Lemma keeps_identity_hw_run {R : Type} (f : Hardware -> Exc R * Hardware) :
  keeps_identity i (hw_run f).
Proof.
  apply keeps_identity_still. intro w. unfold hw_run.
  destruct (f (hardware w)). reflexivity.
Qed.

Lemma keeps_identity_pipette_on (s : SessionManager) (m : string) :
  keeps_identity i (pipette_on s m).
Proof.
  apply keeps_identity_still. intro w. unfold pipette_on.
  destruct (assoc m (pipettes s)); reflexivity.
Qed.

Lemma keeps_identity_lift_exc {R : Type} (e : Exc R) :
  keeps_identity i (lift_exc e).
Proof. apply keeps_identity_still. intro w. reflexivity. Qed.

Lemma map_fst_assign {V : Type} (k : string) (v : V) (d : list (string * V)) :
  existsb (String.eqb k) (map fst d) = true ->
  map fst (assign k v d) = map fst d.
Proof.
  induction d as [|[k' v'] rest IH]; cbn; [discriminate|].
  intro H. destruct (String.eqb k' k) eqn:E; cbn.
  - apply String.eqb_eq in E. subst. reflexivity.
  - rewrite String.eqb_sym, E in H. cbn in H. rewrite (IH H). reflexivity.
Qed.

Ltac identity_step :=
  match goal with
  | |- keeps_identity _ (bind the_session _) =>
      apply keeps_identity_with_session; intros ? ?
  | |- keeps_identity _ (bind _ _) => apply keeps_identity_bind; [|intro]
  | |- keeps_identity _ (put_session _) => apply keeps_identity_put; assumption
  | |- keeps_identity _ (hw_run _) => apply keeps_identity_hw_run
  | |- keeps_identity _ (pipette_on _ _) => apply keeps_identity_pipette_on
  | |- keeps_identity _ (lift_exc _) => apply keeps_identity_lift_exc
  | |- keeps_identity _ (if ?b then _ else _) => destruct b eqn:?
  | |- keeps_identity _ (match ?x with _ => _ end) => destruct x eqn:?
  | |- keeps_identity _ _ =>
      solve [apply keeps_identity_still; intro; reflexivity]
  | |- keeps_identity _ _ => solve [intros ? ?; exact I]
  end.

Lemma keeps_identity_route (command : json) (data : Dict) :
  keeps_identity i (route command data).
Proof.
  unfold route.
  destruct command as [| b | q | c | items | fields ];
    try (apply keeps_identity_still; intro; reflexivity).
  unfold router, assoc. cbn [find fst snd].
  destruct (String.eqb "jog" c);
    [change (keeps_identity i (run_jog data));
     unfold run_jog; repeat identity_step|].
  destruct (String.eqb "move" c);
    [change (keeps_identity i (move data));
     unfold move, safe_point; repeat identity_step|].
  destruct (String.eqb "save xy" c).
  { change (keeps_identity i (save_xy data)).
    unfold save_xy. repeat identity_step.
    apply keeps_identity_put.
    match goal with
    | H : identity ?s = i |- _ => rewrite <- H
    end.
    unfold identity. cbn [id pipettes current_mount current_model points set_points].
    rewrite map_fst_assign; [reflexivity|].
    match goal with
    | H : negb (in_keys ?p _) = false |- _ =>
        apply negb_false_iff in H; unfold in_keys in H;
        destruct p; try discriminate; exact H
    end. }
  destruct (String.eqb "attach tip" c);
    [change (keeps_identity i (attach_tip data));
     unfold attach_tip; repeat identity_step|].
  destruct (String.eqb "detach tip" c);
    [change (keeps_identity i (detach_tip data));
     unfold detach_tip; repeat identity_step|].
  destruct (String.eqb "save z" c);
    [change (keeps_identity i (save_z data));
     unfold save_z; repeat identity_step|].
  destruct (String.eqb "save transform" c);
    [change (keeps_identity i (save_transform data));
     unfold save_transform; repeat identity_step|].
  destruct (String.eqb "release" c);
    [change (keeps_identity i (release data));
     unfold release; repeat identity_step|].
  apply keeps_identity_still; intro; reflexivity.
Qed.

End Identity.

(** X4.  No dispatched command changes the token, the pipettes, the mount,
    the model or the point names of the live session: after [dispatch] the
    session is either gone (released) or has them as before. *)
Theorem dispatch_keeps_session_identity (data : Dict) (w : World)
    (s : SessionManager) :
  session w = Some s ->
  match session (snd (dispatch data w)) with
  | Some s' =>
      id s' = id s /\ pipettes s' = pipettes s
      /\ current_mount s' = current_mount s
      /\ current_model s' = current_model s
      /\ map fst (points s') = map fst (points s)
  | None => True
  end.
Proof.
  intro Hs.
  assert (H : same_or_gone (identity s) (snd (dispatch data w))).
  { unfold dispatch. rewrite Hs.
    assert (Hw : same_or_gone (identity s) w)
      by (unfold same_or_gone; rewrite Hs; reflexivity).
    destruct (truthy (get data "token")); [|exact Hw]. cbn [negb].
    destruct (truthy (get data "command")); [|exact Hw]. cbn [negb].
    destruct (is_str (get data "token") (id s)); [|exact Hw].
    pose proof (keeps_identity_route (identity s) (get data "command") data w Hw) as H.
    destruct (route (get data "command") data w) as [[r|e] w1]; [exact H|].
    destruct e; exact H. }
  unfold same_or_gone in H.
  destruct (session (snd (dispatch data w))) as [s'|]; [|exact I].
  unfold identity in H. injection H as H1 H2 H3 H4 H5. repeat split; assumption.
Qed.

(** The status a route function answered with, if it answered. *)
Definition status_of (out : Exc Response * World) : option nat :=
  match fst out with
  | Ok r => Some (status r)
  | Raise _ => None
  end.

(** X5.  A [release] dispatched with the session's token answers 200,
    drops the session and removes both instruments; every command after it
    is answered 418, and a [start] after it needs no [force]. *)
Theorem release_ends_session (data : Dict) (w : World) (s : SessionManager) :
  session w = Some s ->
  truthy (get data "token") = true ->
  is_str (get data "token") (id s) = true ->
  get data "command" = JStr "release" ->
  dispatch data w
  = (mkResponse 200 (MsgText "calibration session released"),
     set_hardware (set_session w None)
       (remove_instrument "right" (remove_instrument "left" (hardware w))))
  /\ (forall data', status (fst (dispatch data' (snd (dispatch data w)))) = 418%nat)
  /\ (forall body r, fst (start body (snd (dispatch data w))) = Ok r ->
                      status r <> 409%nat).
Proof.
  intros Hs Ht Hi Hc.
  assert (E : dispatch data w
              = (mkResponse 200 (MsgText "calibration session released"),
                 set_hardware (set_session w None)
                   (remove_instrument "right"
                      (remove_instrument "left" (hardware w))))).
  { unfold dispatch. rewrite Hs, Ht, Hc, Hi. reflexivity. }
  split; [exact E|]. rewrite E. cbn [snd]. split.
  - intro data'. reflexivity.
  - intros body r. unfold start. cbn [session set_hardware set_session].
    unfold SessionManager_init, _get_uuid. cbn [fst snd].
    match goal with
    | |- context [init_pipette ?s ?h] => destruct (init_pipette s h) as [[res s'] h']
    end.
    destruct res as [[[pm model]|]|e]; cbn; intro Hr;
      [injection Hr as <- | injection Hr as <- | discriminate Hr]; discriminate.
Qed.

Lemma assoc_assign_other {V : Type} (k k' : string) (v : V) (d : list (string * V)) :
  k' <> k -> assoc k' (assign k v d) = assoc k' d.
Proof.
  intro Hne. unfold assoc.
  induction d as [|[k0 v0] rest IH]; cbn.
  - destruct (String.eqb k k') eqn:E; [|reflexivity].
    apply String.eqb_eq in E. congruence.
  - destruct (String.eqb k0 k) eqn:E0; cbn.
    + apply String.eqb_eq in E0. subst k0.
      destruct (String.eqb k k') eqn:E; [|reflexivity].
      apply String.eqb_eq in E. congruence.
    + destruct (String.eqb k0 k'); [reflexivity | exact IH].
Qed.

(** X6.  [save xy] with a point name that is not one of the session's is
    answered 400 with nothing changed.  When it answers 200 it has set the
    named point and nothing else: the other points, the tip length, the Z
    value, the configuration, the hardware and the store are as before. *)
Theorem save_xy_changes_one_point (data : Dict) (w : World) (s : SessionManager) :
  session w = Some s ->
  (in_keys (get data "point") (map fst (points s)) = false ->
   save_xy data w
   = (Ok (mkResponse 400 (MsgPointInvalid (map fst (points s)))), w))
  /\ (forall r w', save_xy data w = (Ok r, w') -> status r = 200%nat ->
        exists k v s',
          get data "point" = JStr k
          /\ session w' = Some s'
          /\ assoc k (points s') = Some (Some v)
          /\ (forall k', k' <> k -> assoc k' (points s') = assoc k' (points s))
          /\ tip_length s' = tip_length s /\ z_value s' = z_value s
          /\ config w' = config w /\ hardware w' = hardware w
          /\ store w' = store w).
Proof.
  intro Hs. split.
  - intro Hin. unfold save_xy, bind, the_session. rewrite Hs, Hin. reflexivity.
  - intros r w' E Hst.
    unfold save_xy, bind, the_session, ret, hw_read, pipette_on, put_session,
      json_response, raise in E.
    rewrite Hs in E.
    destruct (in_keys (get data "point") (map fst (points s))) eqn:Hin;
      cbn [negb] in E;
      [|injection E as E _; subst r; discriminate].
    destruct (current_mount s) as [cm|];
      [|injection E as E _; subst r; discriminate].
    destruct (String.eqb cm "");
      [injection E as E _; subst r; discriminate|].
    destruct (assoc (mount_name s) (pipettes s)) as [p|]; [|discriminate].
    destruct (get data "point") as [| b | q | k | items | fields ];
      try discriminate.
    cbn [str_of] in E. injection E as Er Ew. subst w'.
    eexists k, _, _. split; [reflexivity|].
    split; [reflexivity|]. cbn [points set_points].
    split; [apply assoc_assign|].
    split; [intros k' Hne; apply assoc_assign_other; exact Hne|].
    repeat split.
Qed.

(** X7.  The tip length gates [save z].  A successful [attach tip] records
    the tip length of the request, which is then true; an [attach tip]
    whose tip length is missing, zero or otherwise false is answered 400
    with nothing changed; a successful [detach tip] clears the tip length;
    and while no true tip length is recorded [save z] is answered 400 with
    nothing changed. *)
Theorem tip_length_gates_save_z :
  (forall data w r w',
     attach_tip data w = (Ok r, w') -> status r = 200%nat ->
     exists s', session w' = Some s'
                /\ tip_length s' = get data "tipLength"
                /\ truthy (tip_length s') = true)
  /\ (forall data w s p,
        session w = Some s ->
        assoc (mount_name s) (pipettes s) = Some p ->
        truthy (get data "tipLength") = false ->
        attach_tip data w = (Ok (mkResponse 400 MsgTipLengthRequired), w))
  /\ (forall data w r w',
        detach_tip data w = (Ok r, w') ->
        exists s', session w' = Some s' /\ tip_length s' = JNull)
  /\ (forall data w s,
        session w = Some s ->
        truthy (tip_length s) = false ->
        save_z data w
        = (Ok (mkResponse 400 (MsgText "Tip length must be set before calibrating")),
           w)).
Proof.
  split; [|split; [|split]].
  - intros data w r w' E Hst.
    unfold attach_tip, bind, the_session, ret, hw_read, hw_run, pipette_on,
      put_session, json_response, raise in E.
    destruct (session w) as [s|]; [|discriminate].
    destruct (assoc (mount_name s) (pipettes s)) as [p|]; [|discriminate].
    destruct (truthy (get data "tipLength")) eqn:Ht; cbn [negb] in E;
      [|injection E as E _; subst r; discriminate].
    cbn in E. destruct (tip_attached p (hardware w)).
    + destruct (_remove_tip p (pipette_tip_length p (hardware w)) (hardware w))
        as [[u|e] h1]; cbn in E; [|discriminate].
      destruct (_add_tip p (get data "tipLength") h1) as [[u2|e2] h2];
        cbn in E; [|discriminate].
      injection E as _ Ew. subst w'. eexists. split; [reflexivity|].
      split; [reflexivity | exact Ht].
    + cbn in E.
      destruct (_add_tip p (get data "tipLength") (hardware w)) as [[u2|e2] h2];
        cbn in E; [|discriminate].
      injection E as _ Ew. subst w'. eexists. split; [reflexivity|].
      split; [reflexivity | exact Ht].
  - intros data w s p Hs Hp Ht.
    unfold attach_tip, bind, the_session, pipette_on. rewrite Hs, Hp. cbn.
    rewrite Ht. reflexivity.
  - intros data w r w' E.
    unfold detach_tip, bind, the_session, ret, hw_run, pipette_on,
      put_session, json_response, raise in E.
    destruct (session w) as [s|]; [|discriminate].
    destruct (assoc (mount_name s) (pipettes s)) as [p|]; [|discriminate].
    cbn in E.
    destruct (_remove_tip p (tip_length s) (hardware w)) as [[u|e] h1];
      cbn in E; [|discriminate].
    injection E as _ Ew. subst w'. eexists. split; reflexivity.
  - intros data w s Hs Ht. unfold save_z, bind, the_session.
    rewrite Hs, Ht. reflexivity.
Qed.

(** X8.  With a numeric, non-zero tip length recorded, [save z] stores the
    z of the mount's position, less the tip length, plus the z of the
    model's offset, and changes nothing else. *)
Theorem save_z_value (data : Dict) (w : World) (s : SessionManager)
    (cm model : string) (tip : Q) :
  session w = Some s ->
  tip_length s = JNum tip ->
  Qeq_bool tip 0 = false ->
  current_mount s = Some cm ->
  current_model s = Some model ->
  let z := vz (position cm (hardware w)) - tip + vz (model_offset (load model)) in
  save_z data w
  = (Ok (mkResponse 200 (MsgSavedZ z)),
     set_session w (Some (set_z_value s (Some z)))).
Proof.
  intros Hs Ht Hz Hcm Hm z.
  unfold save_z, bind, the_session. rewrite Hs, Ht. cbn [truthy].
  rewrite Hz, Hcm, Hm. reflexivity.
Qed.

(** X9.  A valid [jog] drives the upper-cased axis it names, and for [z]
    the axis of the session's mount; it passes the direction and the step
    on as given, answers 200 with the position the jog reports, lets an
    exception of the jog through, and changes only the hardware. *)
Theorem run_jog_drives_axis (data : Dict) (w : World) (s : SessionManager)
    (axis cm : string) :
  session w = Some s ->
  current_mount s = Some cm ->
  get data "axis" = JStr axis ->
  axis_ok (JStr axis) = true ->
  direction_ok (get data "direction") = true ->
  is_none (get data "step") = false ->
  let driven := if String.eqb axis "z" then upper cm else upper axis in
  (driven = "X" \/ driven = "Y" \/ driven = upper cm)
  /\ run_jog data w
     = match jog driven (get data "direction") (get data "step") (hardware w) with
       | (Ok pos, h) => (Ok (mkResponse 200 (MsgJogged pos)), set_hardware w h)
       | (Raise e, h) => (Raise e, set_hardware w h)
       end.
Proof.
  intros Hs Hcm Ha Hok Hd Hn driven. split.
  - unfold driven, axis_ok, is_str in *.
    destruct (String.eqb axis "x") eqn:Ex.
    + apply String.eqb_eq in Ex. subst axis. left. reflexivity.
    + destruct (String.eqb axis "y") eqn:Ey.
      * apply String.eqb_eq in Ey. subst axis. right. left. reflexivity.
      * cbn in Hok. rewrite Hok. right. right. reflexivity.
  - unfold run_jog, bind, the_session, ret, hw_run, json_response.
    rewrite Ha in *. rewrite Hok, Hd, Hn. cbn [negb is_str].
    unfold driven.
    destruct (String.eqb axis "z").
    + rewrite Hs, Hcm.
      destruct (jog (upper cm) (get data "direction") (get data "step") (hardware w))
        as [[pos|e] h]; reflexivity.
    + destruct (jog (upper axis) (get data "direction") (get data "step") (hardware w))
        as [[pos|e] h]; reflexivity.
Qed.

(** X10.  [move] changes nothing but the hardware; a point name it does not
    know, or one that is not a string, is answered 400 with nothing
    changed at all; a list or an object as the name raises. *)
Theorem move_touches_only_hardware (data : Dict) (w : World) :
  (session (snd (move data w)) = session w
   /\ config (snd (move data w)) = config w
   /\ store (snd (move data w)) = store w)
  /\ (hashable (get data "point") = true ->
      (forall k, get data "point" = JStr k -> assoc k safe_points = None) ->
      move data w = (Ok (mkResponse 400 MsgPointNameInvalid), w))
  /\ (hashable (get data "point") = false ->
      move data w = (Raise TypeError, w)).
Proof.
  split; [|split].
  - unfold move, safe_point, bind, the_session, ret, raise, hw_do, pipette_on,
      json_response.
    destruct (get data "point") as [| b | q | k | items | fields ];
      try (repeat split; reflexivity).
    destruct (assoc k safe_points) as [[|x [|y [|z [|t rest]]]]|];
      try (repeat split; reflexivity).
    destruct (session w) as [s|] eqn:Es; [|cbn; repeat split; auto].
    destruct (assoc (mount_name s) (pipettes s)) as [p|];
      cbn; repeat split; auto.
  - intros Hh Hk. unfold move, safe_point, bind, ret, json_response.
    destruct (get data "point") as [| b | q | k | items | fields ];
      try reflexivity; try discriminate.
    rewrite (Hk k eq_refl). reflexivity.
  - intros Hh. unfold move, safe_point, bind, raise.
    destruct (get data "point"); try discriminate; reflexivity.
Qed.

(** X11.  With the three points recorded and [solve] and [add_z]
    returning, [save transform] answers 200; [robot.config] then carries
    the new matrix as gantry calibration and the mount offset it had; the
    store receives that configuration twice, saved and then backed up (the
    backup holds the new calibration, not the one replaced); session and
    hardware are untouched. *)
Theorem save_transform_persists (data : Dict) (w : World) (s : SessionManager)
    (flat_matrix m : Matrix) :
  session w = Some s ->
  any_point_missing s = false ->
  solve (map snd expected_points) (actual_points s) = Ok flat_matrix ->
  add_z flat_matrix (z_value s) = Ok m ->
  let out := save_transform data w in
  status_of out = Some 200%nat
  /\ gantry_calibration (config (snd out)) = m
  /\ mount_offset (config (snd out)) = mount_offset (config w)
  /\ store (snd out)
     = (store w ++ [SaveDeckCalibration (config (snd out));
                    BackupConfiguration (config (snd out))])%list
  /\ session (snd out) = session w
  /\ hardware (snd out) = hardware w.
Proof.
  intros Hs Hm Hsolve Hz out. unfold out.
  rewrite (save_transform_run data w s Hs Hm), Hsolve, Hz.
  cbn. rewrite <- app_assoc. repeat split.
Qed.

End Endpoints.

(** *** A bench on which the endpoints run

    The gantry position and the models found on the two mounts are all the
    hardware there is.  A move puts the tip it is issued for on the issued
    point, the axial centre of a multi-channel pipette lying
    [bench_Y_OFFSET_MULTI] before its A1 tip. *)

Record Bench : Type := mkBench {
  gantry : Vec3;
  left_model : option string;
  right_model : option string
}.

Definition bench_dots_set : (Q * Q) * (Q * Q) * (Q * Q) :=
  ((1213 # 100, 6), (38087 # 100, 6), (1213 # 100, 261)).

Definition bench_z_pos : list Q := [1705 # 10; 129; 5].

Definition bench_Y_OFFSET_MULTI : Q := 63 # 2.

Definition bench_configs : list string := ["p300_single_v1"; "p300_multi_v1"].

Definition bench_load (model : string) : PipetteConfig :=
  if String.eqb model "p300_multi_v1"
  then mkPipetteConfig 8 (0, 63 # 2, - (258 # 10))
  else mkPipetteConfig 1 (0, 0, 2 # 10).

Definition bench_default_gantry_calibration : Matrix :=
  [[1; 0; 0; 0]; [0; 1; 0; 0]; [0; 0; 1; 0]; [0; 0; 0; 1]].

Fixpoint bench_uuid1 (n : nat) : string :=
  match n with
  | O => "uuid"
  | S m => "+" ++ bench_uuid1 m
  end.

Definition bench_model_by_mount (h : Bench) (m : string) : option string :=
  if String.eqb m "left" then left_model h else right_model h.

Definition bench_config_tip_length (model : string) : Q := 517 # 10.

Definition bench_add_instrument (m : string) (h : Bench) : Bench := h.
Definition bench_remove_instrument (m : string) (h : Bench) : Bench := h.

Definition bench_position (cm : string) (h : Bench) : Vec3 := gantry h.

Definition bench_jog (axis : string) (direction step : json) (h : Bench)
    : Exc Vec3 * Bench :=
  match number_of direction, number_of step with
  | Some d, Some st =>
      let g := gantry h in
      let g' :=
        if String.eqb axis "X" then (vx g + d * st, vy g, vz g)
        else if String.eqb axis "Y" then (vx g, vy g + d * st, vz g)
        else (vx g, vy g, vz g + d * st) in
      (Ok g', mkBench g' (left_model h) (right_model h))
  | _, _ => (Raise TypeError, h)
  end.

Definition bench_pipette_move_to (p : Pipette) (point : Vec3) (h : Bench) : Bench :=
  let dy := if Nat.eqb (channels p) 1 then 0 else bench_Y_OFFSET_MULTI in
  mkBench (subtract point (0, dy, 0)) (left_model h) (right_model h).

Definition bench_tip_attached (p : Pipette) (h : Bench) : bool := false.
Definition bench_pipette_tip_length (p : Pipette) (h : Bench) : json := JNull.
Definition bench_add_tip (p : Pipette) (t : json) (h : Bench) : Exc unit * Bench :=
  (Ok tt, h).
Definition bench_remove_tip (p : Pipette) (t : json) (h : Bench) : Exc unit * Bench :=
  (Ok tt, h).

(** A stand-in for [linal.solve]: the shift between the first expected and
    the first measured point. *)
Definition bench_solve (expected actual : list (Q * Q)) : Exc Matrix :=
  match expected, actual with
  | e :: _, a :: _ =>
      Ok [[1; 0; fst a - fst e]; [0; 1; snd a - snd e]; [0; 0; 1]]
  | _, _ => Raise (OtherError "LinAlgError")
  end.

(** A stand-in for [linal.add_z] that refuses [None]. *)
Definition bench_add_z (xy : Matrix) (z : option Q) : Exc Matrix :=
  match z, xy with
  | Some zv, [[a; b; c]; [d; e; f]; _] =>
      Ok [[a; b; 0; c]; [d; e; 0; f]; [0; 0; 1; zv]; [0; 0; 0; 1]]
  | _, _ => Raise TypeError
  end.

Definition bench_config : robot_config :=
  mk_robot_config [[1; 0; 0; 3]; [0; 1; 0; 4]; [0; 0; 1; 5]; [0; 0; 0; 1]]
                  (-34, 0, 0).

(** A multi-channel pipette on the right mount. *)
Definition bench_hardware : Bench :=
  mkBench (0, 0, 0) None (Some "p300_multi_v1").

Definition bench_multi : Pipette := mkPipette "right" 8.

(** No session yet. *)
Definition bench_idle : World Bench :=
  mkWorld Bench None bench_config bench_hardware [] 0.

(** A live session with nothing recorded. *)
Definition bench_session : SessionManager :=
  mkSession "uuid" [("right", bench_multi)] (Some "A") (Some "p300_multi_v1")
            JNull [("1", None); ("2", None); ("3", None)] None.

Definition bench_live : World Bench :=
  mkWorld Bench (Some bench_session) bench_config bench_hardware [] 1.

(** A live session with the three points recorded and no Z value. *)
Definition bench_session_no_z : SessionManager :=
  set_points bench_session
    [("1", Some (13, 7)); ("2", Some (381, 7)); ("3", Some (13, 262))].

Definition bench_live_no_z : World Bench :=
  mkWorld Bench (Some bench_session_no_z) bench_config bench_hardware [] 1.

Definition bench_start : option Dict -> World Bench -> Exc Response * World Bench :=
  start Bench bench_dots_set bench_configs bench_load
        bench_default_gantry_calibration bench_uuid1
        bench_model_by_mount bench_config_tip_length bench_add_instrument bench_remove_instrument.

Definition bench_dispatch : Dict -> World Bench -> Response * World Bench :=
  dispatch Bench bench_dots_set bench_z_pos bench_Y_OFFSET_MULTI bench_load
           bench_remove_instrument bench_jog bench_position bench_pipette_move_to
           bench_tip_attached bench_pipette_tip_length bench_add_tip
           bench_remove_tip bench_solve bench_add_z.

Definition bench_save_transform : Dict -> World Bench -> Exc Response * World Bench :=
  save_transform Bench bench_dots_set bench_solve bench_add_z.

(** The request that meets the session with three points and no Z. *)
Definition save_transform_request : Dict :=
  [("token", JStr "uuid"); ("command", JStr "save transform")].

Lemma save_transform_without_z_witness :
  bench_save_transform save_transform_request bench_live_no_z
  = (Raise TypeError, bench_live_no_z).
Proof.
  exact (save_transform_without_z Bench bench_dots_set bench_solve bench_add_z
           save_transform_request bench_live_no_z bench_session_no_z
           eq_refl eq_refl eq_refl).
Defined.

(** Through [dispatch] the same request is answered 500 on the bench, where
    [add_z] refuses [None]; it is never answered 400. *)
Example save_transform_without_z_dispatched :
  bench_dispatch save_transform_request bench_live_no_z
  = (mkResponse 500 (MsgException TypeError save_transform_request),
     bench_live_no_z).
Proof. reflexivity. Qed.

(** With a point missing the answer is 400 and nothing is written. *)
Example save_transform_missing_point_dispatched :
  bench_dispatch save_transform_request bench_live
  = (mkResponse 400 (MsgText "Not all points have been saved"), bench_live).
Proof. reflexivity. Qed.

(** C6, counterexample.  A body with a wrong token and no command is
    answered with the missing-command error (400), not with the token
    error (403): the presence of the command is checked before the token
    is compared. *)
Lemma command_presence_checked_before_token :
  ~ token_checked_before_fields Bench bench_dots_set bench_z_pos
      bench_Y_OFFSET_MULTI bench_load bench_remove_instrument bench_jog
      bench_position bench_pipette_move_to bench_tip_attached
      bench_pipette_tip_length bench_add_tip bench_remove_tip bench_solve
      bench_add_z [("token", JStr "other")] bench_live.
Proof.
  intro H. specialize (H bench_session eq_refl eq_refl eq_refl).
  vm_compute in H. discriminate H.
Qed.

(** In [jog] the axis name is checked before the presence of the step. *)
Example jog_axis_checked_before_step :
  bench_dispatch [("token", JStr "uuid"); ("command", JStr "jog");
                  ("axis", JStr "q"); ("direction", JNum 1)] bench_live
  = (mkResponse 400 MsgAxisInvalid, bench_live).
Proof. reflexivity. Qed.

Lemma dispatch_validation_order_witness :
  bench_dispatch [("token", JStr "uuid"); ("command", JStr "jog");
                  ("axis", JStr "x"); ("direction", JNum 1)] bench_live
  = (mkResponse 400 MsgStepRequired, bench_live).
Proof.
  pose proof (proj2 (dispatch_validation_order Bench bench_dots_set bench_z_pos
              bench_Y_OFFSET_MULTI bench_load bench_remove_instrument bench_jog
              bench_position bench_pipette_move_to bench_tip_attached
              bench_pipette_tip_length bench_add_tip bench_remove_tip
              bench_solve bench_add_z
              [("token", JStr "uuid"); ("command", JStr "jog");
               ("axis", JStr "x"); ("direction", JNum 1)] bench_live)
                bench_session eq_refl) as Hlive.
  pose proof (proj2 (proj2 (proj2 Hlive)) eq_refl eq_refl eq_refl) as Hrouted.
  pose proof (proj2 Hrouted eq_refl) as Hjog.
  exact (proj2 (proj2 Hjog) eq_refl eq_refl eq_refl).
Defined.

(** A robot whose left mount reports a model the configurations do not
    hold, and a robot with no pipette at all. *)
Definition bench_unknown : World Bench :=
  mkWorld Bench None bench_config (mkBench (0, 0, 0) (Some "p50_single_v9") None) [] 0.



(** A forced start on the bench: a new session, a new token. *)
Example forced_start_run :
  let out := bench_start (Some [("force", JBool true)]) bench_live in
  fst out = Ok (mkResponse 201 (MsgStarted "+uuid" "right" "p300_multi_v1"))
  /\ session Bench (snd out)
     = Some (mkSession "+uuid" [("right", bench_multi)] (Some "A")
               (Some "p300_multi_v1") JNull
               [("1", None); ("2", None); ("3", None)] None).
Proof. split; reflexivity. Qed.

(** A start that raises leaves a session nobody holds the token of: the
    next start without [force] is answered 409. *)
Example start_raises_run :
  fst (bench_start None bench_unknown) = Raise KeyError
  /\ fst (bench_start None (snd (bench_start None bench_unknown)))
     = Ok (mkResponse 409 MsgSessionInProgress).
Proof. split; reflexivity. Qed.

Lemma session_start_resets_gantry_calibration_witness :
  gantry_calibration (config Bench (snd (bench_start None bench_idle)))
  = bench_default_gantry_calibration
  /\ mount_offset (config Bench (snd (bench_start None bench_idle)))
     = mount_offset bench_config.
Proof.
  exact (proj1 (session_start_resets_gantry_calibration Bench bench_dots_set
                  bench_z_pos bench_Y_OFFSET_MULTI bench_configs bench_load
                  bench_default_gantry_calibration bench_uuid1
                  bench_model_by_mount bench_config_tip_length bench_add_instrument
                  bench_remove_instrument bench_jog bench_position
                  bench_pipette_move_to bench_tip_attached
                  bench_pipette_tip_length bench_add_tip bench_remove_tip
                  bench_solve bench_add_z)
           None bench_idle (or_introl eq_refl)).
Defined.

Definition bench_move : Dict -> World Bench -> Exc Response * World Bench :=
  move Bench bench_dots_set bench_z_pos bench_Y_OFFSET_MULTI bench_pipette_move_to.

Definition bench_save_xy : Dict -> World Bench -> Exc Response * World Bench :=
  save_xy Bench bench_Y_OFFSET_MULTI bench_position.

(** *** The further facts on the bench *)


Lemma started_session_has_its_pipette_witness :
  exists s' p model,
    session Bench (snd (bench_start None bench_idle)) = Some s'
    /\ assoc (mount_name s') (pipettes s') = Some p
    /\ mount p = mount_name s'
    /\ current_model s' = Some model
    /\ fst (bench_start None bench_idle)
       = Ok (mkResponse 201 (MsgStarted (id s') (mount p) model)).
Proof.
  destruct (started_session_has_its_pipette Bench bench_dots_set bench_configs
              bench_load bench_default_gantry_calibration bench_uuid1
              bench_model_by_mount bench_config_tip_length bench_add_instrument
              bench_remove_instrument None bench_idle
              (mkResponse 201 (MsgStarted "uuid" "right" "p300_multi_v1"))
              eq_refl eq_refl)
    as [s' [p [model [Hs [Ha [Hm [Hc Hr]]]]]]].
  exists s', p, model.
  split; [exact Hs|]. split; [exact Ha|]. split; [exact Hm|]. split; [exact Hc|].
  rewrite <- Hr. reflexivity.
Defined.

Definition bench_dispatch_request
    : option json -> World Bench -> Exc Response * World Bench :=
  dispatch_request Bench bench_dots_set bench_z_pos bench_Y_OFFSET_MULTI
                   bench_load bench_remove_instrument bench_jog bench_position
                   bench_pipette_move_to bench_tip_attached
                   bench_pipette_tip_length bench_add_tip bench_remove_tip
                   bench_solve bench_add_z.

Lemma dispatch_status_codes_witness :
  bench_dispatch_request None bench_live
  = (Raise (OtherError "JSONDecodeError"), bench_live)
  /\ (exists m, bench_dispatch_request (Some (JArray [])) bench_live
                = (Ok (mkResponse 500 m), bench_live))
  /\ (exists r, fst (bench_dispatch_request None bench_idle) = Ok r
                /\ In (status r) [200; 400; 403; 418; 500]%nat).
Proof.
  assert (Hlive : session Bench bench_live <> None) by discriminate.
  assert (Hshape : forall data : Dict, JArray [] <> JObject data) by discriminate.
  split; [|split].
  - exact (proj1 (dispatch_status_codes Bench bench_dots_set bench_z_pos
                    bench_Y_OFFSET_MULTI bench_load bench_remove_instrument
                    bench_jog bench_position bench_pipette_move_to
                    bench_tip_attached bench_pipette_tip_length bench_add_tip
                    bench_remove_tip bench_solve bench_add_z None bench_live)
             Hlive eq_refl).
  - exact (proj1 (proj2 (proj2 (dispatch_status_codes Bench bench_dots_set
                    bench_z_pos bench_Y_OFFSET_MULTI bench_load
                    bench_remove_instrument bench_jog bench_position
                    bench_pipette_move_to bench_tip_attached
                    bench_pipette_tip_length bench_add_tip bench_remove_tip
                    bench_solve bench_add_z (Some (JArray [])) bench_live)))
             (JArray []) Hlive eq_refl Hshape).
  - exact (proj1 (proj2 (dispatch_status_codes Bench bench_dots_set
                    bench_z_pos bench_Y_OFFSET_MULTI bench_load
                    bench_remove_instrument bench_jog bench_position
                    bench_pipette_move_to bench_tip_attached
                    bench_pipette_tip_length bench_add_tip bench_remove_tip
                    bench_solve bench_add_z None bench_idle))
             (or_introl eq_refl)).
Defined.

Definition jog_request : Dict :=
  [("token", JStr "uuid"); ("command", JStr "jog"); ("axis", JStr "z");
   ("direction", JNum (-1)); ("step", JNum 2)].

Lemma dispatch_keeps_session_identity_witness :
  match session Bench (snd (bench_dispatch jog_request bench_live)) with
  | Some s' =>
      id s' = "uuid" /\ pipettes s' = [("right", bench_multi)]
      /\ current_mount s' = Some "A"
      /\ current_model s' = Some "p300_multi_v1"
      /\ map fst (points s') = ["1"; "2"; "3"]
  | None => True
  end.
Proof.
  exact (dispatch_keeps_session_identity Bench bench_dots_set bench_z_pos
           bench_Y_OFFSET_MULTI bench_load bench_remove_instrument bench_jog
           bench_position bench_pipette_move_to bench_tip_attached
           bench_pipette_tip_length bench_add_tip bench_remove_tip bench_solve
           bench_add_z jog_request bench_live bench_session eq_refl).
Defined.

Definition release_request : Dict :=
  [("token", JStr "uuid"); ("command", JStr "release")].

Lemma release_ends_session_witness :
  bench_dispatch release_request bench_live
  = (mkResponse 200 (MsgText "calibration session released"),
     set_hardware Bench (set_session Bench bench_live None) bench_hardware).
Proof.
  exact (proj1 (release_ends_session Bench bench_dots_set bench_z_pos
                  bench_Y_OFFSET_MULTI bench_configs bench_load
                  bench_default_gantry_calibration bench_uuid1
                  bench_model_by_mount bench_config_tip_length bench_add_instrument
                  bench_remove_instrument bench_jog bench_position
                  bench_pipette_move_to bench_tip_attached
                  bench_pipette_tip_length bench_add_tip bench_remove_tip
                  bench_solve bench_add_z release_request bench_live
                  bench_session eq_refl eq_refl eq_refl eq_refl)).
Defined.

Lemma save_xy_changes_one_point_witness :
  bench_save_xy [("point", JStr "4")] bench_live
  = (Ok (mkResponse 400 (MsgPointInvalid ["1"; "2"; "3"])), bench_live)
  /\ exists k v s',
       get [("point", JStr "2")] "point" = JStr k
       /\ session Bench (snd (bench_save_xy [("point", JStr "2")] bench_live))
          = Some s'
       /\ assoc k (points s') = Some (Some v)
       /\ (forall k', k' <> k -> assoc k' (points s') = assoc k' (points bench_session))
       /\ tip_length s' = JNull /\ z_value s' = None
       /\ config Bench (snd (bench_save_xy [("point", JStr "2")] bench_live))
          = bench_config
       /\ hardware Bench (snd (bench_save_xy [("point", JStr "2")] bench_live))
          = bench_hardware
       /\ store Bench (snd (bench_save_xy [("point", JStr "2")] bench_live)) = [].
Proof.
  split.
  - exact (proj1 (save_xy_changes_one_point Bench bench_Y_OFFSET_MULTI
                    bench_position [("point", JStr "4")] bench_live
                    bench_session eq_refl) eq_refl).
  - exact (proj2 (save_xy_changes_one_point Bench bench_Y_OFFSET_MULTI
                    bench_position [("point", JStr "2")] bench_live
                    bench_session eq_refl)
             _ _ eq_refl eq_refl).
Defined.

Definition bench_attach_tip : Dict -> World Bench -> Exc Response * World Bench :=
  attach_tip Bench bench_tip_attached bench_pipette_tip_length bench_add_tip
             bench_remove_tip.

Definition bench_detach_tip : Dict -> World Bench -> Exc Response * World Bench :=
  detach_tip Bench bench_remove_tip.

Definition bench_save_z : Dict -> World Bench -> Exc Response * World Bench :=
  save_z Bench bench_load bench_position.

(** Attach a 51 mm tip, detach it, and [save z] is refused; a tip length
    of zero is refused outright. *)
Lemma tip_length_gates_save_z_witness :
  (exists s', session Bench (snd (bench_attach_tip [("tipLength", JNum 51)] bench_live))
              = Some s'
              /\ tip_length s' = JNum 51)
  /\ bench_attach_tip [("tipLength", JNum 0)] bench_live
     = (Ok (mkResponse 400 MsgTipLengthRequired), bench_live)
  /\ bench_save_z []
       (snd (bench_detach_tip []
               (snd (bench_attach_tip [("tipLength", JNum 51)] bench_live))))
     = (Ok (mkResponse 400 (MsgText "Tip length must be set before calibrating")),
        snd (bench_detach_tip []
               (snd (bench_attach_tip [("tipLength", JNum 51)] bench_live)))).
Proof.
  pose proof (tip_length_gates_save_z Bench bench_load bench_position
                bench_tip_attached bench_pipette_tip_length bench_add_tip
                bench_remove_tip) as [Hattach [Hrefuse [Hdetach Hsave]]].
  split; [|split].
  - destruct (Hattach [("tipLength", JNum 51)] bench_live _ _ eq_refl eq_refl)
      as [s' [Hs [Ht _]]].
    exists s'. split; [exact Hs | exact Ht].
  - exact (Hrefuse [("tipLength", JNum 0)] bench_live bench_session bench_multi
             eq_refl eq_refl eq_refl).
  - destruct (Hdetach []
                (snd (bench_attach_tip [("tipLength", JNum 51)] bench_live))
                _ _ eq_refl) as [s' [Hs Ht]].
    apply (Hsave [] _ s' Hs). rewrite Ht. reflexivity.
Defined.

Definition bench_live_tipped : World Bench :=
  mkWorld Bench (Some (set_tip_length bench_session (JNum 51))) bench_config
          bench_hardware [] 1.

Lemma save_z_value_witness :
  bench_save_z [] bench_live_tipped
  = (Ok (mkResponse 200 (MsgSavedZ (0 - 51 + - (258 # 10)))),
     set_session Bench bench_live_tipped
       (Some (set_z_value (set_tip_length bench_session (JNum 51))
                (Some (0 - 51 + - (258 # 10)))))).
Proof.
  exact (save_z_value Bench bench_load bench_position [] bench_live_tipped
           (set_tip_length bench_session (JNum 51)) "A" "p300_multi_v1" 51
           eq_refl eq_refl eq_refl eq_refl eq_refl).
Defined.

Definition bench_run_jog : Dict -> World Bench -> Exc Response * World Bench :=
  run_jog Bench bench_jog.

(** A jog on z by two steps down moves the A axis of the bench. *)
Lemma run_jog_drives_axis_witness :
  bench_run_jog jog_request bench_live
  = (Ok (mkResponse 200 (MsgJogged (0, 0, 0 + -1 * 2))),
     set_hardware Bench bench_live
       (mkBench (0, 0, 0 + -1 * 2) None (Some "p300_multi_v1"))).
Proof.
  exact (proj2 (run_jog_drives_axis Bench bench_jog jog_request bench_live
                  bench_session "z" "A" eq_refl eq_refl eq_refl eq_refl
                  eq_refl eq_refl)).
Defined.

Lemma move_touches_only_hardware_witness :
  bench_move [("point", JStr "4")] bench_live
  = (Ok (mkResponse 400 MsgPointNameInvalid), bench_live)
  /\ bench_move [("point", JArray [JStr "1"])] bench_live
     = (Raise TypeError, bench_live).
Proof.
  split.
  - apply (proj1 (proj2 (move_touches_only_hardware Bench bench_dots_set
                           bench_z_pos bench_Y_OFFSET_MULTI bench_pipette_move_to
                           [("point", JStr "4")] bench_live)));
      [reflexivity|].
    intros k Hk. injection Hk as Hk. subst k. reflexivity.
  - exact (proj2 (proj2 (move_touches_only_hardware Bench bench_dots_set
                           bench_z_pos bench_Y_OFFSET_MULTI bench_pipette_move_to
                           [("point", JArray [JStr "1"])] bench_live))
             eq_refl).
Defined.

(** The three points recorded and a Z value of 5. *)
Definition bench_live_ready : World Bench :=
  mkWorld Bench (Some (set_z_value bench_session_no_z (Some 5))) bench_config
          bench_hardware [] 1.

Lemma save_transform_persists_witness :
  let out := bench_save_transform save_transform_request bench_live_ready in
  status_of Bench out = Some 200%nat
  /\ gantry_calibration (config Bench (snd out))
     = [[1; 0; 0; 13 - (1213 # 100)]; [0; 1; 0; 7 - 6]; [0; 0; 1; 5]; [0; 0; 0; 1]]
  /\ store Bench (snd out)
     = [SaveDeckCalibration (config Bench (snd out));
        BackupConfiguration (config Bench (snd out))].
Proof.
  destruct (save_transform_persists Bench bench_dots_set bench_solve bench_add_z
              save_transform_request bench_live_ready
              (set_z_value bench_session_no_z (Some 5))
              [[1; 0; 13 - (1213 # 100)]; [0; 1; 7 - 6]; [0; 0; 1]]
              [[1; 0; 0; 13 - (1213 # 100)]; [0; 1; 0; 7 - 6]; [0; 0; 1; 5];
               [0; 0; 0; 1]]
              eq_refl eq_refl eq_refl eq_refl)
    as [Hst [Hg [_ [Hstore _]]]].
  cbv zeta. split; [exact Hst|]. split; [exact Hg | exact Hstore].
Defined.

End Calibration.
